(** * gmail-tui: the session controller and the MIME codec

A shallow embedding of the Go sources (email.go, main.go and its command
file, types.go, the update file) and the properties of the specification
proved or refuted on it.

Go strings are byte sequences: they are modelled by [string], whose
characters are the 8-bit [ascii].  [len] is [String.length]. *)

From Stdlib Require Import ZArith List String Ascii Bool Lia Arith DecimalString.
Import ListNotations.

Set Warnings "-register-all".

Open Scope string_scope.
Open Scope Z_scope.

(** ** Go strings *)

Module GoString.

Definition LF : ascii := "010"%char.
Definition CR : ascii := "013"%char.

Definition nl : string := String LF EmptyString.

(** [strings.Repeat]. *)
Fixpoint Repeat (s : string) (count : nat) : string :=
  match count with
  | O => EmptyString
  | S n => s ++ Repeat s n
  end.

(** The slice [s[:n]] for [n <= len(s)]. *)
Fixpoint take (n : nat) (s : string) : string :=
  match n, s with
  | S n', String c t => String c (take n' t)
  | _, _ => EmptyString
  end.

(** [strings.Split(s, sep)] for a one-byte separator. *)
Fixpoint Split (sep : ascii) (s : string) : list string :=
  match s with
  | EmptyString => [EmptyString]
  | String c t =>
      if Ascii.eqb c sep then EmptyString :: Split sep t
      else match Split sep t with
           | [] => [String c EmptyString]
           | l :: ls => String c l :: ls
           end
  end.

(** [strings.Join]. *)
Fixpoint Join (elems : list string) (sep : string) : string :=
  match elems with
  | [] => EmptyString
  | [e] => e
  | e :: rest => e ++ sep ++ Join rest sep
  end.

(** [strings.HasPrefix]. *)
Definition HasPrefix (s pre : string) : bool := String.prefix pre s.

Definition isEmpty (s : string) : bool :=
  match s with EmptyString => true | _ => false end.

Fixpoint contains (c : ascii) (s : string) : bool :=
  match s with
  | EmptyString => false
  | String d t => Ascii.eqb d c || contains c t
  end.

Definition byteZ (c : ascii) : Z := Z.of_N (N_of_ascii c).
Definition Zbyte (z : Z) : ascii := ascii_of_N (Z.to_N (Z.land z 255)).

End GoString.
Import GoString.

(** ** encoding/base64

The decoder and encoder of Go's standard library, which [decodeBody],
[sendEmail] and [downloadAttachment] call.  [DecodeString] follows
[decodeQuantum]: it reads the input in groups of four alphabet
characters, skips CR and LF anywhere, accepts padding only to complete
the last group and only when followed by nothing but CR and LF, and
reports every other byte as corrupt input ([None]). *)

Module Base64.

Definition encodeStd : string :=
  "ABCDEFGHIJKLMNOPQRSTUVWXYZabcdefghijklmnopqrstuvwxyz0123456789+/".
Definition encodeURL : string :=
  "ABCDEFGHIJKLMNOPQRSTUVWXYZabcdefghijklmnopqrstuvwxyz0123456789-_".

Record Encoding := mkEncoding {
  alphabet : string;
  padChar : option ascii   (* [None] is NoPadding *)
}.

Definition StdEncoding := mkEncoding encodeStd (Some "="%char).
Definition URLEncoding := mkEncoding encodeURL (Some "="%char).
Definition RawURLEncoding := mkEncoding encodeURL None.

Fixpoint indexOf (c : ascii) (s : string) (i : Z) : Z :=
  match s with
  | EmptyString => 255
  | String d t => if Ascii.eqb d c then i else indexOf c t (i + 1)
  end.

(** [enc.decodeMap[c]]: the position of [c] in the alphabet, 0xff when
    it is not there. *)
Definition decodeMap (enc : Encoding) (c : ascii) : Z :=
  indexOf c (alphabet enc) 0.

(** [enc.encode[i]]. *)
Definition encodeChar (enc : Encoding) (i : Z) : ascii :=
  match String.get (Z.to_nat i) (alphabet enc) with
  | Some c => c
  | None => "000"%char
  end.

Definition isNewline (c : ascii) : bool := Ascii.eqb c LF || Ascii.eqb c CR.

Fixpoint skipNewlines (s : string) : string :=
  match s with
  | String c t => if isNewline c then skipNewlines t else s
  | EmptyString => EmptyString
  end.

(** The bytes of one quantum of [dlen = length q] six-bit values:
    [dlen - 1] bytes of the 24-bit value they assemble to. *)
Definition quantumBytes (q : list Z) : list ascii :=
  let d i := nth i q 0 in
  let val := Z.lor (Z.lor (Z.lor (Z.shiftl (d 0%nat) 18) (Z.shiftl (d 1%nat) 12))
                          (Z.shiftl (d 2%nat) 6)) (d 3%nat) in
  firstn (List.length q - 1)
         [Zbyte (Z.shiftr val 16); Zbyte (Z.shiftr val 8); Zbyte val].

(** The decoding loop; [q] holds the six-bit values read so far in the
    current quantum (fewer than four). *)
Fixpoint decodeFrom (enc : Encoding) (src : string) (q : list Z)
  : option (list ascii) :=
  match src with
  | EmptyString =>
      match q with
      | [] => Some []
      | [_] => None
      | _ => match padChar enc with
             | Some _ => None
             | None => Some (quantumBytes q)
             end
      end
  | String c rest =>
      let out := decodeMap enc c in
      if negb (out =? 255) then
        let q' := (q ++ [out])%list in
        if (List.length q' =? 4)%nat
        then option_map (app (quantumBytes q')) (decodeFrom enc rest [])
        else decodeFrom enc rest q'
      else if isNewline c then decodeFrom enc rest q
      else match padChar enc with
           | None => None
           | Some p =>
               if negb (Ascii.eqb c p) then None
               else match q with
                    | [] | [_] => None
                    | [_; _] =>
                        match skipNewlines rest with
                        | EmptyString => None
                        | String c2 r2 =>
                            if Ascii.eqb c2 p then
                              match skipNewlines r2 with
                              | EmptyString => Some (quantumBytes q)
                              | _ => None
                              end
                            else None
                        end
                    | _ =>
                        match skipNewlines rest with
                        | EmptyString => Some (quantumBytes q)
                        | _ => None
                        end
                    end
           end
  end.

(** [enc.DecodeString(s)]; [None] stands for a non-nil error. *)
Definition DecodeString (enc : Encoding) (s : string) : option string :=
  option_map string_of_list_ascii (decodeFrom enc s []).

Definition sextet (val : Z) (shift : Z) : Z :=
  Z.land (Z.shiftr val shift) 63.

Definition padding (enc : Encoding) (n : nat) : string :=
  match padChar enc with
  | Some p => Repeat (String p EmptyString) n
  | None => EmptyString
  end.

(** [enc.EncodeToString]: three bytes give four characters; a last
    group of one or two bytes gives two or three characters and the
    padding, if the encoding pads. *)
Fixpoint encodeBytes (enc : Encoding) (src : list ascii) : string :=
  match src with
  | a :: b :: c :: rest =>
      let val := Z.lor (Z.lor (Z.shiftl (byteZ a) 16) (Z.shiftl (byteZ b) 8)) (byteZ c) in
      String (encodeChar enc (sextet val 18))
        (String (encodeChar enc (sextet val 12))
          (String (encodeChar enc (sextet val 6))
            (String (encodeChar enc (sextet val 0)) (encodeBytes enc rest))))
  | [a; b] =>
      let val := Z.lor (Z.shiftl (byteZ a) 16) (Z.shiftl (byteZ b) 8) in
      String (encodeChar enc (sextet val 18))
        (String (encodeChar enc (sextet val 12))
          (String (encodeChar enc (sextet val 6)) (padding enc 1)))
  | [a] =>
      let val := Z.shiftl (byteZ a) 16 in
      String (encodeChar enc (sextet val 18))
        (String (encodeChar enc (sextet val 12)) (padding enc 2))
  | [] => EmptyString
  end.

Definition EncodeToString (enc : Encoding) (src : string) : string :=
  encodeBytes enc (list_ascii_of_string src).

(** [enc.EncodedLen(n)] of a padding encoding. *)
Definition EncodedLen (n : Z) : Z := (n + 2) / 3 * 4.

End Base64.

(** ** email.go: decodeBody *)

Definition decodeFailed : string := "Failed to decode body.".

(** decodeBody decodes base64-encoded email body *)
Definition decodeBody (body : string) : string :=
  let body :=
    if negb (String.length body mod 4 =? 0)%nat
    then body ++ Repeat "=" ((4 - String.length body mod 4) mod 4)
    else body in
  match Base64.DecodeString Base64.URLEncoding body with
  | Some decoded => decoded
  | None =>
      match Base64.DecodeString Base64.StdEncoding body with
      | Some decoded => decoded
      | None => decodeFailed
      end
  end.

(** The padding as the specification words it: [=] appended up to a
    multiple of four bytes. *)
Definition padToMultipleOf4 (s : string) : string :=
  s ++ Repeat "=" ((4 - String.length s mod 4) mod 4).

(** ** The Go library the program is linked with

What the program takes from Go's runtime and standard library and the
sources of this repository do not fix: the order in which [range] visits
a map (the runtime randomises it), the [time] package behind
[formatDate], the range tables of the [unicode] package above Latin-1,
and the MIME type table of the [mime] package. *)

Record GoLib := mkGoLib {
  (** the order in which [range entities] visits the map of [stripHTML] *)
  rangeOrder : list (string * string) -> list (string * string);
  instant : Type;
  (** [time.Parse(layout, value)], [None] on error *)
  timeParse : string -> string -> option instant;
  (** [t.Format(layout)] *)
  timeFormat : instant -> string -> string;
  (** [unicode.Letter] and [unicode.Number] above [unicode.MaxLatin1] *)
  letterTable : Z -> bool;
  numberTable : Z -> bool;
  (** [mime.TypeByExtension] *)
  TypeByExtension : string -> string
}.

(** A library instance to run the program on: maps are visited in the order
    they are written, no date layout parses, the tables above Latin-1 are
    empty and no extension is known. *)
Definition plainGo : GoLib :=
  mkGoLib (fun m => m) unit (fun _ _ => None) (fun _ _ => EmptyString)
          (fun _ => false) (fun _ => false) (fun _ => EmptyString).

(** ** google.golang.org/api/gmail/v1: the wire types the program reads *)

Record MessagePartHeader := mkHeader {
  Name : string;
  Value : string
}.

Record MessagePartBody := mkBody {
  AttachmentId : string;
  Data : string;
  Size : Z
}.

Inductive MessagePart := mkPart {
  MimeType : string;
  Filename : string;
  Headers : list MessagePartHeader;
  Body : option MessagePartBody;      (* [None] is the nil pointer *)
  Parts : list MessagePart
}.

Record Message := mkMessage {
  Id : string;
  ThreadId : string;
  Snippet : string;
  LabelIds : list string;
  Payload : option MessagePart
}.

Record Label := mkLabel {
  labelId : string;
  labelName : string
}.

(** Go's [error] values are modelled by their message. *)
Definition error := string.

Inductive result (A : Type) :=
| Ok (a : A)
| Err (e : error).
Arguments Ok {A} a.
Arguments Err {A} e.

(** [srv.Users.Messages.Get("me", id).Format(format).Do()]: an error, or a
    message pointer, which the program checks against nil. *)
Inductive GetResult :=
| GetError (e : error)
| GetNil
| GetOk (msg : Message).

(** An outgoing message as [sendEmail] assembles it in its temporary file:
    the header block, the text part, one part per attachment (its MIME
    header and the path of the file whose bytes are base64-encoded into it)
    and the closing boundaries. *)
Record OutPart := mkOutPart {
  partHeader : list (string * string);
  partFile : string
}.

Record OutMessage := mkOutMessage {
  outHeaders : string;
  outText : string;
  outParts : list OutPart;
  outClosing : string
}.

(** The mail service behind [srv]: one field per call the program makes. *)
Record Service := mkService {
  messagesGet : string -> string -> GetResult;
  messagesList : string -> Z -> result (list Message);
  messagesListByLabel : string -> Z -> result (list Message);
  labelsList : result (list Label);
  messagesSend : OutMessage -> result unit;
  messagesTrash : string -> result unit;
  messagesModify : string -> list string -> list string -> result unit;
  attachmentsGet : string -> string -> result string
}.

(** ** types.go: emailItem *)

Record emailItem := mkEmailItem {
  id : string;
  threadId : string;
  subject : string;
  from : string;
  snippet : string;
  date : string;
  labels : list string;
  isUnread : bool;
  body : string;
  recipient : string;
  cc : string;
  bcc : string;
  attachments : list MessagePart
}.

Definition emptyItem : emailItem :=
  mkEmailItem EmptyString EmptyString EmptyString EmptyString EmptyString
    EmptyString [] false EmptyString EmptyString EmptyString EmptyString [].

(** Description, the line shown under an item of the list. *)
Definition Description (e : emailItem) : string :=
  let snippet :=
    if (80 <? String.length (snippet e))%nat
    then take 77 (snippet e) ++ "..."
    else snippet e in
  from e ++ " - " ++ snippet.

(** ** email.go *)

(** findAttachments recursively finds all attachments in a message part *)
Fixpoint findAttachments (part : MessagePart) : list MessagePart :=
  if HasPrefix (MimeType part) "multipart/" then
    (fix descend (ps : list MessagePart) : list MessagePart :=
       match ps with
       | [] => []
       | p :: rest => (findAttachments p ++ descend rest)%list
       end) (Parts part)
  else if negb (isEmpty (Filename part)) then [part]
  else [].

(** indentText adds "> " prefix to each line for quoted text *)
Definition indentText (text : string) : string :=
  let lines := Split LF text in
  Join (map (fun line => "> " ++ line) lines) nl.

(** *** regexp and strings helpers of stripHTML *)

Module Html.

(** Replacing the matches of the regexp [<[^>]*>] by the empty string: a
    match starts at a [<] that has a [>] after it and ends at the first
    such [>]. *)
Fixpoint removeTags (inTag : bool) (s : string) : string :=
  match s with
  | EmptyString => EmptyString
  | String c t =>
      if inTag then
        if Ascii.eqb c ">" then removeTags false t else removeTags true t
      else if Ascii.eqb c "<" && contains ">" t then removeTags true t
      else String c (removeTags false t)
  end.

(** [strings.ReplaceAll(s, old, new)] for a non-empty [old]: the
    occurrences are replaced from left to right, without overlap; [skip]
    counts the bytes of the current occurrence still to drop. *)
Fixpoint replaceFrom (skip : nat) (old new : string) (s : string) : string :=
  match s with
  | EmptyString => EmptyString
  | String c t =>
      match skip with
      | S k => replaceFrom k old new t
      | O =>
          if String.prefix old s
          then new ++ replaceFrom (String.length old - 1) old new t
          else String c (replaceFrom O old new t)
      end
  end.

Definition ReplaceAll (s old new : string) : string :=
  replaceFrom O old new s.

(** The white-space class of Go's regexp: tab, LF, FF, CR and space. *)
Definition isReSpace (c : ascii) : bool :=
  existsb (Ascii.eqb c) ["009"; "010"; "012"; "013"; " "]%char.

(** Replacing every run of that class by one space. *)
Fixpoint collapseSpace (inRun : bool) (s : string) : string :=
  match s with
  | EmptyString => EmptyString
  | String c t =>
      if isReSpace c then
        if inRun then collapseSpace true t
        else String " " (collapseSpace true t)
      else String c (collapseSpace false t)
  end.

Definition bytes (l : list Z) : string := string_of_list_ascii (map Zbyte l).

(** The UTF-8 encodings of the runes with the White_Space property, the
    runes [unicode.IsSpace] accepts. *)
Definition spaceRunes : list string :=
  map bytes
    ([[9]; [10]; [11]; [12]; [13]; [32]; [194; 133]; [194; 160];
      [225; 154; 128]; [226; 128; 168]; [226; 128; 169]; [226; 128; 175];
      [226; 129; 159]; [227; 128; 128]]
     ++ map (fun k => [226; 128; 128 + Z.of_nat k]) (seq 0 11))%list.

Fixpoint drop (n : nat) (s : string) : string :=
  match n, s with
  | S n', String _ t => drop n' t
  | _, _ => s
  end.

Fixpoint rev (s : string) (acc : string) : string :=
  match s with
  | EmptyString => acc
  | String c t => rev t (String c acc)
  end.

(** One white-space rune at the front of [s], taken off. *)
Definition dropSpaceRune (pats : list string) (s : string) : option string :=
  match find (fun p => String.prefix p s) pats with
  | Some p => Some (drop (String.length p) s)
  | None => None
  end.

Fixpoint trimLeft (fuel : nat) (pats : list string) (s : string) : string :=
  match fuel with
  | O => s
  | S k =>
      match dropSpaceRune pats s with
      | Some r => trimLeft k pats r
      | None => s
      end
  end.

(** [strings.TrimSpace]. *)
Definition TrimSpace (s : string) : string :=
  let l := trimLeft (String.length s) spaceRunes s in
  let back := map (fun p => rev p EmptyString) spaceRunes in
  rev (trimLeft (String.length l) back (rev l EmptyString)) EmptyString.

End Html.

(** The map literal of stripHTML, as written. *)
Definition entities : list (string * string) :=
  [ ("&nbsp;", " "); ("&lt;", "<"); ("&gt;", ">"); ("&amp;", "&");
    ("&quot;", String "034" EmptyString); ("&apos;", "'"); ("&#39;", "'");
    ("&ndash;", "-");
    ("&mdash;", Html.bytes [195; 162; 226; 130; 172; 226; 128; 157]) ].

Definition formats : list string :=
  [ "Mon, 02 Jan 2006 15:04:05 -0700";     (* time.RFC1123Z *)
    "Mon, 02 Jan 2006 15:04:05 MST";       (* time.RFC1123 *)
    "Mon, 2 Jan 2006 15:04:05 -0700";
    "2 Jan 2006 15:04:05 -0700";
    "02 Jan 06 15:04 -0700";               (* time.RFC822Z *)
    "02 Jan 06 15:04 MST" ].               (* time.RFC822 *)

(** The scan of a multipart's children in extractPlainText: the first child
    of type [mime] on which [extract] is not empty. *)
Section Scan.

Variable extract : MessagePart -> string.
Variable mime : string.

Fixpoint scanParts (ps : list MessagePart) : option string :=
  match ps with
  | [] => None
  | p :: rest =>
      if String.eqb (MimeType p) mime then
        let text := extract p in
        if negb (isEmpty text) then Some text else scanParts rest
      else scanParts rest
  end.

End Scan.

Definition hasData (b : option MessagePartBody) : option string :=
  match b with
  | Some b => if negb (isEmpty (Data b)) then Some (Data b) else None
  | None => None
  end.

Section Decoder.

Variable go : GoLib.

(** stripHTML removes HTML tags and decodes entities *)
Definition stripHTML (input : string) : string :=
  let input := Html.removeTags false input in
  let input :=
    fold_left (fun acc er => Html.ReplaceAll acc (fst er) (snd er))
              (rangeOrder go entities) input in
  let input := Html.collapseSpace false input in
  Html.TrimSpace input.

(** formatDate parses and formats email dates *)
Definition formatDate (dateStr : string) : string :=
  (fix try (fs : list string) : string :=
     match fs with
     | [] => dateStr
     | format :: rest =>
         match timeParse go format dateStr with
         | Some t => timeFormat go t "Jan 02, 2006 15:04"
         | None => try rest
         end
     end) formats.

(** extractPlainText recursively extracts plain text from a message part *)
Fixpoint extractPlainText (payload : MessagePart) : string :=
  match (if String.eqb (MimeType payload) "text/plain"
         then hasData (Body payload) else None) with
  | Some data => decodeBody data
  | None =>
      let fromParts :=
        if HasPrefix (MimeType payload) "multipart/"
           && (0 <? List.length (Parts payload))%nat
        then
          match scanParts extractPlainText "text/plain" (Parts payload) with
          | Some text => Some text
          | None => scanParts extractPlainText "text/html" (Parts payload)
          end
        else None in
      match fromParts with
      | Some text => text
      | None =>
          match (if String.eqb (MimeType payload) "text/html"
                 then hasData (Body payload) else None) with
          | Some data => stripHTML (decodeBody data)
          | None => EmptyString
          end
      end
  end.

Definition setHeader (item : emailItem) (h : MessagePartHeader) : emailItem :=
  let v := Value h in
  if String.eqb (Name h) "Subject" then
    mkEmailItem (id item) (threadId item) v (from item) (snippet item) (date item)
      (labels item) (isUnread item) (body item) (recipient item) (cc item) (bcc item)
      (attachments item)
  else if String.eqb (Name h) "From" then
    mkEmailItem (id item) (threadId item) (subject item) v (snippet item) (date item)
      (labels item) (isUnread item) (body item) (recipient item) (cc item) (bcc item)
      (attachments item)
  else if String.eqb (Name h) "Date" then
    mkEmailItem (id item) (threadId item) (subject item) (from item) (snippet item)
      (formatDate v)
      (labels item) (isUnread item) (body item) (recipient item) (cc item) (bcc item)
      (attachments item)
  else if String.eqb (Name h) "To" then
    mkEmailItem (id item) (threadId item) (subject item) (from item) (snippet item)
      (date item)
      (labels item) (isUnread item) (body item) v (cc item) (bcc item)
      (attachments item)
  else if String.eqb (Name h) "Cc" then
    mkEmailItem (id item) (threadId item) (subject item) (from item) (snippet item)
      (date item)
      (labels item) (isUnread item) (body item) (recipient item) v (bcc item)
      (attachments item)
  else if String.eqb (Name h) "Bcc" then
    mkEmailItem (id item) (threadId item) (subject item) (from item) (snippet item)
      (date item)
      (labels item) (isUnread item) (body item) (recipient item) (cc item) v
      (attachments item)
  else item.

Definition setBody (item : emailItem) (b : string) (atts : list MessagePart) : emailItem :=
  mkEmailItem (id item) (threadId item) (subject item) (from item) (snippet item)
    (date item) (labels item) (isUnread item) b (recipient item) (cc item) (bcc item)
    atts.

Definition addLabel (item : emailItem) (labelID : string) : emailItem :=
  mkEmailItem (id item) (threadId item) (subject item) (from item) (snippet item)
    (date item) (labels item ++ [labelID])%list
    (if String.eqb labelID "UNREAD" then true else isUnread item)
    (body item) (recipient item) (cc item) (bcc item) (attachments item).

Definition setSnippet (item : emailItem) (s : string) : emailItem :=
  mkEmailItem (id item) (threadId item) (subject item) (from item) s
    (date item) (labels item) (isUnread item) (body item) (recipient item)
    (cc item) (bcc item) (attachments item).

(** createEmailItem fetches and converts a Gmail message to an emailItem;
    [None] is the nil result. *)
Definition createEmailItem (srv : option Service) (msgID : string) (minimal : bool)
  : option emailItem :=
  match srv with
  | None => None
  | Some srv =>
      let format := if minimal then "minimal" else "full" in
      match messagesGet srv msgID format with
      | GetError _ => None
      | GetNil => None
      | GetOk msg =>
          let item :=
            mkEmailItem (Id msg) (ThreadId msg) EmptyString EmptyString (Snippet msg)
              EmptyString [] false EmptyString EmptyString EmptyString EmptyString [] in
          (* Extract headers *)
          let item :=
            match Payload msg with
            | Some payload =>
                let item := fold_left setHeader (Headers payload) item in
                (* Extract body and attachments for full format *)
                if negb minimal
                then setBody item (extractPlainText payload) (findAttachments payload)
                else item
            | None => item
            end in
          (* Process labels *)
          let item := fold_left addLabel (LabelIds msg) item in
          (* Truncate snippet if needed *)
          let item :=
            if (80 <? String.length (snippet item))%nat
            then setSnippet item (take 77 (snippet item) ++ "...")
            else item in
          Some item
      end
  end.

End Decoder.

(** ** types.go: keys and messages *)

Inductive KeyType :=
| KeyRunes | KeyEnter | KeyEsc | KeyTab | KeyShiftTab | KeyBackspace
| KeyUp | KeyDown | KeySpace
| KeyCtrlA | KeyCtrlC | KeyCtrlD | KeyCtrlS | KeyCtrlX.

(** [tea.KeyMsg]: the key type, the typed runes (as the string they encode
    to) and the alt modifier. *)
Record KeyMsg := mkKey {
  keyType : KeyType;
  Runes : string;
  Alt : bool
}.

Definition keyName (t : KeyType) : string :=
  match t with
  | KeyRunes => EmptyString
  | KeyEnter => "enter" | KeyEsc => "esc" | KeyTab => "tab"
  | KeyShiftTab => "shift+tab" | KeyBackspace => "backspace"
  | KeyUp => "up" | KeyDown => "down" | KeySpace => " "
  | KeyCtrlA => "ctrl+a" | KeyCtrlC => "ctrl+c" | KeyCtrlD => "ctrl+d"
  | KeyCtrlS => "ctrl+s" | KeyCtrlX => "ctrl+x"
  end.

(** [tea.Key.String]. *)
Definition keyString (k : KeyMsg) : string :=
  (if Alt k then "alt+" else EmptyString)
  ++ match keyType k with
     | KeyRunes => Runes k
     | t => keyName t
     end.

(** [key.Binding]: the keys of an (enabled) binding. *)
Definition Binding := list string.

(** [key.Matches]. *)
Definition Matches (msg : KeyMsg) (b : Binding) : bool :=
  existsb (String.eqb (keyString msg)) b.

Record keyMap := mkKeyMap {
  Back : Binding;
  Reply : Binding;
  Compose : Binding;
  Delete : Binding;
  Search : Binding;
  Labels : Binding;
  ToggleRead : Binding;
  Quit : Binding;
  Send : Binding;
  NextInput : Binding;
  PrevInput : Binding;
  ShowHelp : Binding;
  CloseHelp : Binding;
  Select : Binding;
  AddAttachment : Binding;
  RemoveAttachment : Binding;
  DownloadAttachment : Binding
}.

Definition keys : keyMap :=
  mkKeyMap ["b"; "esc"] ["r"] ["c"] ["d"] ["/"] ["l"] ["m"] ["q"; "ctrl+c"]
           ["ctrl+s"] ["tab"] ["shift+tab"] ["?"] ["?"] ["enter"]
           ["ctrl+a"] ["ctrl+x"] ["ctrl+d"].

(** Messages for tea.Cmd communication, with the library's own. *)
Inductive Msg :=
| WindowSizeMsg (Width Height : Z)
| TeaKeyMsg (k : KeyMsg)
| emailLoadedMsg (content : string)
| emailSentMsg
| emailLoadErrorMsg (err : error)
| labelsLoadedMsg (labels : list Label)
| searchResultMsg (messages : list Message)
| attachmentDownloadedMsg (filename : string)
| notificationMsg (message : string)
| libraryMsg (tag : string).     (* spinner ticks, cursor blinks, ... *)

(** ** path/filepath, on a system whose separator is [/] *)

Module Filepath.

Definition sep : ascii := "/"%char.

Fixpoint stripTrailing (s : string) : string :=
  match s with
  | EmptyString => EmptyString
  | String c t =>
      match stripTrailing t with
      | EmptyString => if Ascii.eqb c sep then EmptyString else String c EmptyString
      | t' => String c t'
      end
  end.

(** [filepath.Base]. *)
Definition Base (path : string) : string :=
  if isEmpty path then "."
  else
    let path := stripTrailing path in
    if isEmpty path then "/"
    else List.last (Split sep path) EmptyString.

(** [filepath.Ext]: from the last dot of the last element. *)
Fixpoint Ext (path : string) : string :=
  match path with
  | EmptyString => EmptyString
  | String c t =>
      match Ext t with
      | EmptyString =>
          if Ascii.eqb c "." && negb (contains sep t) then path else EmptyString
      | e => e
      end
  end.

(** The elements [Clean] keeps, last first; [dotdot] counts the leading
    [..] elements, which cannot be backed over. *)
Fixpoint cleanElems (rooted : bool) (elems : list string)
         (out : list string) (dotdot : nat) : list string :=
  match elems with
  | [] => out
  | e :: rest =>
      if isEmpty e || String.eqb e "." then cleanElems rooted rest out dotdot
      else if String.eqb e ".." then
        if (dotdot <? List.length out)%nat
        then cleanElems rooted rest (List.tl out) dotdot
        else if rooted then cleanElems rooted rest out dotdot
        else cleanElems rooted rest (e :: out) (S (List.length out))
      else cleanElems rooted rest (e :: out) dotdot
  end.

(** [filepath.Clean]. *)
Definition Clean (path : string) : string :=
  match path with
  | EmptyString => "."
  | String c _ =>
      let rooted := Ascii.eqb c sep in
      let out := List.rev (cleanElems rooted (Split sep path) [] 0) in
      match out with
      | [] => if rooted then "/" else "."
      | _ => (if rooted then "/" else EmptyString) ++ Join out "/"
      end
  end.

(** [filepath.Join]. *)
Fixpoint JoinPath (elem : list string) : string :=
  match elem with
  | [] => EmptyString
  | e :: rest =>
      if isEmpty e then JoinPath rest else Clean (Join elem "/")
  end.

End Filepath.

(** ** unicode and unicode/utf8 *)

Module Unicode.

Definition RuneError : Z := 65533.
Definition MaxLatin1 : Z := 255.

Definition inRange (lo hi r : Z) : bool := (lo <=? r) && (r <=? hi).

(** [unicode.IsSpace]: the White_Space property. *)
Definition IsSpace (r : Z) : bool :=
  inRange 9 13 r || (r =? 32) || (r =? 133) || (r =? 160) || (r =? 5760)
  || inRange 8192 8202 r || inRange 8232 8233 r || (r =? 8239) || (r =? 8287)
  || (r =? 12288).

(** The letters and the numbers of Latin-1, as the [properties] table of
    the package has them. *)
Definition latin1Letter (r : Z) : bool :=
  inRange 65 90 r || inRange 97 122 r || (r =? 170) || (r =? 181) || (r =? 186)
  || inRange 192 214 r || inRange 216 246 r || inRange 248 255 r.

Definition latin1Number (r : Z) : bool :=
  inRange 48 57 r || inRange 178 179 r || (r =? 185) || inRange 188 190 r.

Section Tables.

Variable go : GoLib.

(** [unicode.IsLetter]. *)
Definition IsLetter (r : Z) : bool :=
  if inRange 0 MaxLatin1 r then latin1Letter r else letterTable go r.

(** [unicode.IsNumber]. *)
Definition IsNumber (r : Z) : bool :=
  if inRange 0 MaxLatin1 r then latin1Number r else numberTable go r.

End Tables.

Definition cont (b : Z) : bool := inRange 128 191 b.

(** [utf8.DecodeRuneInString]: the first rune of [s] and its width;
    an ill-formed or truncated sequence is [RuneError] of width 1. *)
Definition DecodeRune (s : string) : Z * nat :=
  match map byteZ (list_ascii_of_string (take 4 s)) with
  | [] => (RuneError, 0%nat)
  | b0 :: bs =>
      if b0 <? 128 then (b0, 1%nat)
      else if inRange 194 223 b0 then
        match bs with
        | b1 :: _ =>
            if cont b1
            then (Z.lor (Z.shiftl (Z.land b0 31) 6) (Z.land b1 63), 2%nat)
            else (RuneError, 1%nat)
        | _ => (RuneError, 1%nat)
        end
      else if inRange 224 239 b0 then
        match bs with
        | b1 :: b2 :: _ =>
            let lo := if b0 =? 224 then 160 else 128 in
            let hi := if b0 =? 237 then 159 else 191 in
            if inRange lo hi b1 && cont b2
            then (Z.lor (Z.lor (Z.shiftl (Z.land b0 15) 12)
                               (Z.shiftl (Z.land b1 63) 6)) (Z.land b2 63), 3%nat)
            else (RuneError, 1%nat)
        | _ => (RuneError, 1%nat)
        end
      else if inRange 240 244 b0 then
        match bs with
        | b1 :: b2 :: b3 :: _ =>
            let lo := if b0 =? 240 then 144 else 128 in
            let hi := if b0 =? 244 then 143 else 191 in
            if inRange lo hi b1 && cont b2 && cont b3
            then (Z.lor (Z.lor (Z.lor (Z.shiftl (Z.land b0 7) 18)
                                      (Z.shiftl (Z.land b1 63) 12))
                               (Z.shiftl (Z.land b2 63) 6)) (Z.land b3 63), 4%nat)
            else (RuneError, 1%nat)
        | _ => (RuneError, 1%nat)
        end
      else (RuneError, 1%nat)
  end.

(** The runes a [range] over the string yields; [skip] counts the bytes
    of the current rune still to pass. *)
Fixpoint runesFrom (skip : nat) (s : string) : list Z :=
  match s with
  | EmptyString => []
  | String _ t =>
      match skip with
      | S k => runesFrom k t
      | O => let (r, width) := DecodeRune s in r :: runesFrom (width - 1) t
      end
  end.

Definition runes (s : string) : list Z := runesFrom 0 s.

(** [utf8.AppendRune]: a rune out of range or a surrogate is written as
    [RuneError]. *)
Definition EncodeRune (r : Z) : string :=
  let three (r : Z) :=
    [Z.lor 224 (Z.shiftr r 12); Z.lor 128 (Z.land (Z.shiftr r 6) 63);
     Z.lor 128 (Z.land r 63)] in
  string_of_list_ascii (map Zbyte
    (if r <? 0 then three RuneError
     else if r <? 128 then [r]
     else if r <? 2048 then [Z.lor 192 (Z.shiftr r 6); Z.lor 128 (Z.land r 63)]
     else if inRange 55296 57343 r then three RuneError
     else if r <? 65536 then three r
     else if r <=? 1114111 then
       [Z.lor 240 (Z.shiftr r 18); Z.lor 128 (Z.land (Z.shiftr r 12) 63);
        Z.lor 128 (Z.land (Z.shiftr r 6) 63); Z.lor 128 (Z.land r 63)]
     else three RuneError)).

(** [strings.Map] with a mapping that never returns a negative rune. *)
Definition Map (mapping : Z -> Z) (s : string) : string :=
  String.concat EmptyString (map (fun r => EncodeRune (mapping r)) (runes s)).

End Unicode.

(** ** main.go: commands *)

Definition defaultMaxResults : Z := 10.
Definition inboxQuery : string := "in:inbox category:primary".
Definition maxAttachmentSize : Z := 25 * 1024 * 1024. (* 25MB Gmail limit *)
Definition downloadsDir : string := "downloads".

Definition crlf : string := String CR (String LF EmptyString).
Definition dquote : string := String "034" EmptyString.

(** The steps of [sendEmail] and [addAttachment] on the temporary file and
    the attachment files that can fail besides opening and sizing a file. *)
Inductive IOStep :=
| CreateTemp | WriteHeaders | WriteBody
| CreatePart (filePath : string) | CopyFile (filePath : string)
| CloseEncoder (filePath : string)
| WriteFinal | CloseWriter | SeekStart | ReadAll.

(** An open file: what [file.Stat] answers, its size or an error. *)
Record File := mkFile {
  Stat : result Z
}.

(** The operating system the program runs on. *)
Record OS := mkOS {
  osOpen : string -> result File;
  (** whether [os.Stat(path)] returns a nil error *)
  osStatOk : string -> bool;
  ioFault : IOStep -> option error;
  (** the random boundary of a new [multipart.Writer] *)
  Boundary : string
}.

Definition step (os : OS) (s : IOStep) (what : string) : result unit :=
  match ioFault os s with
  | Some e => Err (what ++ ": " ++ e)
  | None => Ok tt
  end.

Definition bind {A B} (r : result A) (k : A -> result B) : result B :=
  match r with
  | Ok a => k a
  | Err e => Err e
  end.

Notation "x <- r ;; k" := (bind r (fun x => k))
  (at level 61, r at next level, right associativity).

Definition buildEmailHeaders (to cc bcc subject boundary : string) : string :=
  let headers := "To: " ++ to ++ crlf in
  let headers := if negb (isEmpty cc) then headers ++ "Cc: " ++ cc ++ crlf else headers in
  let headers := if negb (isEmpty bcc) then headers ++ "Bcc: " ++ bcc ++ crlf else headers in
  let headers := headers ++ "Subject: " ++ subject ++ crlf in
  headers ++ "MIME-Version: 1.0" ++ crlf ++ "Content-Type: multipart/mixed; boundary="
          ++ boundary ++ crlf ++ crlf.

Section Commands.

Variable go : GoLib.
Variable os : OS.

(** addAttachment: the part written to the message, or the error. *)
Definition addAttachment (filePath : string) : result OutPart :=
  match osOpen os filePath with
  | Err e => Err ("failed to open attachment: " ++ e)
  | Ok file =>
      match Stat file with
      | Err e => Err ("failed to get file info: " ++ e)
      | Ok size =>
          if size >? maxAttachmentSize then
            Err ("attachment too large: " ++ Filepath.Base filePath ++ " (max 25MB)")
          else
            let mimeType := TypeByExtension go (Filepath.Ext filePath) in
            let mimeType :=
              if isEmpty mimeType then "application/octet-stream" else mimeType in
            let partHeader :=
              [ ("Content-Type", mimeType);
                ("Content-Disposition",
                 "attachment; filename=" ++ dquote ++ Filepath.Base filePath ++ dquote);
                ("Content-Transfer-Encoding", "base64") ] in
            _ <- step os (CreatePart filePath) "failed to create attachment part" ;;
            _ <- step os (CopyFile filePath) "failed to write attachment" ;;
            _ <- step os (CloseEncoder filePath) "failed to close encoder" ;;
            Ok (mkOutPart partHeader filePath)
      end
  end.

(** The loop of sendEmail over the attachments: it stops at the first
    error. *)
Fixpoint addAttachments (attachments : list string) : result (list OutPart) :=
  match attachments with
  | [] => Ok []
  | filePath :: rest =>
      part <- addAttachment filePath ;;
      parts <- addAttachments rest ;;
      Ok (part :: parts)
  end.

(** The message sendEmail has in its temporary file when it reaches the
    send, or the error it returns before. *)
Definition assemble (to cc bcc subject body : string) (attachments : list string)
  : result OutMessage :=
  _ <- step os CreateTemp "failed to create temp file" ;;
  let boundary := Boundary os in
  (* Write headers *)
  let headers := buildEmailHeaders to cc bcc subject boundary in
  _ <- step os WriteHeaders "failed to write headers" ;;
  (* Write text body *)
  let textPart :=
    "--" ++ boundary ++ crlf ++ "Content-Type: text/plain; charset=utf-8"
         ++ crlf ++ crlf ++ body ++ crlf in
  _ <- step os WriteBody "failed to write body" ;;
  (* Process attachments *)
  parts <- addAttachments attachments ;;
  (* Finalize *)
  let final := crlf ++ "--" ++ boundary ++ "--" ++ crlf in
  _ <- step os WriteFinal "failed to write final boundary" ;;
  _ <- step os CloseWriter "failed to close writer" ;;
  (* Read back and send *)
  _ <- step os SeekStart "failed to seek temp file" ;;
  _ <- step os ReadAll "failed to read temp file" ;;
  Ok (mkOutMessage headers textPart parts (final ++ final)).

(** sendEmail: the completion message and the calls of
    [srv.Users.Messages.Send] it made, in order. *)
Definition sendEmail (srv : Service) (to cc bcc subject body : string)
           (attachments : list string) : Msg * list OutMessage :=
  match assemble to cc bcc subject body attachments with
  | Err e => (emailLoadErrorMsg e, [])
  | Ok content =>
      match messagesSend srv content with
      | Err e => (emailLoadErrorMsg e, [content])
      | Ok _ => (emailSentMsg, [content])
      end
  end.

Definition sanitizeRune (r : Z) : Z :=
  if Unicode.IsSpace r || Unicode.IsLetter go r || Unicode.IsNumber go r
     || (r =? 45) || (r =? 95) || (r =? 46)      (* '-', '_', '.' *)
  then r
  else 95.

Definition sanitizeFilename (name : string) : string :=
  Unicode.Map sanitizeRune name.

(** The file name downloadAttachment writes the attachment to. *)
Definition downloadFilename (attachment : MessagePart) : string :=
  Filepath.JoinPath [downloadsDir; sanitizeFilename (Filename attachment)].

(** fetchFullEmailBody retrieves the complete email content for viewing;
    [None] is the nil dereference of a message without payload. *)
Definition fetchFullEmailBody (srv : Service) (msgID : string)
  : option (result string) :=
  match messagesGet srv msgID "full" with
  | GetError e => Some (Err ("failed to fetch message: " ++ e))
  | GetNil => None
  | GetOk msg =>
      match Payload msg with
      | None => None
      | Some payload =>
          let item := fold_left (setHeader go) (Headers payload) emptyItem in
          let body := extractPlainText go payload in
          let body := if isEmpty body then "(no text content found)" else body in
          Some (Ok ("From: " ++ from item ++ nl ++ "Subject: " ++ subject item ++ nl
                    ++ "Date: " ++ date item ++ nl ++ nl ++ body))
      end
  end.

Definition loadEmail (srv : Service) (msgID : string) : option Msg :=
  match fetchFullEmailBody srv msgID with
  | None => None
  | Some (Err e) => Some (emailLoadErrorMsg e)
  | Some (Ok content) => Some (emailLoadedMsg content)
  end.

Definition loadEmailsByLabel (srv : Service) (labelID : string) : Msg :=
  match messagesListByLabel srv labelID 10 with
  | Err e => emailLoadErrorMsg e
  | Ok msgs => searchResultMsg msgs
  end.

Definition deleteEmail (srv : Service) (msgID : string) : Msg :=
  match messagesTrash srv msgID with
  | Err e => emailLoadErrorMsg e
  | Ok _ => notificationMsg "Email moved to trash"
  end.

Definition toggleReadStatus (srv : Service) (msgID : string) (isUnread : bool) : Msg :=
  let '(add, remove) :=
    if isUnread then ([], ["UNREAD"]) else (["UNREAD"], []) in
  match messagesModify srv msgID add remove with
  | Err e => emailLoadErrorMsg e
  | Ok _ =>
      let action := "marked as read" in
      let action := if negb isUnread then "marked as unread" else action in
      notificationMsg ("Email " ++ action)
  end.

Definition performSearch (srv : Service) (query : string) : Msg :=
  match messagesList srv query 30 with
  | Err e => emailLoadErrorMsg e
  | Ok msgs => searchResultMsg msgs
  end.

Definition loadLabels (srv : Service) : Msg :=
  match labelsList srv with
  | Err e => emailLoadErrorMsg e
  | Ok labels => labelsLoadedMsg labels
  end.

Definition showNotification (msg : string) : Msg := notificationMsg msg.

End Commands.

(** ** types.go: states, commands and the components of the model *)

Inductive state :=
| stateInbox
| stateViewing
| stateLoading
| stateComposing
| stateReplying
| stateSearching
| stateManagingLabels.

(** A [tea.Cmd] is a closure run outside the update loop; it is modelled by
    the call that built it.  The commands of this repository carry their
    arguments (the service handle apart); those of the component library
    are named by a tag. *)
Inductive Cmd :=
| CmdNil
| CmdBatch (cmds : list Cmd)
| CmdQuit
| CmdLibrary (tag : string)
| CmdShowNotification (msg : string)
| CmdLoadEmail (msgID : string)
| CmdLoadEmailsByLabel (labelID : string)
| CmdSendEmail (to cc bcc subject body : string) (attachments : list string)
| CmdDownloadAttachment (msgID : string) (attachment : MessagePart)
| CmdDeleteEmail (msgID : string)
| CmdToggleReadStatus (msgID : string) (isUnread : bool)
| CmdPerformSearch (query : string)
| CmdLoadLabels.

Definition isNil (c : Cmd) : bool :=
  match c with CmdNil => true | _ => false end.

(** [tea.Batch]: the nil commands are dropped; nothing left is nil. *)
Definition Batch (cmds : list Cmd) : Cmd :=
  match filter (fun c => negb (isNil c)) cmds with
  | [] => CmdNil
  | valid => CmdBatch valid
  end.

(** labelItem represents a Gmail label *)
Record labelItem := mkLabelItem {
  label : Label
}.

(** The components, by the fields the program reads or writes through
    their methods. *)
Record listModel (A : Type) := mkList {
  listItems : list A;
  listIndex : nat;
  listWidth : Z;
  listHeight : Z
}.
Arguments mkList {A}.
Arguments listItems {A}.
Arguments listIndex {A}.
Arguments listWidth {A}.
Arguments listHeight {A}.

Record textinputModel := mkTextinput {
  tiValue : string;
  tiFocus : bool
}.

Record textareaModel := mkTextarea {
  taValue : string;
  taFocus : bool
}.

Record viewportModel := mkViewport {
  vpWidth : Z;
  vpHeight : Z;
  vpContent : string;
  vpYOffset : Z
}.

Record spinnerModel := mkSpinner {
  spFrame : Z
}.

Record helpModel := mkHelp {
  helpWidth : Z
}.

(** [l.SelectedItem()]: the item under the cursor, nil when there is none. *)
Definition SelectedItem {A} (l : listModel A) : option A :=
  nth_error (listItems l) (listIndex l).

Definition SetItems {A} (l : listModel A) (items : list A) : listModel A :=
  mkList items (listIndex l) (listWidth l) (listHeight l).

Definition SetSize {A} (l : listModel A) (w h : Z) : listModel A :=
  mkList (listItems l) (listIndex l) w h.

Definition tiSetValue (t : textinputModel) (v : string) : textinputModel :=
  mkTextinput v (tiFocus t).
Definition tiFocused (t : textinputModel) : textinputModel :=
  mkTextinput (tiValue t) true.
Definition tiBlur (t : textinputModel) : textinputModel :=
  mkTextinput (tiValue t) false.
Definition tiReset (t : textinputModel) : textinputModel :=
  mkTextinput EmptyString (tiFocus t).
Definition taFocused (t : textareaModel) : textareaModel :=
  mkTextarea (taValue t) true.
Definition taBlur (t : textareaModel) : textareaModel :=
  mkTextarea (taValue t) false.
Definition GotoTop (v : viewportModel) : viewportModel :=
  mkViewport (vpWidth v) (vpHeight v) (vpContent v) 0.
Definition SetContent (v : viewportModel) (content : string) : viewportModel :=
  mkViewport (vpWidth v) (vpHeight v) content (vpYOffset v).
Definition vpResize (v : viewportModel) (w h : Z) : viewportModel :=
  mkViewport w h (vpContent v) (vpYOffset v).

Definition spinnerTick : Cmd := CmdLibrary "spinner.Tick".
Definition blink : Cmd := CmdLibrary "Blink".

(** The component library (bubbles): how each component answers a message
    that the program forwards to it. *)
Record Bubbles := mkBubbles {
  listUpdate : forall A, Msg -> listModel A -> listModel A * Cmd;
  viewportUpdate : Msg -> viewportModel -> viewportModel * Cmd;
  textinputUpdate : Msg -> textinputModel -> textinputModel * Cmd;
  textareaUpdate : Msg -> textareaModel -> textareaModel * Cmd;
  spinnerUpdate : Msg -> spinnerModel -> spinnerModel * Cmd
}.

(** Components that ignore every message. *)
Definition inertBubbles : Bubbles :=
  mkBubbles (fun _ _ l => (l, CmdNil)) (fun _ v => (v, CmdNil))
            (fun _ t => (t, CmdNil)) (fun _ t => (t, CmdNil))
            (fun _ s => (s, CmdNil)).

(** model is the main application state.  A pointer to an emailItem is
    modelled by the item it points to ([None] is nil): no item is written
    to after it is built.  The field [list] stands last, so that it does
    not hide the type of lists in the other fields. *)
Module Model.

Record model := mkModel {
  state : state;
  srv : option Service;
  fullEmail : string;
  loading : spinnerModel;
  viewport : viewportModel;
  width : Z;
  height : Z;
  err : string;
  help : helpModel;
  showHelp : bool;
  composeFrom : textinputModel;
  composeTo : textinputModel;
  composeCc : textinputModel;
  composeBcc : textinputModel;
  composeSubj : textinputModel;
  composeBody : textareaModel;
  replyBody : textareaModel;
  searchInput : textinputModel;
  labels : Datatypes.list Label;
  labelsList : listModel labelItem;
  currentMsg : option emailItem;
  replyToMsg : option emailItem;
  focused : Z;
  searchQuery : string;
  composeAttachments : Datatypes.list string;
  replyAttachments : Datatypes.list string;
  attachmentInput : textinputModel;
  addingAttachment : bool;
  attachmentDownloading : bool;
  downloadingIndex : Z;
  list : listModel emailItem
}.

End Model.
Definition model := Model.model.

(** Field assignments [m.f = v]. *)
Module Upd.

Definition state (v : state) (m : model) : model :=
  Model.mkModel v (Model.srv m) (Model.fullEmail m) (Model.loading m) (Model.viewport
    m) (Model.width m) (Model.height m) (Model.err m) (Model.help m) (Model.showHelp m)
    (Model.composeFrom m) (Model.composeTo m) (Model.composeCc m) (Model.composeBcc m)
    (Model.composeSubj m) (Model.composeBody m) (Model.replyBody m) (Model.searchInput
    m) (Model.labels m) (Model.labelsList m) (Model.currentMsg m) (Model.replyToMsg m)
    (Model.focused m) (Model.searchQuery m) (Model.composeAttachments m)
    (Model.replyAttachments m) (Model.attachmentInput m) (Model.addingAttachment m)
    (Model.attachmentDownloading m) (Model.downloadingIndex m) (Model.list m).
Definition srv (v : option Service) (m : model) : model :=
  Model.mkModel (Model.state m) v (Model.fullEmail m) (Model.loading m)
    (Model.viewport m) (Model.width m) (Model.height m) (Model.err m) (Model.help m)
    (Model.showHelp m) (Model.composeFrom m) (Model.composeTo m) (Model.composeCc m)
    (Model.composeBcc m) (Model.composeSubj m) (Model.composeBody m) (Model.replyBody m)
    (Model.searchInput m) (Model.labels m) (Model.labelsList m) (Model.currentMsg m)
    (Model.replyToMsg m) (Model.focused m) (Model.searchQuery m)
    (Model.composeAttachments m) (Model.replyAttachments m) (Model.attachmentInput m)
    (Model.addingAttachment m) (Model.attachmentDownloading m) (Model.downloadingIndex
    m) (Model.list m).
Definition fullEmail (v : string) (m : model) : model :=
  Model.mkModel (Model.state m) (Model.srv m) v (Model.loading m) (Model.viewport m)
    (Model.width m) (Model.height m) (Model.err m) (Model.help m) (Model.showHelp m)
    (Model.composeFrom m) (Model.composeTo m) (Model.composeCc m) (Model.composeBcc m)
    (Model.composeSubj m) (Model.composeBody m) (Model.replyBody m) (Model.searchInput
    m) (Model.labels m) (Model.labelsList m) (Model.currentMsg m) (Model.replyToMsg m)
    (Model.focused m) (Model.searchQuery m) (Model.composeAttachments m)
    (Model.replyAttachments m) (Model.attachmentInput m) (Model.addingAttachment m)
    (Model.attachmentDownloading m) (Model.downloadingIndex m) (Model.list m).
Definition loading (v : spinnerModel) (m : model) : model :=
  Model.mkModel (Model.state m) (Model.srv m) (Model.fullEmail m) v (Model.viewport m)
    (Model.width m) (Model.height m) (Model.err m) (Model.help m) (Model.showHelp m)
    (Model.composeFrom m) (Model.composeTo m) (Model.composeCc m) (Model.composeBcc m)
    (Model.composeSubj m) (Model.composeBody m) (Model.replyBody m) (Model.searchInput
    m) (Model.labels m) (Model.labelsList m) (Model.currentMsg m) (Model.replyToMsg m)
    (Model.focused m) (Model.searchQuery m) (Model.composeAttachments m)
    (Model.replyAttachments m) (Model.attachmentInput m) (Model.addingAttachment m)
    (Model.attachmentDownloading m) (Model.downloadingIndex m) (Model.list m).
Definition viewport (v : viewportModel) (m : model) : model :=
  Model.mkModel (Model.state m) (Model.srv m) (Model.fullEmail m) (Model.loading m) v
    (Model.width m) (Model.height m) (Model.err m) (Model.help m) (Model.showHelp m)
    (Model.composeFrom m) (Model.composeTo m) (Model.composeCc m) (Model.composeBcc m)
    (Model.composeSubj m) (Model.composeBody m) (Model.replyBody m) (Model.searchInput
    m) (Model.labels m) (Model.labelsList m) (Model.currentMsg m) (Model.replyToMsg m)
    (Model.focused m) (Model.searchQuery m) (Model.composeAttachments m)
    (Model.replyAttachments m) (Model.attachmentInput m) (Model.addingAttachment m)
    (Model.attachmentDownloading m) (Model.downloadingIndex m) (Model.list m).
Definition width (v : Z) (m : model) : model :=
  Model.mkModel (Model.state m) (Model.srv m) (Model.fullEmail m) (Model.loading m)
    (Model.viewport m) v (Model.height m) (Model.err m) (Model.help m) (Model.showHelp
    m) (Model.composeFrom m) (Model.composeTo m) (Model.composeCc m) (Model.composeBcc
    m) (Model.composeSubj m) (Model.composeBody m) (Model.replyBody m)
    (Model.searchInput m) (Model.labels m) (Model.labelsList m) (Model.currentMsg m)
    (Model.replyToMsg m) (Model.focused m) (Model.searchQuery m)
    (Model.composeAttachments m) (Model.replyAttachments m) (Model.attachmentInput m)
    (Model.addingAttachment m) (Model.attachmentDownloading m) (Model.downloadingIndex
    m) (Model.list m).
Definition height (v : Z) (m : model) : model :=
  Model.mkModel (Model.state m) (Model.srv m) (Model.fullEmail m) (Model.loading m)
    (Model.viewport m) (Model.width m) v (Model.err m) (Model.help m) (Model.showHelp m)
    (Model.composeFrom m) (Model.composeTo m) (Model.composeCc m) (Model.composeBcc m)
    (Model.composeSubj m) (Model.composeBody m) (Model.replyBody m) (Model.searchInput
    m) (Model.labels m) (Model.labelsList m) (Model.currentMsg m) (Model.replyToMsg m)
    (Model.focused m) (Model.searchQuery m) (Model.composeAttachments m)
    (Model.replyAttachments m) (Model.attachmentInput m) (Model.addingAttachment m)
    (Model.attachmentDownloading m) (Model.downloadingIndex m) (Model.list m).
Definition err (v : string) (m : model) : model :=
  Model.mkModel (Model.state m) (Model.srv m) (Model.fullEmail m) (Model.loading m)
    (Model.viewport m) (Model.width m) (Model.height m) v (Model.help m) (Model.showHelp
    m) (Model.composeFrom m) (Model.composeTo m) (Model.composeCc m) (Model.composeBcc
    m) (Model.composeSubj m) (Model.composeBody m) (Model.replyBody m)
    (Model.searchInput m) (Model.labels m) (Model.labelsList m) (Model.currentMsg m)
    (Model.replyToMsg m) (Model.focused m) (Model.searchQuery m)
    (Model.composeAttachments m) (Model.replyAttachments m) (Model.attachmentInput m)
    (Model.addingAttachment m) (Model.attachmentDownloading m) (Model.downloadingIndex
    m) (Model.list m).
Definition help (v : helpModel) (m : model) : model :=
  Model.mkModel (Model.state m) (Model.srv m) (Model.fullEmail m) (Model.loading m)
    (Model.viewport m) (Model.width m) (Model.height m) (Model.err m) v (Model.showHelp
    m) (Model.composeFrom m) (Model.composeTo m) (Model.composeCc m) (Model.composeBcc
    m) (Model.composeSubj m) (Model.composeBody m) (Model.replyBody m)
    (Model.searchInput m) (Model.labels m) (Model.labelsList m) (Model.currentMsg m)
    (Model.replyToMsg m) (Model.focused m) (Model.searchQuery m)
    (Model.composeAttachments m) (Model.replyAttachments m) (Model.attachmentInput m)
    (Model.addingAttachment m) (Model.attachmentDownloading m) (Model.downloadingIndex
    m) (Model.list m).
Definition showHelp (v : bool) (m : model) : model :=
  Model.mkModel (Model.state m) (Model.srv m) (Model.fullEmail m) (Model.loading m)
    (Model.viewport m) (Model.width m) (Model.height m) (Model.err m) (Model.help m) v
    (Model.composeFrom m) (Model.composeTo m) (Model.composeCc m) (Model.composeBcc m)
    (Model.composeSubj m) (Model.composeBody m) (Model.replyBody m) (Model.searchInput
    m) (Model.labels m) (Model.labelsList m) (Model.currentMsg m) (Model.replyToMsg m)
    (Model.focused m) (Model.searchQuery m) (Model.composeAttachments m)
    (Model.replyAttachments m) (Model.attachmentInput m) (Model.addingAttachment m)
    (Model.attachmentDownloading m) (Model.downloadingIndex m) (Model.list m).
Definition composeFrom (v : textinputModel) (m : model) : model :=
  Model.mkModel (Model.state m) (Model.srv m) (Model.fullEmail m) (Model.loading m)
    (Model.viewport m) (Model.width m) (Model.height m) (Model.err m) (Model.help m)
    (Model.showHelp m) v (Model.composeTo m) (Model.composeCc m) (Model.composeBcc m)
    (Model.composeSubj m) (Model.composeBody m) (Model.replyBody m) (Model.searchInput
    m) (Model.labels m) (Model.labelsList m) (Model.currentMsg m) (Model.replyToMsg m)
    (Model.focused m) (Model.searchQuery m) (Model.composeAttachments m)
    (Model.replyAttachments m) (Model.attachmentInput m) (Model.addingAttachment m)
    (Model.attachmentDownloading m) (Model.downloadingIndex m) (Model.list m).
Definition composeTo (v : textinputModel) (m : model) : model :=
  Model.mkModel (Model.state m) (Model.srv m) (Model.fullEmail m) (Model.loading m)
    (Model.viewport m) (Model.width m) (Model.height m) (Model.err m) (Model.help m)
    (Model.showHelp m) (Model.composeFrom m) v (Model.composeCc m) (Model.composeBcc m)
    (Model.composeSubj m) (Model.composeBody m) (Model.replyBody m) (Model.searchInput
    m) (Model.labels m) (Model.labelsList m) (Model.currentMsg m) (Model.replyToMsg m)
    (Model.focused m) (Model.searchQuery m) (Model.composeAttachments m)
    (Model.replyAttachments m) (Model.attachmentInput m) (Model.addingAttachment m)
    (Model.attachmentDownloading m) (Model.downloadingIndex m) (Model.list m).
Definition composeCc (v : textinputModel) (m : model) : model :=
  Model.mkModel (Model.state m) (Model.srv m) (Model.fullEmail m) (Model.loading m)
    (Model.viewport m) (Model.width m) (Model.height m) (Model.err m) (Model.help m)
    (Model.showHelp m) (Model.composeFrom m) (Model.composeTo m) v (Model.composeBcc m)
    (Model.composeSubj m) (Model.composeBody m) (Model.replyBody m) (Model.searchInput
    m) (Model.labels m) (Model.labelsList m) (Model.currentMsg m) (Model.replyToMsg m)
    (Model.focused m) (Model.searchQuery m) (Model.composeAttachments m)
    (Model.replyAttachments m) (Model.attachmentInput m) (Model.addingAttachment m)
    (Model.attachmentDownloading m) (Model.downloadingIndex m) (Model.list m).
Definition composeBcc (v : textinputModel) (m : model) : model :=
  Model.mkModel (Model.state m) (Model.srv m) (Model.fullEmail m) (Model.loading m)
    (Model.viewport m) (Model.width m) (Model.height m) (Model.err m) (Model.help m)
    (Model.showHelp m) (Model.composeFrom m) (Model.composeTo m) (Model.composeCc m) v
    (Model.composeSubj m) (Model.composeBody m) (Model.replyBody m) (Model.searchInput
    m) (Model.labels m) (Model.labelsList m) (Model.currentMsg m) (Model.replyToMsg m)
    (Model.focused m) (Model.searchQuery m) (Model.composeAttachments m)
    (Model.replyAttachments m) (Model.attachmentInput m) (Model.addingAttachment m)
    (Model.attachmentDownloading m) (Model.downloadingIndex m) (Model.list m).
Definition composeSubj (v : textinputModel) (m : model) : model :=
  Model.mkModel (Model.state m) (Model.srv m) (Model.fullEmail m) (Model.loading m)
    (Model.viewport m) (Model.width m) (Model.height m) (Model.err m) (Model.help m)
    (Model.showHelp m) (Model.composeFrom m) (Model.composeTo m) (Model.composeCc m)
    (Model.composeBcc m) v (Model.composeBody m) (Model.replyBody m) (Model.searchInput
    m) (Model.labels m) (Model.labelsList m) (Model.currentMsg m) (Model.replyToMsg m)
    (Model.focused m) (Model.searchQuery m) (Model.composeAttachments m)
    (Model.replyAttachments m) (Model.attachmentInput m) (Model.addingAttachment m)
    (Model.attachmentDownloading m) (Model.downloadingIndex m) (Model.list m).
Definition composeBody (v : textareaModel) (m : model) : model :=
  Model.mkModel (Model.state m) (Model.srv m) (Model.fullEmail m) (Model.loading m)
    (Model.viewport m) (Model.width m) (Model.height m) (Model.err m) (Model.help m)
    (Model.showHelp m) (Model.composeFrom m) (Model.composeTo m) (Model.composeCc m)
    (Model.composeBcc m) (Model.composeSubj m) v (Model.replyBody m) (Model.searchInput
    m) (Model.labels m) (Model.labelsList m) (Model.currentMsg m) (Model.replyToMsg m)
    (Model.focused m) (Model.searchQuery m) (Model.composeAttachments m)
    (Model.replyAttachments m) (Model.attachmentInput m) (Model.addingAttachment m)
    (Model.attachmentDownloading m) (Model.downloadingIndex m) (Model.list m).
Definition replyBody (v : textareaModel) (m : model) : model :=
  Model.mkModel (Model.state m) (Model.srv m) (Model.fullEmail m) (Model.loading m)
    (Model.viewport m) (Model.width m) (Model.height m) (Model.err m) (Model.help m)
    (Model.showHelp m) (Model.composeFrom m) (Model.composeTo m) (Model.composeCc m)
    (Model.composeBcc m) (Model.composeSubj m) (Model.composeBody m) v
    (Model.searchInput m) (Model.labels m) (Model.labelsList m) (Model.currentMsg m)
    (Model.replyToMsg m) (Model.focused m) (Model.searchQuery m)
    (Model.composeAttachments m) (Model.replyAttachments m) (Model.attachmentInput m)
    (Model.addingAttachment m) (Model.attachmentDownloading m) (Model.downloadingIndex
    m) (Model.list m).
Definition searchInput (v : textinputModel) (m : model) : model :=
  Model.mkModel (Model.state m) (Model.srv m) (Model.fullEmail m) (Model.loading m)
    (Model.viewport m) (Model.width m) (Model.height m) (Model.err m) (Model.help m)
    (Model.showHelp m) (Model.composeFrom m) (Model.composeTo m) (Model.composeCc m)
    (Model.composeBcc m) (Model.composeSubj m) (Model.composeBody m) (Model.replyBody m)
    v (Model.labels m) (Model.labelsList m) (Model.currentMsg m) (Model.replyToMsg m)
    (Model.focused m) (Model.searchQuery m) (Model.composeAttachments m)
    (Model.replyAttachments m) (Model.attachmentInput m) (Model.addingAttachment m)
    (Model.attachmentDownloading m) (Model.downloadingIndex m) (Model.list m).
Definition labels (v : list Label) (m : model) : model :=
  Model.mkModel (Model.state m) (Model.srv m) (Model.fullEmail m) (Model.loading m)
    (Model.viewport m) (Model.width m) (Model.height m) (Model.err m) (Model.help m)
    (Model.showHelp m) (Model.composeFrom m) (Model.composeTo m) (Model.composeCc m)
    (Model.composeBcc m) (Model.composeSubj m) (Model.composeBody m) (Model.replyBody m)
    (Model.searchInput m) v (Model.labelsList m) (Model.currentMsg m) (Model.replyToMsg
    m) (Model.focused m) (Model.searchQuery m) (Model.composeAttachments m)
    (Model.replyAttachments m) (Model.attachmentInput m) (Model.addingAttachment m)
    (Model.attachmentDownloading m) (Model.downloadingIndex m) (Model.list m).
Definition labelsList (v : listModel labelItem) (m : model) : model :=
  Model.mkModel (Model.state m) (Model.srv m) (Model.fullEmail m) (Model.loading m)
    (Model.viewport m) (Model.width m) (Model.height m) (Model.err m) (Model.help m)
    (Model.showHelp m) (Model.composeFrom m) (Model.composeTo m) (Model.composeCc m)
    (Model.composeBcc m) (Model.composeSubj m) (Model.composeBody m) (Model.replyBody m)
    (Model.searchInput m) (Model.labels m) v (Model.currentMsg m) (Model.replyToMsg m)
    (Model.focused m) (Model.searchQuery m) (Model.composeAttachments m)
    (Model.replyAttachments m) (Model.attachmentInput m) (Model.addingAttachment m)
    (Model.attachmentDownloading m) (Model.downloadingIndex m) (Model.list m).
Definition currentMsg (v : option emailItem) (m : model) : model :=
  Model.mkModel (Model.state m) (Model.srv m) (Model.fullEmail m) (Model.loading m)
    (Model.viewport m) (Model.width m) (Model.height m) (Model.err m) (Model.help m)
    (Model.showHelp m) (Model.composeFrom m) (Model.composeTo m) (Model.composeCc m)
    (Model.composeBcc m) (Model.composeSubj m) (Model.composeBody m) (Model.replyBody m)
    (Model.searchInput m) (Model.labels m) (Model.labelsList m) v (Model.replyToMsg m)
    (Model.focused m) (Model.searchQuery m) (Model.composeAttachments m)
    (Model.replyAttachments m) (Model.attachmentInput m) (Model.addingAttachment m)
    (Model.attachmentDownloading m) (Model.downloadingIndex m) (Model.list m).
Definition replyToMsg (v : option emailItem) (m : model) : model :=
  Model.mkModel (Model.state m) (Model.srv m) (Model.fullEmail m) (Model.loading m)
    (Model.viewport m) (Model.width m) (Model.height m) (Model.err m) (Model.help m)
    (Model.showHelp m) (Model.composeFrom m) (Model.composeTo m) (Model.composeCc m)
    (Model.composeBcc m) (Model.composeSubj m) (Model.composeBody m) (Model.replyBody m)
    (Model.searchInput m) (Model.labels m) (Model.labelsList m) (Model.currentMsg m) v
    (Model.focused m) (Model.searchQuery m) (Model.composeAttachments m)
    (Model.replyAttachments m) (Model.attachmentInput m) (Model.addingAttachment m)
    (Model.attachmentDownloading m) (Model.downloadingIndex m) (Model.list m).
Definition focused (v : Z) (m : model) : model :=
  Model.mkModel (Model.state m) (Model.srv m) (Model.fullEmail m) (Model.loading m)
    (Model.viewport m) (Model.width m) (Model.height m) (Model.err m) (Model.help m)
    (Model.showHelp m) (Model.composeFrom m) (Model.composeTo m) (Model.composeCc m)
    (Model.composeBcc m) (Model.composeSubj m) (Model.composeBody m) (Model.replyBody m)
    (Model.searchInput m) (Model.labels m) (Model.labelsList m) (Model.currentMsg m)
    (Model.replyToMsg m) v (Model.searchQuery m) (Model.composeAttachments m)
    (Model.replyAttachments m) (Model.attachmentInput m) (Model.addingAttachment m)
    (Model.attachmentDownloading m) (Model.downloadingIndex m) (Model.list m).
Definition searchQuery (v : string) (m : model) : model :=
  Model.mkModel (Model.state m) (Model.srv m) (Model.fullEmail m) (Model.loading m)
    (Model.viewport m) (Model.width m) (Model.height m) (Model.err m) (Model.help m)
    (Model.showHelp m) (Model.composeFrom m) (Model.composeTo m) (Model.composeCc m)
    (Model.composeBcc m) (Model.composeSubj m) (Model.composeBody m) (Model.replyBody m)
    (Model.searchInput m) (Model.labels m) (Model.labelsList m) (Model.currentMsg m)
    (Model.replyToMsg m) (Model.focused m) v (Model.composeAttachments m)
    (Model.replyAttachments m) (Model.attachmentInput m) (Model.addingAttachment m)
    (Model.attachmentDownloading m) (Model.downloadingIndex m) (Model.list m).
Definition composeAttachments (v : list string) (m : model) : model :=
  Model.mkModel (Model.state m) (Model.srv m) (Model.fullEmail m) (Model.loading m)
    (Model.viewport m) (Model.width m) (Model.height m) (Model.err m) (Model.help m)
    (Model.showHelp m) (Model.composeFrom m) (Model.composeTo m) (Model.composeCc m)
    (Model.composeBcc m) (Model.composeSubj m) (Model.composeBody m) (Model.replyBody m)
    (Model.searchInput m) (Model.labels m) (Model.labelsList m) (Model.currentMsg m)
    (Model.replyToMsg m) (Model.focused m) (Model.searchQuery m) v
    (Model.replyAttachments m) (Model.attachmentInput m) (Model.addingAttachment m)
    (Model.attachmentDownloading m) (Model.downloadingIndex m) (Model.list m).
Definition replyAttachments (v : list string) (m : model) : model :=
  Model.mkModel (Model.state m) (Model.srv m) (Model.fullEmail m) (Model.loading m)
    (Model.viewport m) (Model.width m) (Model.height m) (Model.err m) (Model.help m)
    (Model.showHelp m) (Model.composeFrom m) (Model.composeTo m) (Model.composeCc m)
    (Model.composeBcc m) (Model.composeSubj m) (Model.composeBody m) (Model.replyBody m)
    (Model.searchInput m) (Model.labels m) (Model.labelsList m) (Model.currentMsg m)
    (Model.replyToMsg m) (Model.focused m) (Model.searchQuery m)
    (Model.composeAttachments m) v (Model.attachmentInput m) (Model.addingAttachment m)
    (Model.attachmentDownloading m) (Model.downloadingIndex m) (Model.list m).
Definition attachmentInput (v : textinputModel) (m : model) : model :=
  Model.mkModel (Model.state m) (Model.srv m) (Model.fullEmail m) (Model.loading m)
    (Model.viewport m) (Model.width m) (Model.height m) (Model.err m) (Model.help m)
    (Model.showHelp m) (Model.composeFrom m) (Model.composeTo m) (Model.composeCc m)
    (Model.composeBcc m) (Model.composeSubj m) (Model.composeBody m) (Model.replyBody m)
    (Model.searchInput m) (Model.labels m) (Model.labelsList m) (Model.currentMsg m)
    (Model.replyToMsg m) (Model.focused m) (Model.searchQuery m)
    (Model.composeAttachments m) (Model.replyAttachments m) v (Model.addingAttachment m)
    (Model.attachmentDownloading m) (Model.downloadingIndex m) (Model.list m).
Definition addingAttachment (v : bool) (m : model) : model :=
  Model.mkModel (Model.state m) (Model.srv m) (Model.fullEmail m) (Model.loading m)
    (Model.viewport m) (Model.width m) (Model.height m) (Model.err m) (Model.help m)
    (Model.showHelp m) (Model.composeFrom m) (Model.composeTo m) (Model.composeCc m)
    (Model.composeBcc m) (Model.composeSubj m) (Model.composeBody m) (Model.replyBody m)
    (Model.searchInput m) (Model.labels m) (Model.labelsList m) (Model.currentMsg m)
    (Model.replyToMsg m) (Model.focused m) (Model.searchQuery m)
    (Model.composeAttachments m) (Model.replyAttachments m) (Model.attachmentInput m) v
    (Model.attachmentDownloading m) (Model.downloadingIndex m) (Model.list m).
Definition attachmentDownloading (v : bool) (m : model) : model :=
  Model.mkModel (Model.state m) (Model.srv m) (Model.fullEmail m) (Model.loading m)
    (Model.viewport m) (Model.width m) (Model.height m) (Model.err m) (Model.help m)
    (Model.showHelp m) (Model.composeFrom m) (Model.composeTo m) (Model.composeCc m)
    (Model.composeBcc m) (Model.composeSubj m) (Model.composeBody m) (Model.replyBody m)
    (Model.searchInput m) (Model.labels m) (Model.labelsList m) (Model.currentMsg m)
    (Model.replyToMsg m) (Model.focused m) (Model.searchQuery m)
    (Model.composeAttachments m) (Model.replyAttachments m) (Model.attachmentInput m)
    (Model.addingAttachment m) v (Model.downloadingIndex m) (Model.list m).
Definition downloadingIndex (v : Z) (m : model) : model :=
  Model.mkModel (Model.state m) (Model.srv m) (Model.fullEmail m) (Model.loading m)
    (Model.viewport m) (Model.width m) (Model.height m) (Model.err m) (Model.help m)
    (Model.showHelp m) (Model.composeFrom m) (Model.composeTo m) (Model.composeCc m)
    (Model.composeBcc m) (Model.composeSubj m) (Model.composeBody m) (Model.replyBody m)
    (Model.searchInput m) (Model.labels m) (Model.labelsList m) (Model.currentMsg m)
    (Model.replyToMsg m) (Model.focused m) (Model.searchQuery m)
    (Model.composeAttachments m) (Model.replyAttachments m) (Model.attachmentInput m)
    (Model.addingAttachment m) (Model.attachmentDownloading m) v (Model.list m).
Definition list (v : listModel emailItem) (m : model) : model :=
  Model.mkModel (Model.state m) (Model.srv m) (Model.fullEmail m) (Model.loading m)
    (Model.viewport m) (Model.width m) (Model.height m) (Model.err m) (Model.help m)
    (Model.showHelp m) (Model.composeFrom m) (Model.composeTo m) (Model.composeCc m)
    (Model.composeBcc m) (Model.composeSubj m) (Model.composeBody m) (Model.replyBody m)
    (Model.searchInput m) (Model.labels m) (Model.labelsList m) (Model.currentMsg m)
    (Model.replyToMsg m) (Model.focused m) (Model.searchQuery m)
    (Model.composeAttachments m) (Model.replyAttachments m) (Model.attachmentInput m)
    (Model.addingAttachment m) (Model.attachmentDownloading m) (Model.downloadingIndex
    m) v.

End Upd.
(** [strconv.Atoi]: an optional sign and decimal digits, within int64. *)
Module Strconv.

Fixpoint digits (s : string) (acc : Z) : option Z :=
  match s with
  | EmptyString => Some acc
  | String c t =>
      let d := byteZ c - 48 in
      if (0 <=? d) && (d <=? 9) then digits t (acc * 10 + d) else None
  end.

Definition Atoi (s : string) : option Z :=
  let signed (neg : bool) (t : string) :=
    match t with
    | EmptyString => None
    | _ => match digits t 0 with
           | Some n =>
               let v := if neg then - n else n in
               if (- 2 ^ 63 <=? v) && (v <=? 2 ^ 63 - 1) then Some v else None
           | None => None
           end
    end in
  match s with
  | EmptyString => None
  | String c t =>
      if Ascii.eqb c "-" then signed true t
      else if Ascii.eqb c "+" then signed false t
      else signed false s
  end.

End Strconv.

(** [strings.TrimSpace]. *)
Definition TrimSpace := Html.TrimSpace.

(** ** The update file: Update and the handlers of each state

Every handler returns the next model and the command, or [None] where
the Go code dereferences a nil [currentMsg] or [replyToMsg]. *)

Section Controller.

Variable go : GoLib.
Variable ui : Bubbles.
Variable os : OS.

Definition ret (m : model) (c : Cmd) : option (model * Cmd) := Some (m, c).

(** focusComposeField (model.go): it blurs the six fields and focuses the
    one under [focused]; the model returned is the receiver after the
    call. *)
Definition focusComposeField (m : model) : model * Cmd :=
  let m := Upd.composeFrom (tiBlur (Model.composeFrom m)) m in
  let m := Upd.composeTo (tiBlur (Model.composeTo m)) m in
  let m := Upd.composeCc (tiBlur (Model.composeCc m)) m in
  let m := Upd.composeBcc (tiBlur (Model.composeBcc m)) m in
  let m := Upd.composeSubj (tiBlur (Model.composeSubj m)) m in
  let m := Upd.composeBody (taBlur (Model.composeBody m)) m in
  let f := Model.focused m in
  if f =? 0 then (Upd.composeFrom (tiFocused (Model.composeFrom m)) m, blink)
  else if f =? 1 then (Upd.composeTo (tiFocused (Model.composeTo m)) m, blink)
  else if f =? 2 then (Upd.composeCc (tiFocused (Model.composeCc m)) m, blink)
  else if f =? 3 then (Upd.composeBcc (tiFocused (Model.composeBcc m)) m, blink)
  else if f =? 4 then (Upd.composeSubj (tiFocused (Model.composeSubj m)) m, blink)
  else if f =? 5 then (Upd.composeBody (taFocused (Model.composeBody m)) m, blink)
  else (m, CmdNil).

Definition handleWindowSize (Width Height : Z) (m : model) : option (model * Cmd) :=
  let m := Upd.width Width m in
  let m := Upd.height Height m in
  let m := Upd.help (mkHelp Width) m in
  let m :=
    match Model.state m with
    | stateInbox => Upd.list (SetSize (Model.list m) Width (Height - 3)) m
    | stateViewing => Upd.viewport (vpResize (Model.viewport m) Width (Height - 7)) m
    | _ => m
    end in
  ret m CmdNil.

Definition handleAttachmentDownload (msg : KeyMsg) (m : model) : option (model * Cmd) :=
  if Matches msg (Back keys) then
    ret (Upd.attachmentDownloading false m) CmdNil
  else
    match keyType msg, Strconv.Atoi (Runes msg) with
    | KeyRunes, Some digit =>
        if 0 <? digit then
          match Model.currentMsg m with
          | None => None
          | Some cur =>
              if digit <=? Z.of_nat (List.length (attachments cur)) then
                match nth_error (attachments cur) (Z.to_nat (digit - 1)) with
                | Some attachment =>
                    ret (Upd.attachmentDownloading false m)
                        (Batch [ CmdShowNotification
                                   ("Downloading " ++ Filename attachment ++ "...");
                                 CmdDownloadAttachment (id cur) attachment ])
                | None => None
                end
              else ret m CmdNil
          end
        else ret m CmdNil
    | _, _ => ret m CmdNil
    end.

Definition handleEmailLoaded (content : string) (m : model) : option (model * Cmd) :=
  let m := Upd.state stateViewing m in
  let m := Upd.fullEmail content m in
  let m := Upd.viewport (vpResize (Model.viewport m) (Model.width m) (Model.height m - 7)) m in
  let m := Upd.viewport (SetContent (Model.viewport m) (Model.fullEmail m)) m in
  ret m CmdNil.

Definition handleEmailSent (m : model) : option (model * Cmd) :=
  let m := Upd.state stateInbox m in
  let m := Upd.viewport (GotoTop (Model.viewport m)) m in
  ret m (CmdShowNotification "Email sent successfully!").

Definition handleLabelsLoaded (labels : list Label) (m : model) : option (model * Cmd) :=
  let items := map mkLabelItem labels in
  let m := Upd.labels labels m in
  let m := Upd.labelsList (SetItems (Model.labelsList m) items) m in
  let m := Upd.state stateManagingLabels m in
  ret m CmdNil.

Definition handleSearchResult (messages : list Message) (m : model) : option (model * Cmd) :=
  let items :=
    fold_left (fun items message =>
                 match createEmailItem go (Model.srv m) (Id message) true with
                 | Some item => (items ++ [item])%list
                 | None => items
                 end) messages [] in
  let m := Upd.list (SetItems (Model.list m) items) m in
  let m := Upd.state stateInbox m in
  ret m CmdNil.

Definition updateComponents (msg : Msg) (m : model) : option (model * Cmd) :=
  match Model.state m with
  | stateLoading =>
      let (c, cmd) := spinnerUpdate ui msg (Model.loading m) in
      ret (Upd.loading c m) (Batch [cmd])
  | stateViewing =>
      let (c, cmd) := viewportUpdate ui msg (Model.viewport m) in
      ret (Upd.viewport c m) (Batch [cmd])
  | stateReplying =>
      let (c, cmd) := textareaUpdate ui msg (Model.replyBody m) in
      ret (Upd.replyBody c m) (Batch [cmd])
  | stateSearching =>
      let (c, cmd) := textinputUpdate ui msg (Model.searchInput m) in
      ret (Upd.searchInput c m) (Batch [cmd])
  | stateManagingLabels =>
      let (c, cmd) := listUpdate ui _ msg (Model.labelsList m) in
      ret (Upd.labelsList c m) (Batch [cmd])
  | _ => ret m (Batch [])
  end.

Definition updateInbox (msg : KeyMsg) (m : model) : option (model * Cmd) :=
  let forward :=
    let (c, cmd) := listUpdate ui _ (TeaKeyMsg msg) (Model.list m) in
    ret (Upd.list c m) cmd in
  if Matches msg (Compose keys) then
    let m := Upd.state stateComposing m in
    let m := Upd.composeFrom (tiSetValue (Model.composeFrom m) "me") m in
    ret m CmdNil
  else if Matches msg (Search keys) then
    let m := Upd.state stateSearching m in
    let m := Upd.searchInput (tiFocused (Model.searchInput m)) m in
    ret m CmdNil
  else if Matches msg (Labels keys) then
    ret m CmdLoadLabels
  else if Matches msg (Quit keys) then
    ret m CmdQuit
  else if Matches msg (Select keys) then
    match SelectedItem (Model.list m) with
    | Some selected =>
        let m := Upd.currentMsg (Some selected) m in
        let m := Upd.state stateLoading m in
        ret m (Batch [spinnerTick; CmdLoadEmail (id selected)])
    | None => forward
    end
  else if Matches msg (Delete keys) then
    match SelectedItem (Model.list m) with
    | Some selected => ret m (CmdDeleteEmail (id selected))
    | None => forward
    end
  else if Matches msg (ToggleRead keys) then
    match SelectedItem (Model.list m) with
    | Some selected => ret m (CmdToggleReadStatus (id selected) (isUnread selected))
    | None => forward
    end
  else forward.

Definition updateViewing (msg : KeyMsg) (m : model) : option (model * Cmd) :=
  if Matches msg (Back keys) then
    let m := Upd.state stateInbox m in
    let m := Upd.viewport (GotoTop (Model.viewport m)) m in
    ret m CmdNil
  else if Matches msg (Reply keys) then
    let m := Upd.state stateReplying m in
    let m := Upd.replyToMsg (Model.currentMsg m) m in
    let m := Upd.replyBody (taFocused (Model.replyBody m)) m in
    ret m CmdNil
  else if Matches msg (Delete keys) then
    match Model.currentMsg m with
    | Some cur => ret m (CmdDeleteEmail (id cur))
    | None => None
    end
  else if Matches msg (ToggleRead keys) then
    match Model.currentMsg m with
    | Some cur => ret m (CmdToggleReadStatus (id cur) (isUnread cur))
    | None => None
    end
  else if Matches msg (Labels keys) then
    ret m CmdLoadLabels
  else if Matches msg (Quit keys) then
    ret m CmdQuit
  else if Matches msg (DownloadAttachment keys) then
    match Model.currentMsg m with
    | None => None
    | Some cur =>
        if (List.length (attachments cur) =? 0)%nat then
          ret m (CmdShowNotification "No attachments available")
        else
          let m := Upd.attachmentDownloading true m in
          ret m (CmdShowNotification
                   ("Select attachment to download (1-"
                    ++ NilEmpty.string_of_uint (Nat.to_uint (List.length (attachments cur)))
                    ++ ") [esc] cancel"))
    end
  else
    let (c, cmd) := viewportUpdate ui (TeaKeyMsg msg) (Model.viewport m) in
    ret (Upd.viewport c m) cmd.

Definition handleAttachmentAdd (m : model) : option (model * Cmd) :=
  let path := TrimSpace (tiValue (Model.attachmentInput m)) in
  if isEmpty path then ret m CmdNil
  else if osStatOk os path then
    let m := Upd.composeAttachments (Model.composeAttachments m ++ [path])%list m in
    let m := Upd.addingAttachment false m in
    let m := Upd.attachmentInput (tiReset (Model.attachmentInput m)) m in
    let (m, cmd) := focusComposeField m in
    ret m (Batch [cmd; CmdShowNotification ("Added: " ++ Filepath.Base path)])
  else ret m (CmdShowNotification ("File not found: " ++ path)).

Definition updateComposeFields (msg : Msg) (m : model) : option (model * Cmd) :=
  if Model.addingAttachment m then
    let (c, cmd) := textinputUpdate ui msg (Model.attachmentInput m) in
    ret (Upd.attachmentInput c m) cmd
  else
    let f := Model.focused m in
    if f =? 0 then
      let (c, cmd) := textinputUpdate ui msg (Model.composeFrom m) in
      ret (Upd.composeFrom c m) cmd
    else if f =? 1 then
      let (c, cmd) := textinputUpdate ui msg (Model.composeTo m) in
      ret (Upd.composeTo c m) cmd
    else if f =? 2 then
      let (c, cmd) := textinputUpdate ui msg (Model.composeCc m) in
      ret (Upd.composeCc c m) cmd
    else if f =? 3 then
      let (c, cmd) := textinputUpdate ui msg (Model.composeBcc m) in
      ret (Upd.composeBcc c m) cmd
    else if f =? 4 then
      let (c, cmd) := textinputUpdate ui msg (Model.composeSubj m) in
      ret (Upd.composeSubj c m) cmd
    else if f =? 5 then
      let (c, cmd) := textareaUpdate ui msg (Model.composeBody m) in
      ret (Upd.composeBody c m) cmd
    else ret m CmdNil.

Definition updateComposing (msg : KeyMsg) (m : model) : option (model * Cmd) :=
  let forward := updateComposeFields (TeaKeyMsg msg) m in
  if Matches msg (Back keys) then
    if Model.addingAttachment m then
      let m := Upd.addingAttachment false m in
      let m := Upd.attachmentInput (tiReset (Model.attachmentInput m)) m in
      let (m, cmd) := focusComposeField m in
      ret m cmd
    else ret (Upd.state stateInbox m) CmdNil
  else if Matches msg (Send keys) then
    ret m (CmdSendEmail (tiValue (Model.composeTo m)) (tiValue (Model.composeCc m))
                        (tiValue (Model.composeBcc m)) (tiValue (Model.composeSubj m))
                        (taValue (Model.composeBody m)) (Model.composeAttachments m))
  else if Matches msg (AddAttachment keys) then
    if negb (Model.addingAttachment m) then
      let m := Upd.addingAttachment true m in
      let m := Upd.attachmentInput (tiFocused (Model.attachmentInput m)) m in
      ret m CmdNil
    else ret m CmdNil
  else if Matches msg (RemoveAttachment keys) then
    if negb (Model.addingAttachment m)
       && (0 <? List.length (Model.composeAttachments m))%nat then
      let m := Upd.composeAttachments (removelast (Model.composeAttachments m)) m in
      ret m (CmdShowNotification "Removed last attachment")
    else forward
  else if (match keyType msg with KeyEnter => true | _ => false end)
          && Model.addingAttachment m then
    handleAttachmentAdd m
  else if Matches msg (NextInput keys) then
    if negb (Model.addingAttachment m) then
      let m := Upd.focused (Z.rem (Model.focused m + 1) 6) m in
      let (m, cmd) := focusComposeField m in
      ret m cmd
    else forward
  else if Matches msg (PrevInput keys) then
    if negb (Model.addingAttachment m) then
      let m := Upd.focused (Z.rem (Model.focused m - 1 + 6) 6) m in
      let (m, cmd) := focusComposeField m in
      ret m cmd
    else forward
  else forward.

Definition updateReplying (msg : KeyMsg) (m : model) : option (model * Cmd) :=
  if Matches msg (Back keys) then
    let m := Upd.state stateViewing m in
    let m := Upd.addingAttachment false m in
    ret m CmdNil
  else if Matches msg (Send keys) then
    match Model.replyToMsg m, Model.currentMsg m with
    | Some replyTo, Some cur =>
        let quoted :=
          nl ++ nl ++ "--- Original Message ---" ++ nl
             ++ "From: " ++ from replyTo ++ nl
             ++ "Date: " ++ date replyTo ++ nl ++ nl
             ++ indentText (body cur) in
        let fullBody := taValue (Model.replyBody m) ++ quoted in
        ret m (CmdSendEmail (from replyTo) EmptyString EmptyString
                            ("Re: " ++ subject replyTo) fullBody
                            (Model.replyAttachments m))
    | _, _ => None
    end
  else if Matches msg (AddAttachment keys) then
    let m := Upd.addingAttachment true m in
    let m := Upd.attachmentInput (tiFocused (Model.attachmentInput m)) m in
    ret m CmdNil
  else if Matches msg (RemoveAttachment keys) then
    let m :=
      if (0 <? List.length (Model.replyAttachments m))%nat
      then Upd.replyAttachments (removelast (Model.replyAttachments m)) m
      else m in
    ret m CmdNil
  else if (match keyType msg with KeyEnter => true | _ => false end)
          && Model.addingAttachment m then
    let path := TrimSpace (tiValue (Model.attachmentInput m)) in
    let m :=
      if negb (isEmpty path) && osStatOk os path then
        let m := Upd.replyAttachments (Model.replyAttachments m ++ [path])%list m in
        let m := Upd.addingAttachment false m in
        Upd.attachmentInput (tiReset (Model.attachmentInput m)) m
      else m in
    ret m CmdNil
  else if Model.addingAttachment m then
    let (c, cmd) := textinputUpdate ui (TeaKeyMsg msg) (Model.attachmentInput m) in
    ret (Upd.attachmentInput c m) cmd
  else
    let (c, cmd) := textareaUpdate ui (TeaKeyMsg msg) (Model.replyBody m) in
    ret (Upd.replyBody c m) cmd.

Definition updateSearching (msg : KeyMsg) (m : model) : option (model * Cmd) :=
  if Matches msg (Back keys) then
    ret (Upd.state stateInbox m) CmdNil
  else if (match keyType msg with KeyEnter => true | _ => false end) then
    let m := Upd.state stateLoading m in
    let m := Upd.searchQuery (tiValue (Model.searchInput m)) m in
    ret m (Batch [spinnerTick; CmdPerformSearch (Model.searchQuery m)])
  else
    let (c, cmd) := textinputUpdate ui (TeaKeyMsg msg) (Model.searchInput m) in
    ret (Upd.searchInput c m) cmd.

Definition updateLabelManagement (msg : KeyMsg) (m : model) : option (model * Cmd) :=
  let forward :=
    let (c, cmd) := listUpdate ui _ (TeaKeyMsg msg) (Model.labelsList m) in
    ret (Upd.labelsList c m) cmd in
  if Matches msg (Back keys) then
    ret (Upd.state stateInbox m) CmdNil
  else if Matches msg (Select keys) then
    match SelectedItem (Model.labelsList m) with
    | Some selected =>
        let m := Upd.state stateLoading m in
        ret m (Batch [spinnerTick; CmdLoadEmailsByLabel (labelId (label selected))])
    | None => forward
    end
  else forward.

Definition handleKeyPress (msg : KeyMsg) (m : model) : option (model * Cmd) :=
  (* Handle help toggle *)
  if negb (Model.showHelp m) && Matches msg (ShowHelp keys) then
    ret (Upd.showHelp true m) CmdNil
  else if Model.showHelp m && Matches msg (CloseHelp keys) then
    ret (Upd.showHelp false m) CmdNil
  else
    (* Handle attachment downloading state *)
    match Model.state m with
    | stateViewing =>
        if Model.attachmentDownloading m
        then handleAttachmentDownload msg m
        else updateViewing msg m
    (* Route to state-specific handlers *)
    | stateInbox => updateInbox msg m
    | stateComposing => updateComposing msg m
    | stateReplying => updateReplying msg m
    | stateSearching => updateSearching msg m
    | stateManagingLabels => updateLabelManagement msg m
    | stateLoading => ret m CmdNil
    end.

Definition Update (msg : Msg) (m : model) : option (model * Cmd) :=
  match msg with
  | WindowSizeMsg w h => handleWindowSize w h m
  | TeaKeyMsg k => handleKeyPress k m
  | emailLoadedMsg content => handleEmailLoaded content m
  | emailSentMsg => handleEmailSent m
  | labelsLoadedMsg labels => handleLabelsLoaded labels m
  | searchResultMsg messages => handleSearchResult messages m
  | attachmentDownloadedMsg filename =>
      ret m (CmdShowNotification ("Downloaded: " ++ filename))
  | _ => updateComponents msg m
  end.

(** initialModel (model.go). *)
Definition initialModel (emails : list Message) (srv : option Service)
           (labels : list Label) : model :=
  let items :=
    fold_left (fun items msg =>
                 match createEmailItem go srv (Id msg) false with
                 | Some item => (items ++ [item])%list
                 | None => items
                 end) emails [] in
  let input := mkTextinput EmptyString false in
  let area := mkTextarea EmptyString false in
  Model.mkModel stateInbox srv EmptyString (mkSpinner 0) (mkViewport 20 10 EmptyString 0)
    0 0 EmptyString (mkHelp 0) false
    input input input input input area area input
    labels (mkList [] 0%nat 0 0) None None 0 EmptyString [] [] input false false 0
    (mkList items 0%nat 0 0).

(** The model after a run of messages, the commands left aside. *)
Fixpoint run (msgs : list Msg) (m : model) : option model :=
  match msgs with
  | [] => Some m
  | msg :: rest =>
      match Update msg m with
      | Some (m', _) => run rest m'
      | None => None
      end
  end.

End Controller.

(** ** Auxiliary predicates of the statements *)

(** The two characters that only the URL-safe alphabet has. *)
Definition urlOnly (c : ascii) : bool := Ascii.eqb c "-" || Ascii.eqb c "_".

Fixpoint noUrlOnly (s : string) : bool :=
  match s with
  | EmptyString => true
  | String c t => negb (urlOnly c) && noUrlOnly t
  end.

(** On a character the standard alphabet knows or rejects, the URL-safe
    decoder reads the same value or stops. *)
Definition agreeChar (c : ascii) : bool :=
  urlOnly c
  || (Base64.decodeMap Base64.URLEncoding c =? Base64.decodeMap Base64.StdEncoding c)
  || ((Base64.decodeMap Base64.URLEncoding c =? 255)
      && negb (Base64.isNewline c) && negb (Ascii.eqb c "=")).

(** ** A sample mailbox, to run the program on

    One message, [m1], as the service returns it in full and in minimal
    format: a multipart/mixed message whose first part is a
    multipart/alternative (plain text and HTML) and whose second part is an
    attached file. *)

Definition plainPart : MessagePart :=
  mkPart "text/plain" EmptyString [] (Some (mkBody EmptyString "aGVsbG8" 5)) [].

Definition htmlPart : MessagePart :=
  mkPart "text/html" EmptyString []
         (Some (mkBody EmptyString "PGI-aGVsbG88L2I-" 12)) [].

Definition alternativePart : MessagePart :=
  mkPart "multipart/alternative" EmptyString [] None [plainPart; htmlPart].

Definition pdfPart : MessagePart :=
  mkPart "application/pdf" "report.pdf" []
         (Some (mkBody "att-1" EmptyString 1024)) [].

Definition samplePayload : MessagePart :=
  mkPart "multipart/mixed" EmptyString
         [mkHeader "From" "ann@example.com"; mkHeader "Subject" "Report";
          mkHeader "Date" "Mon, 02 Jan 2006 15:04:05 -0700"]
         None [alternativePart; pdfPart].

Definition longSnippet : string := Repeat "0123456789" 9.

Definition sampleMessage (full : bool) : Message :=
  mkMessage "m1" "t1" longSnippet ["INBOX"; "UNREAD"]
            (if full then Some samplePayload else None).

Definition sampleLabels : list Label :=
  [mkLabel "INBOX" "INBOX"; mkLabel "Label_1" "Work"].

Definition sampleService : Service :=
  mkService
    (fun msgID format =>
       if String.eqb msgID "m1"
       then GetOk (sampleMessage (String.eqb format "full"))
       else GetError "notFound")
    (fun _ _ => Ok [sampleMessage false])
    (fun _ _ => Ok [sampleMessage false])
    (Ok sampleLabels)
    (fun _ => Ok tt)
    (fun _ => Ok tt)
    (fun _ _ _ => Ok tt)
    (fun _ _ => Ok EmptyString).

(** ** The part tree, as the statements speak of it *)

Definition isMultipart (part : MessagePart) : bool :=
  HasPrefix (MimeType part) "multipart/".

Definition hasFilename (part : MessagePart) : bool :=
  negb (isEmpty (Filename part)).

(** The parts the descent of findAttachments visits, depth first and left
    to right: a part, then, under a multipart, the parts below it. *)
Fixpoint visited (part : MessagePart) : list MessagePart :=
  part :: (if isMultipart part then flat_map visited (Parts part) else []).

(** The parts at which the descent ends: those that are not multipart. *)
Fixpoint leaves (part : MessagePart) : list MessagePart :=
  if isMultipart part then flat_map leaves (Parts part) else [part].

(** A multipart that carries a file name itself. *)
Definition namedMultipart : MessagePart :=
  mkPart "multipart/mixed" "bundle.eml" [] None [pdfPart].

(** ** Keys and a sample session *)

Definition runeKey (s : string) : KeyMsg := mkKey KeyRunes s false.
Definition specialKey (t : KeyType) : KeyMsg := mkKey t EmptyString false.

Definition sampleOS : OS :=
  mkOS (fun path =>
          if String.eqb path "notes.txt" then Ok (mkFile (Ok 12))
          else if String.eqb path "exact.bin" then Ok (mkFile (Ok (25 * 1024 * 1024)))
          else if String.eqb path "big.iso" then Ok (mkFile (Ok (25 * 1024 * 1024 + 1)))
          else Err ("open " ++ path ++ ": no such file or directory"))
       (fun path => String.eqb path "notes.txt" || String.eqb path "exact.bin"
                    || String.eqb path "big.iso")
       (fun _ => None)
       "BOUNDARY".

(** The model at start-up, on the sample mailbox. *)
Definition sampleModel : model :=
  initialModel plainGo [sampleMessage false] (Some sampleService) sampleLabels.

Definition after (msgs : list Msg) (m : model) : model :=
  match run plainGo inertBubbles sampleOS msgs m with
  | Some m' => m'
  | None => m
  end.

(** The first message opened, and then the attachment picker armed. *)
Definition viewingModel : model :=
  after [TeaKeyMsg (specialKey KeyEnter); emailLoadedMsg "From: ann@example.com"]
        sampleModel.

Definition armedModel : model :=
  after [TeaKeyMsg (specialKey KeyCtrlD)] viewingModel.

(** ** The models a session can be in *)

(** The models reached from start-up by any messages, each handled under
    any state of the file system. *)
Inductive reachable (go : GoLib) (ui : Bubbles) : model -> Prop :=
| reach_init (emails : list Message) (srv : option Service) (labels : list Label) :
    reachable go ui (initialModel go emails srv labels)
| reach_step (m m' : model) (os : OS) (msg : Msg) (c : Cmd) :
    reachable go ui m ->
    Update go ui os msg m = Some (m', c) ->
    reachable go ui m'.

(** The item of the sample message, as it stands in the start-up list. *)
Definition sampleItem : emailItem :=
  mkEmailItem "m1" "t1" "Report" "ann@example.com" (take 77 longSnippet ++ "...")
              "Mon, 02 Jan 2006 15:04:05 -0700" ["INBOX"; "UNREAD"] true
              EmptyString EmptyString EmptyString EmptyString [pdfPart].

(** The reply composer, opened on the first message. *)
Definition replyingModel : model :=
  after [TeaKeyMsg (runeKey "r")] viewingModel.

(** A service on which every call fails. *)
Definition failingService : Service :=
  mkService (fun _ _ => GetError "backendError")
            (fun _ _ => Err "backendError")
            (fun _ _ => Err "backendError")
            (Err "backendError")
            (fun _ => Err "backendError")
            (fun _ => Err "backendError")
            (fun _ _ _ => Err "backendError")
            (fun _ _ => Err "backendError").






(** ** The characters sanitizeFilename keeps, as the statements speak of them *)

(** Unicode white space, letters and numbers, and the three marks. *)
Definition kept (go : GoLib) (r : Z) : bool :=
  Unicode.IsSpace r || Unicode.IsLetter go r || Unicode.IsNumber go r
  || (r =? 45) || (r =? 95) || (r =? 46).

(** The same within ASCII, where no table of the library is consulted:
    letters, digits, the space and the five control characters that are
    white space (tab, LF, VT, FF, CR), and the three marks. *)
Definition keptAscii (r : Z) : bool :=
  Unicode.inRange 65 90 r || Unicode.inRange 97 122 r || Unicode.inRange 48 57 r
  || (r =? 32) || Unicode.inRange 9 13 r
  || (r =? 45) || (r =? 95) || (r =? 46).

Definition tab : string := String "009" EmptyString.

(** ** The sizes of a draft's attachments, as the statements speak of them *)

(** The size [file.Stat] reports for the file at a path, when it opens. *)
Definition fileSize (os : OS) (filePath : string) : option Z :=
  match osOpen os filePath with
  | Ok file => match Stat file with Ok size => Some size | Err _ => None end
  | Err _ => None
  end.

(** The file is larger than the limit. *)
Definition oversize (os : OS) (filePath : string) : Prop :=
  exists size : Z, fileSize os filePath = Some size /\ maxAttachmentSize < size.

(** The bytes the attachments take in the outgoing message, base64
    encoded. *)
Definition totalEncodedSize (os : OS) (attachments : list string) : Z :=
  fold_right (fun filePath acc =>
                match fileSize os filePath with
                | Some size => Base64.EncodedLen size + acc
                | None => acc
                end) 0 attachments.

(** No step on the temporary file or on a part fails. *)
Definition noFault (os : OS) : Prop := forall s : IOStep, ioFault os s = None.

(** ** Auxiliary notions of the proofs *)

(** What the decoder does on a padding character, alike for every
    alphabet. *)
Definition onPadding (p : ascii) (rest : string) (q : list Z) : option (list ascii) :=
  match q with
  | [] | [_] => None
  | [_; _] =>
      match Base64.skipNewlines rest with
      | EmptyString => None
      | String c2 r2 =>
          if Ascii.eqb c2 p then
            match Base64.skipNewlines r2 with
            | EmptyString => Some (Base64.quantumBytes q)
            | _ => None
            end
          else None
      end
  | _ =>
      match Base64.skipNewlines rest with
      | EmptyString => Some (Base64.quantumBytes q)
      | _ => None
      end
  end.

(** What a step does to the opened message and to the message replied to:
    it leaves both (and then stays in its state or ends outside the reply
    composer), or it opens the reply composer from the viewer on the
    opened message, or it opens a message from the inbox. *)
Definition frame (m m' : model) : Prop :=
  (Model.currentMsg m' = Model.currentMsg m
   /\ Model.replyToMsg m' = Model.replyToMsg m
   /\ (Model.state m' = Model.state m \/ Model.state m' <> stateReplying))
  \/ (Model.state m = stateViewing /\ Model.state m' = stateReplying
      /\ Model.currentMsg m' = Model.currentMsg m
      /\ Model.replyToMsg m' = Model.currentMsg m)
  \/ (Model.state m = stateInbox /\ Model.state m' = stateLoading
      /\ Model.replyToMsg m' = Model.replyToMsg m).


(** ** A message with a text, and a snippet with accents *)

(** The message [m2], a single part of plain text of two lines.  In
    minimal format the service returns it without its payload. *)
Definition textPayload : MessagePart :=
  mkPart "text/plain" EmptyString
         [mkHeader "From" "bob@example.com"; mkHeader "Subject" "Hi";
          mkHeader "Date" "Tue, 03 Jan 2006 10:00:00 -0700"]
         (Some (mkBody EmptyString "aGVsbG8Kd29ybGQ" 11)) [].

Definition textMessage (full : bool) : Message :=
  mkMessage "m2" "t2" "hello world" ["INBOX"]
            (if full then Some textPayload else None).

Definition textService : Service :=
  mkService
    (fun msgID format =>
       if String.eqb msgID "m2"
       then GetOk (textMessage (String.eqb format "full"))
       else GetError "notFound")
    (fun _ _ => Ok [textMessage false])
    (fun _ _ => Ok [textMessage false])
    (Ok sampleLabels)
    (fun _ => Ok tt)
    (fun _ => Ok tt)
    (fun _ _ _ => Ok tt)
    (fun _ _ => Ok EmptyString).


(** The text loadEmail loads for [m2]. *)
Definition textContent : string :=
  "From: bob@example.com" ++ nl ++ "Subject: Hi" ++ nl
  ++ "Date: Tue, 03 Jan 2006 10:00:00 -0700" ++ nl ++ nl
  ++ "hello" ++ nl ++ "world".

Definition textModel : model :=
  initialModel plainGo [textMessage false] (Some textService) sampleLabels.

(** The reply composer opened on [m2] from the start-up list; and opened
    on it after a search: the search form, the search, its result, the
    item selected, its text loaded, the reply key. *)
Definition textReplyModel : model :=
  after [ TeaKeyMsg (specialKey KeyEnter); emailLoadedMsg textContent;
          TeaKeyMsg (runeKey "r") ]
        textModel.


(** A snippet of 41 letters e with an acute accent (U+00E9, two bytes
    each), and a service that returns it. *)
Definition eAcute : string := Html.bytes [195; 169].

Definition accentSnippet : string := Repeat eAcute 41.

Definition accentService : Service :=
  mkService
    (fun _ _ => GetOk (mkMessage "m3" "t3" accentSnippet ["INBOX"] None))
    (fun _ _ => Ok [])
    (fun _ _ => Ok [])
    (Ok [])
    (fun _ => Ok tt)
    (fun _ => Ok tt)
    (fun _ _ _ => Ok tt)
    (fun _ _ => Ok EmptyString).

(** ** main.go: start-up and downloads *)

Module Main.

(** fetchInboxMessages retrieves messages from the primary inbox; an answer
    without messages is the empty list. *)
Definition fetchInboxMessages (srv : Service) : result (list Message) :=
  match messagesList srv inboxQuery defaultMaxResults with
  | Err e => Err e
  | Ok messages =>
      if (List.length messages =? 0)%nat then Ok [] else Ok messages
  end.

(** fetchLabels retrieves all Gmail labels for the user. *)
Definition fetchLabels (srv : Service) : result (list Label) :=
  match labelsList srv with
  | Err e => Err e
  | Ok labels => Ok labels
  end.

(** run, up to the start of the program: the error it returns, or the
    model the program is started on; [auth] is what getGmailService
    returns. *)
Definition run (go : GoLib) (auth : result Service) : result model :=
  match auth with
  | Err e => Err ("failed to initialize Gmail service: " ++ e)
  | Ok srv =>
      match fetchInboxMessages srv with
      | Err e => Err ("failed to fetch inbox messages: " ++ e)
      | Ok messages =>
          let labels :=
            match fetchLabels srv with
            | Err _ => []       (* Continue with empty labels *)
            | Ok labels => labels
            end in
          Ok (initialModel go messages (Some srv) labels)
      end
  end.

End Main.

(** The directory tree downloadAttachment writes to, and the text of the
    error of the base64 decoder on an input it rejects (the library
    computes it from the place of the corrupt byte). *)
Record Disk := mkDisk {
  MkdirAll : string -> option error;
  WriteFile : string -> string -> option error;
  corruptInput : string -> error
}.

(** downloadAttachment: the completion message and the calls of
    [os.WriteFile] it made; [None] is the nil dereference of an attachment
    without body. *)
Definition downloadAttachment (go : GoLib) (disk : Disk) (srv : Service)
           (msgID : string) (attachment : MessagePart)
  : option (Msg * list (string * string)) :=
  match Body attachment with
  | None => None
  | Some b =>
      match attachmentsGet srv msgID (AttachmentId b) with
      | Err e => Some (notificationMsg ("Download failed: " ++ e), [])
      | Ok attData =>
          match Base64.DecodeString Base64.RawURLEncoding attData with
          | None =>
              Some (notificationMsg ("Failed to decode: " ++ corruptInput disk attData),
                    [])
          | Some data =>
              match MkdirAll disk downloadsDir with
              | Some e =>
                  Some (notificationMsg
                          ("Couldn't create downloads directory: " ++ e), [])
              | None =>
                  let filename :=
                    Filepath.JoinPath
                      [downloadsDir; sanitizeFilename go (Filename attachment)] in
                  match WriteFile disk filename data with
                  | Some e =>
                      Some (notificationMsg ("Save failed: " ++ e), [(filename, data)])
                  | None =>
                      Some (attachmentDownloadedMsg filename, [(filename, data)])
                  end
              end
          end
      end
  end.

(** A disk on which every call succeeds. *)
Definition sampleDisk : Disk :=
  mkDisk (fun _ => None) (fun _ _ => None)
         (fun _ => "illegal base64 data").

(** ** Auxiliary notions of the further properties *)

(** Whether a key picks one of [n] attachments in the picker: it types a
    number between 1 and [n]. *)
Definition picks (k : KeyMsg) (n : nat) : bool :=
  match keyType k, Strconv.Atoi (Runes k) with
  | KeyRunes, Some digit => (0 <? digit) && (digit <=? Z.of_nat n)
  | _, _ => false
  end.

(** The focus flags of the six fields of the composer, in the order of
    [focused]. *)
Definition fieldFocus (m : model) : list bool :=
  [ tiFocus (Model.composeFrom m); tiFocus (Model.composeTo m);
    tiFocus (Model.composeCc m); tiFocus (Model.composeBcc m);
    tiFocus (Model.composeSubj m); taFocus (Model.composeBody m) ].

(** The flags when the field numbered [f] has the focus and no other. *)
Definition onlyFocus (f : Z) : list bool :=
  map (Z.eqb f) [0; 1; 2; 3; 4; 5].

(** A path of an existing file is added at the end of a list of
    attachments; the last path is taken off it. *)
Definition pushed (os : OS) (path : string) (old new : list string) : Prop :=
  new = (old ++ [path])%list /\ path <> EmptyString /\ osStatOk os path = true.

Definition popped (old new : list string) : Prop :=
  old <> [] /\ new = removelast old.

(** The path typed into the path field, as the composers read it. *)
Definition typedPath (m : model) : string :=
  TrimSpace (tiValue (Model.attachmentInput m)).

Definition isEnter (k : KeyMsg) : bool :=
  match keyType k with
  | KeyEnter => true
  | _ => false
  end.

Definition isKey (msg : Msg) : bool :=
  match msg with
  | TeaKeyMsg _ => true
  | _ => false
  end.

(** What a step may do to the attachment lists of the two drafts: nothing;
    or, on a key in the composer, push the typed path on the list of the
    new message (the enter key, while a path is being typed) or pop that
    list (a key bound to remove-attachment, while none is being typed); or,
    on a key in the reply composer, push the typed path on the list of the
    reply (the enter key, while a path is being typed) or pop it (a key
    bound to remove-attachment). *)
Definition draftStep (os : OS) (msg : Msg) (m m' : model) : Prop :=
  (Model.composeAttachments m' = Model.composeAttachments m
   /\ Model.replyAttachments m' = Model.replyAttachments m)
  \/ (exists k : KeyMsg,
         msg = TeaKeyMsg k
         /\ Model.state m = stateComposing
         /\ Model.replyAttachments m' = Model.replyAttachments m
         /\ ((isEnter k = true /\ Model.addingAttachment m = true
              /\ pushed os (typedPath m)
                        (Model.composeAttachments m) (Model.composeAttachments m'))
             \/ (Matches k (RemoveAttachment keys) = true
                 /\ Model.addingAttachment m = false
                 /\ popped (Model.composeAttachments m) (Model.composeAttachments m'))))
  \/ (exists k : KeyMsg,
         msg = TeaKeyMsg k
         /\ Model.state m = stateReplying
         /\ Model.composeAttachments m' = Model.composeAttachments m
         /\ ((isEnter k = true /\ Model.addingAttachment m = true
              /\ pushed os (typedPath m)
                        (Model.replyAttachments m) (Model.replyAttachments m'))
             \/ (Matches k (RemoveAttachment keys) = true
                 /\ popped (Model.replyAttachments m) (Model.replyAttachments m')))).

(** What handleAttachmentAdd does to the two lists. *)
Definition addStep (os : OS) (m m' : model) : Prop :=
  Model.replyAttachments m' = Model.replyAttachments m
  /\ (Model.composeAttachments m' = Model.composeAttachments m
      \/ pushed os (typedPath m)
                (Model.composeAttachments m) (Model.composeAttachments m')).

(** What the composer does to the two lists on a key, whatever the
    state. *)
Definition composeStep (os : OS) (k : KeyMsg) (m m' : model) : Prop :=
  Model.replyAttachments m' = Model.replyAttachments m
  /\ (Model.composeAttachments m' = Model.composeAttachments m
      \/ (isEnter k = true /\ Model.addingAttachment m = true
          /\ pushed os (typedPath m)
                    (Model.composeAttachments m) (Model.composeAttachments m'))
      \/ (Matches k (RemoveAttachment keys) = true
          /\ Model.addingAttachment m = false
          /\ popped (Model.composeAttachments m) (Model.composeAttachments m'))).

(** What a step may do to the number of the focused field: nothing, or
    move it to the next or to the previous of the six. *)
Definition focusStep (m m' : model) : Prop :=
  Model.focused m' = Model.focused m
  \/ Model.focused m' = Z.rem (Model.focused m + 1) 6
  \/ Model.focused m' = Z.rem (Model.focused m - 1 + 6) 6.

(** The composer of the sample session with the path of an attachment
    typed into the path field. *)
Definition pathTypedModel : model :=
  Upd.attachmentInput (mkTextinput " notes.txt " true)
    (after [TeaKeyMsg (runeKey "c"); TeaKeyMsg (specialKey KeyCtrlA)] sampleModel).

(** The items built from the messages of a list, in its order: one for
    each message whose fetch succeeds. *)
Definition itemsOf (go : GoLib) (srv : option Service) (minimal : bool)
           (messages : list Message) : list emailItem :=
  flat_map (fun message =>
              match createEmailItem go srv (Id message) minimal with
              | Some item => [item]
              | None => []
              end) messages.

(** The value of the last header of a list that bears a name, spelled as
    the name is. *)
Definition lastHeader (name : string) (hs : list MessagePartHeader) : option string :=
  option_map Value (find (fun h => String.eqb (Name h) name) (List.rev hs)).

Definition orElse (v : option string) (old : string) : string :=
  match v with
  | Some s => s
  | None => old
  end.

(** Two items that agree on the fields read from the headers. *)
Definition sameHeaders (a b : emailItem) : Prop :=
  subject a = subject b /\ from a = from b /\ date a = date b
  /\ recipient a = recipient b /\ cc a = cc b /\ bcc a = bcc b.

(** Two items that agree on the fields read from the message itself. *)
Definition sameMarks (a b : emailItem) : Prop :=
  id a = id b /\ threadId a = threadId b /\ labels a = labels b
  /\ isUnread a = isUnread b.

(** The text of a quoted block with the quote marks taken off: every line
    without its first two bytes. *)
Definition unquote (text : string) : string :=
  Join (map (Html.drop 2) (Split LF text)) nl.

(** A library whose clock reads one date, in the first layout only. *)
Definition clockGo : GoLib :=
  mkGoLib (fun m => m) string
          (fun layout value =>
             if String.eqb layout "Mon, 02 Jan 2006 15:04:05 -0700"
                && String.eqb value "Mon, 02 Jan 2006 15:04:05 -0700"
             then Some "Jan 02, 2006 15:04" else None)
          (fun t _ => t)
          (fun _ => false) (fun _ => false) (fun _ => EmptyString).

(** A multipart/alternative that lists its HTML part first. *)
Definition htmlFirstPart : MessagePart :=
  mkPart "multipart/alternative" EmptyString [] None [htmlPart; plainPart].

(** A string of ASCII bytes only. *)
Fixpoint asciiOnly (s : string) : bool :=
  match s with
  | EmptyString => true
  | String c t => (byteZ c <? 128) && asciiOnly t
  end.

(** A string, byte by byte. *)
Fixpoint mapBytes (f : ascii -> ascii) (s : string) : string :=
  match s with
  | EmptyString => EmptyString
  | String c t => String (f c) (mapBytes f t)
  end.

(** What sanitizeFilename does to an ASCII byte. *)
Definition sanitizeByte (c : ascii) : ascii :=
  if keptAscii (byteZ c) then c else "_"%char.

(** Components none of which ever asks the program to quit. *)
Definition quiet (ui : Bubbles) : Prop :=
  (forall A msg (l : listModel A), snd (listUpdate ui A msg l) <> CmdQuit)
  /\ (forall msg v, snd (viewportUpdate ui msg v) <> CmdQuit)
  /\ (forall msg t, snd (textinputUpdate ui msg t) <> CmdQuit)
  /\ (forall msg t, snd (textareaUpdate ui msg t) <> CmdQuit)
  /\ (forall msg s, snd (spinnerUpdate ui msg s) <> CmdQuit).

(** A service that answers an attachment in padded base64url. *)
Definition paddingService : Service :=
  mkService (fun _ _ => GetNil) (fun _ _ => Ok []) (fun _ _ => Ok []) (Ok [])
            (fun _ => Ok tt) (fun _ => Ok tt) (fun _ _ _ => Ok tt)
            (fun _ _ => Ok (Base64.EncodeToString Base64.URLEncoding "hi")).

(** The first byte of a string is [c]; the last byte is. *)
Definition headIs (c : ascii) (s : string) : bool :=
  match s with
  | String d _ => Ascii.eqb d c
  | EmptyString => false
  end.

Definition lastIs (c : ascii) (s : string) : bool :=
  headIs c (Html.rev s EmptyString).

(** A text whose only white space (tab, LF, FF, CR, space) is the space,
    and that never has two spaces in a row. *)
Fixpoint singleSpaced (s : string) : bool :=
  match s with
  | EmptyString => true
  | String c t =>
      (negb (Html.isReSpace c) || Ascii.eqb c " ")
      && negb (Ascii.eqb c " " && headIs " " t)
      && singleSpaced t
  end.

(** [r] is what is left of [s] when bytes are taken off its front. *)
Definition suffixOf (s r : string) : Prop :=
  forall acc : string, exists front : string, Html.rev s acc = Html.rev r front.

(** * Properties *)

(** ** Go strings *)

Lemma length_app (s t : string) :
  String.length (s ++ t) = (String.length s + String.length t)%nat.
Proof. induction s; simpl; congruence. Qed.

Lemma app_empty_r (s : string) : s ++ EmptyString = s.
Proof. induction s; simpl; congruence. Qed.

Lemma app_assoc_s (s t u : string) : (s ++ t) ++ u = s ++ t ++ u.
Proof. induction s; simpl; congruence. Qed.

Lemma length_take (n : nat) (s : string) :
  (n <= String.length s)%nat -> String.length (take n s) = n.
Proof.
  revert s; induction n; intros [|c s] H; simpl in *; try lia.
  rewrite IHn; lia.
Qed.

Lemma take_all (n : nat) (s : string) :
  (String.length s <= n)%nat -> take n s = s.
Proof.
  revert s; induction n; intros [|c s] H; simpl in *; try lia; try reflexivity.
  rewrite IHn; [reflexivity | lia].
Qed.

Lemma isEmpty_true (s : string) : isEmpty s = true <-> s = EmptyString.
Proof. destruct s; simpl; split; congruence. Qed.

Lemma list_ind3 {A} (P : list A -> Prop) :
  P [] -> (forall a, P [a]) -> (forall a b, P [a; b]) ->
  (forall a b c l, P l -> P (a :: b :: c :: l)) ->
  forall l, P l.
Proof.
  intros H0 H1 H2 H3.
  fix IH 1.
  intros [|a [|b [|c l]]]; [apply H0 | apply H1 | apply H2 | apply H3, IH].
Qed.

(** ** encoding/base64: decoding undoes encoding *)

Module Base64Facts.

Import Base64.

Lemma byteZ_range (c : ascii) : 0 <= byteZ c < 256.
Proof.
  unfold byteZ. pose proof (N_ascii_bounded c). lia.
Qed.

Lemma byteZ_land (c : ascii) : byteZ c = Z.land (byteZ c) (Z.ones 8).
Proof.
  rewrite Z.land_ones by lia. symmetry. apply Z.mod_small.
  pose proof (byteZ_range c). change (2 ^ 8) with 256. lia.
Qed.

Lemma Zbyte_byteZ (c : ascii) : Zbyte (byteZ c) = c.
Proof.
  unfold Zbyte. change 255 with (Z.ones 8). rewrite <- byteZ_land.
  unfold byteZ. rewrite N2Z.id. apply ascii_N_embedding.
Qed.

Lemma Zbyte_eq (z : Z) (c : ascii) : Z.land z 255 = byteZ c -> Zbyte z = c.
Proof.
  intros H. unfold Zbyte. rewrite H. unfold byteZ. rewrite N2Z.id.
  apply ascii_N_embedding.
Qed.

Lemma sextet_range (v k : Z) : 0 <= sextet v k < 64.
Proof.
  unfold sextet. change 63 with (Z.ones 6). rewrite Z.land_ones by lia.
  change (2 ^ 6) with 64. apply Z.mod_pos_bound. lia.
Qed.

Lemma lor_shiftl_add (x y n : Z) :
  0 <= n -> 0 <= y < 2 ^ n -> Z.lor (Z.shiftl x n) y = x * 2 ^ n + y.
Proof.
  intros Hn Hy.
  rewrite <- Z.lxor_lor, <- Z.add_nocarry_lxor, Z.shiftl_mul_pow2; trivial.
  all: apply Z.bits_inj'; intros i Hi; rewrite Z.land_spec, Z.bits_0.
  all: destruct (Z.lt_ge_cases i n) as [Hlt|Hge].
  all: try (rewrite Z.shiftl_spec_low by lia; reflexivity).
  all: rewrite <- (Z.mod_small y (2 ^ n)) by lia.
  all: rewrite Z.mod_pow2_bits_high by lia; apply Bool.andb_false_r.
Qed.

Lemma lor_add (x y n : Z) :
  0 <= n -> 0 <= y < 2 ^ n -> x mod 2 ^ n = 0 -> Z.lor x y = x + y.
Proof.
  intros Hn Hy Hx.
  assert (H2 : 0 < 2 ^ n) by (apply Z.pow_pos_nonneg; lia).
  replace x with (Z.shiftl (x / 2 ^ n) n) at 1.
  - rewrite lor_shiftl_add by assumption.
    pose proof (Z.div_mod x (2 ^ n)). lia.
  - rewrite Z.shiftl_mul_pow2 by lia. pose proof (Z.div_mod x (2 ^ n)). lia.
Qed.

Lemma sextet_div (v k : Z) : 0 <= k -> sextet v k = (v / 2 ^ k) mod 64.
Proof.
  intros. unfold sextet. change 63 with (Z.ones 6).
  rewrite Z.land_ones, Z.shiftr_div_pow2 by lia. reflexivity.
Qed.

Lemma land255 z : Z.land z 255 = z mod 256.
Proof. change 255 with (Z.ones 8). rewrite Z.land_ones by lia. reflexivity. Qed.

Ltac pow2 :=
  repeat match goal with
         | |- context [2 ^ ?n] =>
             let v := eval vm_compute in (2 ^ n) in change (2 ^ n) with v
         end.

Ltac side := pow2; first [ lia | Z.div_mod_to_equations; lia ].

Lemma pack (a b c : Z) :
  0 <= a -> 0 <= b < 256 -> 0 <= c < 256 ->
  Z.lor (Z.lor (Z.shiftl a 16) (Z.shiftl b 8)) c = a * 65536 + b * 256 + c.
Proof.
  intros Ha Hb Hc. rewrite !Z.shiftl_mul_pow2 by lia. pow2.
  rewrite (lor_add (a * 65536) (b * 256) 16) by side.
  rewrite (lor_add _ c 8) by side.
  reflexivity.
Qed.

Lemma unpack (s0 s1 s2 s3 : Z) :
  0 <= s0 -> 0 <= s1 < 64 -> 0 <= s2 < 64 -> 0 <= s3 < 64 ->
  Z.lor (Z.lor (Z.lor (Z.shiftl s0 18) (Z.shiftl s1 12)) (Z.shiftl s2 6)) s3
  = s0 * 262144 + s1 * 4096 + s2 * 64 + s3.
Proof.
  intros H0 H1 H2 H3. rewrite !Z.shiftl_mul_pow2 by lia. pow2.
  rewrite (lor_add (s0 * 262144) (s1 * 4096) 18) by side.
  rewrite (lor_add _ (s2 * 64) 12) by side.
  rewrite (lor_add _ s3 6) by side.
  reflexivity.
Qed.

Lemma quantum (v : Z) :
  0 <= v < 16777216 ->
  Z.lor (Z.lor (Z.lor (Z.shiftl (sextet v 18) 18) (Z.shiftl (sextet v 12) 12))
               (Z.shiftl (sextet v 6) 6)) (sextet v 0) = v.
Proof.
  intros Hv.
  rewrite unpack by (try apply sextet_range; apply (sextet_range v 18)).
  rewrite !sextet_div by lia.
  pow2. rewrite Z.div_1_r.
  Z.div_mod_to_equations. lia.
Qed.

Lemma bytes_of (a b c : Z) :
  0 <= a < 256 -> 0 <= b < 256 -> 0 <= c < 256 ->
  let v := a * 65536 + b * 256 + c in
  Z.land (Z.shiftr v 16) 255 = a /\ Z.land (Z.shiftr v 8) 255 = b /\ Z.land v 255 = c.
Proof.
  intros Ha Hb Hc v. rewrite !land255, !Z.shiftr_div_pow2 by lia.
  change (2 ^ 16) with 65536. change (2 ^ 8) with 256. subst v.
  repeat split; Z.div_mod_to_equations; lia.
Qed.

Lemma bytes_of2 (a b : Z) :
  0 <= a < 256 -> 0 <= b < 256 ->
  let v := a * 65536 + b * 256 + 0 in
  let val := sextet v 18 * 262144 + sextet v 12 * 4096 + sextet v 6 * 64 + 0 in
  Z.land (Z.shiftr val 16) 255 = a /\ Z.land (Z.shiftr val 8) 255 = b.
Proof.
  intros Ha Hb v val. subst val.
  rewrite !land255, !Z.shiftr_div_pow2, !sextet_div by lia. pow2. subst v.
  split; Z.div_mod_to_equations; lia.
Qed.

Lemma bytes_of1 (a : Z) :
  0 <= a < 256 ->
  let v := a * 65536 in
  let val := sextet v 18 * 262144 + sextet v 12 * 4096 + 0 * 64 + 0 in
  Z.land (Z.shiftr val 16) 255 = a.
Proof.
  intros Ha v val. subst val.
  rewrite !land255, !Z.shiftr_div_pow2, !sextet_div by lia. pow2. subst v.
  Z.div_mod_to_equations; lia.
Qed.

Lemma quantumBytes4 (a b c : ascii) :
  let v := Z.lor (Z.lor (Z.shiftl (byteZ a) 16) (Z.shiftl (byteZ b) 8)) (byteZ c) in
  quantumBytes [sextet v 18; sextet v 12; sextet v 6; sextet v 0] = [a; b; c].
Proof.
  intros v. unfold quantumBytes. cbn [nth List.length Nat.sub firstn].
  pose proof (byteZ_range a) as Ha. pose proof (byteZ_range b) as Hb.
  pose proof (byteZ_range c) as Hc.
  assert (Hv : v = byteZ a * 65536 + byteZ b * 256 + byteZ c)
    by (apply pack; lia).
  rewrite quantum by lia.
  destruct (bytes_of (byteZ a) (byteZ b) (byteZ c) Ha Hb Hc) as (E1 & E2 & E3).
  rewrite Hv.
  rewrite (Zbyte_eq _ a E1), (Zbyte_eq _ b E2), (Zbyte_eq _ c E3). reflexivity.
Qed.

Lemma quantumBytes3 (a b : ascii) :
  let v := Z.lor (Z.shiftl (byteZ a) 16) (Z.shiftl (byteZ b) 8) in
  quantumBytes [sextet v 18; sextet v 12; sextet v 6] = [a; b].
Proof.
  intros v. unfold quantumBytes. cbn [nth List.length Nat.sub firstn].
  pose proof (byteZ_range a) as Ha. pose proof (byteZ_range b) as Hb.
  assert (Hv : v = byteZ a * 65536 + byteZ b * 256 + 0).
  { subst v. rewrite <- (Z.lor_0_r (Z.lor _ _)). apply pack; lia. }
  rewrite unpack by (try apply sextet_range; try lia; apply (sextet_range v 18)).
  destruct (bytes_of2 (byteZ a) (byteZ b) Ha Hb) as (E1 & E2).
  rewrite Hv.
  rewrite (Zbyte_eq _ a E1), (Zbyte_eq _ b E2). reflexivity.
Qed.

Lemma quantumBytes2 (a : ascii) :
  let v := Z.shiftl (byteZ a) 16 in
  quantumBytes [sextet v 18; sextet v 12] = [a].
Proof.
  intros v. unfold quantumBytes. cbn [nth List.length Nat.sub firstn].
  pose proof (byteZ_range a) as Ha.
  assert (Hv : v = byteZ a * 65536)
    by (subst v; rewrite Z.shiftl_mul_pow2 by lia; reflexivity).
  rewrite unpack by (try apply sextet_range; try lia; apply (sextet_range v 18)).
  pose proof (bytes_of1 (byteZ a) Ha) as E1.
  rewrite Hv.
  rewrite (Zbyte_eq _ a E1). reflexivity.
Qed.

Section Roundtrip.

Variable enc : Encoding.
Hypothesis Hdec :
  forall i, 0 <= i < 64 -> decodeMap enc (encodeChar enc i) = i.
Hypothesis Hpad :
  forall p, padChar enc = Some p -> decodeMap enc p = 255 /\ isNewline p = false.

Lemma decode_char (s : Z) (rest : string) (q : list Z) :
  0 <= s < 64 ->
  decodeFrom enc (String (encodeChar enc s) rest) q =
  if (List.length (q ++ [s]) =? 4)%nat
  then option_map (app (quantumBytes (q ++ [s]))) (decodeFrom enc rest [])
  else decodeFrom enc rest (q ++ [s])%list.
Proof.
  intros Hs. cbn [decodeFrom]. rewrite (Hdec s Hs).
  replace (negb (s =? 255)) with true; [reflexivity|].
  symmetry. apply Bool.negb_true_iff, Z.eqb_neq. lia.
Qed.

Lemma decode_tail2 (s0 s1 : Z) :
  decodeFrom enc (padding enc 2) [s0; s1] = Some (quantumBytes [s0; s1]).
Proof.
  unfold padding. pose proof Hpad as Hpad'.
  destruct (padChar enc) as [p|] eqn:Hp.
  - destruct (Hpad' p eq_refl) as [Hm Hn]. cbn [Repeat append decodeFrom].
    rewrite Hp, Hm, Hn, Ascii.eqb_refl. cbn. rewrite Hn, Ascii.eqb_refl.
    reflexivity.
  - cbn. rewrite Hp. reflexivity.
Qed.

Lemma decode_tail1 (s0 s1 s2 : Z) :
  decodeFrom enc (padding enc 1) [s0; s1; s2] = Some (quantumBytes [s0; s1; s2]).
Proof.
  unfold padding. pose proof Hpad as Hpad'.
  destruct (padChar enc) as [p|] eqn:Hp.
  - destruct (Hpad' p eq_refl) as [Hm Hn]. cbn [Repeat append decodeFrom].
    rewrite Hp, Hm, Hn, Ascii.eqb_refl. cbn. reflexivity.
  - cbn. rewrite Hp. reflexivity.
Qed.

Lemma decode_encode (bs : list ascii) :
  decodeFrom enc (encodeBytes enc bs) [] = Some bs.
Proof.
  induction bs as [|a|a b|a b c l IH] using list_ind3.
  - reflexivity.
  - cbn [encodeBytes]. rewrite !decode_char by apply sextet_range.
    cbn [List.app List.length Nat.eqb]. rewrite decode_tail2, quantumBytes2.
    reflexivity.
  - cbn [encodeBytes]. rewrite !decode_char by apply sextet_range.
    cbn [List.app List.length Nat.eqb]. rewrite decode_tail1, quantumBytes3.
    reflexivity.
  - cbn [encodeBytes]. rewrite !decode_char by apply sextet_range.
    cbn [List.app List.length Nat.eqb]. rewrite IH, quantumBytes4.
    reflexivity.
Qed.

Lemma DecodeString_EncodeToString (s : string) :
  DecodeString enc (EncodeToString enc s) = Some s.
Proof.
  unfold DecodeString, EncodeToString. rewrite decode_encode. cbn.
  now rewrite string_of_list_ascii_of_string.
Qed.

End Roundtrip.

Lemma decodeMap_encodeChar (enc : Encoding) :
  alphabet enc = encodeStd \/ alphabet enc = encodeURL ->
  forall i, 0 <= i < 64 -> decodeMap enc (encodeChar enc i) = i.
Proof.
  intros Halpha i Hi. unfold decodeMap, encodeChar.
  rewrite <- (Z2Nat.id i) at 2 by lia.
  assert (Hn : (Z.to_nat i < 64)%nat) by lia.
  revert Hn. generalize (Z.to_nat i). clear i Hi. intros n Hn.
  destruct Halpha as [-> | ->];
    do 64 (destruct n as [|n]; [reflexivity|]); lia.
Qed.

Lemma pad_not_in_alphabet (enc : Encoding) :
  alphabet enc = encodeStd \/ alphabet enc = encodeURL ->
  (padChar enc = None \/ padChar enc = Some "="%char) ->
  forall p, padChar enc = Some p -> decodeMap enc p = 255 /\ isNewline p = false.
Proof.
  intros Halpha [Hp | Hp] p E; rewrite Hp in E; inversion E; subst p.
  unfold decodeMap. destruct Halpha as [-> | ->]; split; reflexivity.
Qed.

Lemma roundtrip_std (s : string) :
  DecodeString StdEncoding (EncodeToString StdEncoding s) = Some s.
Proof.
  apply DecodeString_EncodeToString.
  - apply decodeMap_encodeChar. now left.
  - apply pad_not_in_alphabet; [now left | now right].
Qed.

Lemma roundtrip_url (s : string) :
  DecodeString URLEncoding (EncodeToString URLEncoding s) = Some s.
Proof.
  apply DecodeString_EncodeToString.
  - apply decodeMap_encodeChar. now right.
  - apply pad_not_in_alphabet; [now right | now right].
Qed.

Lemma roundtrip_rawurl (s : string) :
  DecodeString RawURLEncoding (EncodeToString RawURLEncoding s) = Some s.
Proof.
  apply DecodeString_EncodeToString.
  - apply decodeMap_encodeChar. now right.
  - apply pad_not_in_alphabet; [now right | now left].
Qed.

(** *** Padding *)

Lemma mod4_step (n : nat) : (S (S (S (S n))) mod 4 = n mod 4)%nat.
Proof.
  replace (S (S (S (S n)))) with (n + 1 * 4)%nat by lia.
  apply Nat.Div0.mod_add.
Qed.

Lemma pad_step (c0 c1 c2 c3 : ascii) (s : string) :
  padToMultipleOf4 (String c0 (String c1 (String c2 (String c3 s))))
  = String c0 (String c1 (String c2 (String c3 (padToMultipleOf4 s)))).
Proof.
  unfold padToMultipleOf4. cbn [String.length]. rewrite mod4_step. reflexivity.
Qed.

Lemma length_padded (s : string) :
  (String.length (padToMultipleOf4 s) mod 4 = 0)%nat.
Proof.
  unfold padToMultipleOf4. rewrite length_app.
  assert (Hr : forall k, String.length (Repeat "=" k) = k)
    by (induction k; simpl; congruence).
  rewrite Hr. generalize (String.length s). intros n.
  pose proof (Nat.mod_upper_bound n 4 ltac:(lia)) as Hlt.
  pose proof (Nat.div_mod_eq n 4) as Hdm.
  remember (n mod 4)%nat as r eqn:Er.
  assert (Hk : exists k, (n + (4 - r) mod 4 = 0 + k * 4)%nat).
  { assert (Hc : (r = 0 \/ r = 1 \/ r = 2 \/ r = 3)%nat) by lia.
    destruct Hc as [-> | [-> | [-> | ->]]].
    - exists (n / 4)%nat. change ((4 - 0) mod 4)%nat with 0%nat. lia.
    - exists (n / 4 + 1)%nat. change ((4 - 1) mod 4)%nat with 3%nat. lia.
    - exists (n / 4 + 1)%nat. change ((4 - 2) mod 4)%nat with 2%nat. lia.
    - exists (n / 4 + 1)%nat. change ((4 - 3) mod 4)%nat with 1%nat. lia. }
  destruct Hk as [k ->]. apply Nat.Div0.mod_add.
Qed.

Lemma padded_multiple (s : string) :
  (String.length s mod 4 = 0)%nat -> padToMultipleOf4 s = s.
Proof.
  intros H. unfold padToMultipleOf4. rewrite H. cbn. apply app_empty_r.
Qed.

(** An unpadded encoding, padded, is the padded encoding. *)
Lemma pad_raw (bs : list ascii) :
  padToMultipleOf4 (encodeBytes RawURLEncoding bs) = encodeBytes URLEncoding bs.
Proof.
  induction bs as [|a|a b|a b c l IH] using list_ind3.
  - reflexivity.
  - reflexivity.
  - reflexivity.
  - cbn [encodeBytes]. rewrite pad_step, IH. reflexivity.
Qed.

Lemma length_encode_std (bs : list ascii) :
  (String.length (encodeBytes StdEncoding bs) mod 4 = 0)%nat.
Proof.
  induction bs as [|a|a b|a b c l IH] using list_ind3.
  - reflexivity.
  - reflexivity.
  - reflexivity.
  - cbn [encodeBytes String.length]. rewrite mod4_step. exact IH.
Qed.

End Base64Facts.

(** ** decodeBody *)

Module DecodeBodyFacts.

Import Base64 Base64Facts.

Lemma agreeChar_all (c : ascii) : agreeChar c = true.
Proof. destruct c as [[] [] [] [] [] [] [] []]; vm_compute; reflexivity. Qed.

Lemma decodeFrom_cons (enc : Encoding) (c : ascii) (rest : string) (q : list Z) :
  decodeFrom enc (String c rest) q =
  if negb (decodeMap enc c =? 255) then
    if (List.length (q ++ [decodeMap enc c]) =? 4)%nat
    then option_map (app (quantumBytes (q ++ [decodeMap enc c])))
                    (decodeFrom enc rest [])
    else decodeFrom enc rest (q ++ [decodeMap enc c])%list
  else if isNewline c then decodeFrom enc rest q
  else match padChar enc with
       | None => None
       | Some p => if negb (Ascii.eqb c p) then None else onPadding p rest q
       end.
Proof. reflexivity. Qed.

(** Where the URL-safe decoder succeeds on a text free of [-] and [_], the
    standard decoder returns the same bytes. *)
Lemma url_then_std (src : string) :
  forall (q : list Z) (r : list ascii),
    noUrlOnly src = true ->
    decodeFrom URLEncoding src q = Some r ->
    decodeFrom StdEncoding src q = Some r.
Proof.
  induction src as [|c rest IH]; intros q r Hs Hu.
  - exact Hu.
  - cbn [noUrlOnly] in Hs. apply andb_prop in Hs. destruct Hs as [Hc Hrest].
    pose proof (agreeChar_all c) as Ha. unfold agreeChar in Ha.
    apply Bool.negb_true_iff in Hc. rewrite Hc in Ha. cbn [orb] in Ha.
    rewrite decodeFrom_cons in Hu |- *.
    change (padChar URLEncoding) with (Some "="%char) in Hu.
    change (padChar StdEncoding) with (Some "="%char).
    apply Bool.orb_true_iff in Ha. destruct Ha as [Ha | Ha].
    + apply Z.eqb_eq in Ha. rewrite <- Ha.
      remember (decodeMap URLEncoding c) as d eqn:Ed. clear Ed Ha.
      destruct (negb (d =? 255)).
      * destruct (List.length (q ++ [d]) =? 4)%nat.
        -- destruct (decodeFrom URLEncoding rest []) as [r'|] eqn:E; [|discriminate].
           rewrite (IH [] r' Hrest E). exact Hu.
        -- apply IH; assumption.
      * destruct (isNewline c); [apply IH; assumption | exact Hu].
    + apply andb_prop in Ha. destruct Ha as [Ha Hne].
      apply andb_prop in Ha. destruct Ha as [Hm Hnl].
      apply Z.eqb_eq in Hm. apply Bool.negb_true_iff in Hnl, Hne.
      rewrite Hm, Hnl, Hne in Hu. discriminate.
Qed.

Lemma noUrlOnly_app (s t : string) :
  noUrlOnly (s ++ t) = noUrlOnly s && noUrlOnly t.
Proof. induction s; cbn; [reflexivity | rewrite IHs; apply Bool.andb_assoc]. Qed.

Lemma std_char_not_urlOnly (i : Z) :
  0 <= i < 64 -> urlOnly (encodeChar StdEncoding i) = false.
Proof.
  intros Hi. rewrite <- (Z2Nat.id i) by lia.
  assert (Hn : (Z.to_nat i < 64)%nat) by lia.
  revert Hn. generalize (Z.to_nat i). clear i Hi. intros n Hn.
  do 64 (destruct n as [|n]; [reflexivity|]). lia.
Qed.

Lemma noUrlOnly_encode_std (bs : list ascii) :
  noUrlOnly (encodeBytes StdEncoding bs) = true.
Proof.
  induction bs as [|a|a b|a b c l IH] using list_ind3;
    cbn [encodeBytes noUrlOnly];
    rewrite ?std_char_not_urlOnly by apply sextet_range;
    try reflexivity.
  exact IH.
Qed.

(** decodeBody, with the padding as the specification words it. *)
Lemma decodeBody_padded (body : string) :
  decodeBody body =
  match DecodeString URLEncoding (padToMultipleOf4 body) with
  | Some decoded => decoded
  | None =>
      match DecodeString StdEncoding (padToMultipleOf4 body) with
      | Some decoded => decoded
      | None => decodeFailed
      end
  end.
Proof.
  unfold decodeBody.
  destruct (String.length body mod 4 =? 0)%nat eqn:E; cbn [negb].
  - apply Nat.eqb_eq in E. rewrite (padded_multiple body E). reflexivity.
  - reflexivity.
Qed.

Lemma decodeBody_rawurl (s : string) :
  decodeBody (EncodeToString RawURLEncoding s) = s.
Proof.
  rewrite decodeBody_padded. unfold EncodeToString at 1. rewrite pad_raw.
  change (encodeBytes URLEncoding (list_ascii_of_string s))
    with (EncodeToString URLEncoding s).
  rewrite roundtrip_url. reflexivity.
Qed.

Lemma decodeBody_url (s : string) :
  decodeBody (EncodeToString URLEncoding s) = s.
Proof.
  rewrite decodeBody_padded, padded_multiple.
  - rewrite roundtrip_url. reflexivity.
  - unfold EncodeToString. rewrite <- pad_raw. apply length_padded.
Qed.

Lemma decodeBody_std (s : string) :
  decodeBody (EncodeToString StdEncoding s) = s.
Proof.
  rewrite decodeBody_padded, padded_multiple by apply length_encode_std.
  pose proof (roundtrip_std s) as Hstd.
  unfold DecodeString in *.
  destruct (decodeFrom URLEncoding (EncodeToString StdEncoding s) []) as [r|] eqn:E.
  - apply url_then_std in E; [|apply noUrlOnly_encode_std].
    rewrite E in Hstd. cbn in Hstd |- *. congruence.
  - cbn. destruct (decodeFrom StdEncoding (EncodeToString StdEncoding s) []);
      cbn in Hstd |- *; congruence.
Qed.

End DecodeBodyFacts.

(** C8. For every input, decodeBody pads the input with [=] to a multiple of
    four bytes, then tries the URL-safe alphabet and, if that fails, the
    standard alphabet, and returns the marker string if both fail (it
    always returns a string); a URL-safe payload without its padding
    decodes to the bytes it encodes, and so does every standard-alphabet
    payload, also where the URL-safe attempt fails on it. *)
Theorem decodeBody_spec :
  (forall body : string,
      (String.length (padToMultipleOf4 body) mod 4 = 0)%nat
      /\ decodeBody body =
         match Base64.DecodeString Base64.URLEncoding (padToMultipleOf4 body) with
         | Some decoded => decoded
         | None =>
             match Base64.DecodeString Base64.StdEncoding (padToMultipleOf4 body) with
             | Some decoded => decoded
             | None => "Failed to decode body."
             end
         end)
  /\ (forall s : string,
         decodeBody (Base64.EncodeToString Base64.RawURLEncoding s) = s)
  /\ (forall s : string,
         decodeBody (Base64.EncodeToString Base64.StdEncoding s) = s)
  /\ (let payload := Base64.EncodeToString Base64.StdEncoding
                       (String (Zbyte 251) (String (Zbyte 255) EmptyString)) in
      payload = "+/8="
      /\ Base64.DecodeString Base64.URLEncoding payload = None
      /\ decodeBody payload = String (Zbyte 251) (String (Zbyte 255) EmptyString)).
Proof.
  split; [|split; [|split]].
  - intros body. split.
    + apply Base64Facts.length_padded.
    + apply DecodeBodyFacts.decodeBody_padded.
  - apply DecodeBodyFacts.decodeBody_rawurl.
  - apply DecodeBodyFacts.decodeBody_std.
  - cbv zeta. repeat split; reflexivity.
Qed.

Example decodeBody_unpadded : decodeBody "aGk" = "hi".
Proof. reflexivity. Qed.

Example decodeBody_corrupt : decodeBody "a" = decodeFailed.
Proof. reflexivity. Qed.

(** ** createEmailItem: the stored snippet *)

Module ItemFacts.

Section WithGo.

Variable go : GoLib.

Lemma snippet_setHeader (item : emailItem) (h : MessagePartHeader) :
  snippet (setHeader go item h) = snippet item.
Proof.
  unfold setHeader.
  repeat match goal with
         | |- context [if ?b then _ else _] => destruct b
         end; reflexivity.
Qed.

Lemma snippet_headers (hs : list MessagePartHeader) (item : emailItem) :
  snippet (fold_left (setHeader go) hs item) = snippet item.
Proof.
  revert item; induction hs as [|h hs IH]; intros item; cbn [fold_left].
  - reflexivity.
  - rewrite IH. apply snippet_setHeader.
Qed.

Lemma snippet_labels (ls : list string) (item : emailItem) :
  snippet (fold_left addLabel ls item) = snippet item.
Proof.
  revert item; induction ls as [|l ls IH]; intros item; cbn [fold_left].
  - reflexivity.
  - rewrite IH. reflexivity.
Qed.

Lemma from_labels (ls : list string) (item : emailItem) :
  from (fold_left addLabel ls item) = from item.
Proof.
  revert item; induction ls as [|l ls IH]; intros item; cbn [fold_left].
  - reflexivity.
  - rewrite IH. reflexivity.
Qed.

(** The item before the truncation of its snippet still has the snippet of
    the message. *)
Lemma createEmailItem_cases (srv : Service) (msgID : string) (minimal : bool)
      (msg : Message) :
  messagesGet srv msgID (if minimal then "minimal" else "full") = GetOk msg ->
  exists pre : emailItem,
    snippet pre = Snippet msg
    /\ createEmailItem go (Some srv) msgID minimal =
       Some (if (80 <? String.length (snippet pre))%nat
             then setSnippet pre (take 77 (snippet pre) ++ "...")
             else pre).
Proof.
  intros Hget. unfold createEmailItem. rewrite Hget.
  eexists. split; [|reflexivity].
  rewrite snippet_labels.
  destruct (Payload msg) as [payload|]; [|reflexivity].
  destruct (negb minimal); cbn [setBody snippet]; rewrite snippet_headers; reflexivity.
Qed.

End WithGo.

End ItemFacts.

(** C9 (as amended).  The lengths are those of Go's [len], in bytes, not
    in characters.  A fetched snippet longer than 80 bytes is stored as its
    first 77 bytes followed by three dots, 80 bytes in all; a snippet of at
    most 80 bytes is stored unchanged.  The description line then shows the
    stored snippet as it is. *)
Theorem createEmailItem_snippet (go : GoLib) (srv : Service) (msgID : string)
        (minimal : bool) (msg : Message) :
  messagesGet srv msgID (if minimal then "minimal" else "full") = GetOk msg ->
  exists item : emailItem,
    createEmailItem go (Some srv) msgID minimal = Some item
    /\ ((80 < String.length (Snippet msg))%nat ->
        snippet item = take 77 (Snippet msg) ++ "..."
        /\ String.length (snippet item) = 80%nat)
    /\ ((String.length (Snippet msg) <= 80)%nat -> snippet item = Snippet msg)
    /\ Description item = from item ++ " - " ++ snippet item.
Proof.
  intros Hget.
  destruct (ItemFacts.createEmailItem_cases go srv msgID minimal msg Hget)
    as (pre & Hpre & Hcreate).
  rewrite Hpre in Hcreate. rewrite Hcreate.
  destruct (80 <? String.length (Snippet msg))%nat eqn:Hlen.
  - apply Nat.ltb_lt in Hlen.
    assert (Hl : String.length (take 77 (Snippet msg) ++ "...") = 80%nat).
    { rewrite length_app, length_take by lia. reflexivity. }
    eexists. split; [reflexivity|]. cbn [setSnippet snippet].
    repeat split; intros; try lia; try assumption.
    unfold Description. cbn [snippet from setSnippet]. rewrite Hl. reflexivity.
  - apply Nat.ltb_ge in Hlen.
    eexists. split; [reflexivity|].
    repeat split; intros; try lia; try assumption.
    unfold Description. rewrite Hpre.
    apply Nat.ltb_ge in Hlen. rewrite Hlen. reflexivity.
Qed.

Lemma createEmailItem_snippet_witness :
  exists item : emailItem,
    createEmailItem plainGo (Some sampleService) "m1" true = Some item
    /\ ((80 < String.length (Snippet (sampleMessage false)))%nat ->
        snippet item = take 77 (Snippet (sampleMessage false)) ++ "..."
        /\ String.length (snippet item) = 80%nat)
    /\ ((String.length (Snippet (sampleMessage false)) <= 80)%nat ->
        snippet item = Snippet (sampleMessage false))
    /\ Description item = from item ++ " - " ++ snippet item.
Proof.
  apply (createEmailItem_snippet plainGo sampleService "m1" true (sampleMessage false)).
  reflexivity.
Defined.

(** C9, as stated, fails: a snippet of 41 characters, of two bytes each,
    is not stored unchanged; it is cut after 77 bytes, in the middle of
    its 39th character, and the three dots follow the first byte of that
    character, which no longer decodes. *)
Lemma createEmailItem_snippet_cuts_character :
  List.length (Unicode.runes accentSnippet) = 41%nat
  /\ String.length accentSnippet = 82%nat
  /\ option_map snippet (createEmailItem plainGo (Some accentService) "m3" true)
     = Some (Repeat eAcute 38 ++ Html.bytes [195] ++ "...")
  /\ String.eqb (Repeat eAcute 38 ++ Html.bytes [195] ++ "...") accentSnippet = false
  /\ Unicode.runes (Repeat eAcute 38 ++ Html.bytes [195] ++ "...")
     = (List.repeat 233 38 ++ [Unicode.RuneError; 46; 46; 46])%list.
Proof. repeat split; vm_compute; reflexivity. Qed.

(** ** The part tree: findAttachments and extractPlainText *)

Module PartFacts.

(** Induction on a part tree, with the hypothesis on every child. *)
Lemma MessagePart_tree_ind (P : MessagePart -> Prop) :
  (forall mime fname hs b ps,
      Forall P ps -> P (mkPart mime fname hs b ps)) ->
  forall part, P part.
Proof.
  intros Hstep. fix IH 1. intros [mime fname hs b ps]. apply Hstep.
  induction ps as [|p ps IHps]; constructor; [apply IH | exact IHps].
Qed.

Lemma findAttachments_leaves (part : MessagePart) :
  findAttachments part = filter hasFilename (leaves part).
Proof.
  induction part as [mime fname hs b ps IH] using MessagePart_tree_ind.
  cbn [findAttachments leaves]. unfold isMultipart. cbn [MimeType Parts Filename].
  destruct (HasPrefix mime "multipart/").
  - induction IH as [|p ps Hp _ IHps]; cbn [flat_map filter].
    + reflexivity.
    + rewrite filter_app, Hp, IHps. reflexivity.
  - unfold hasFilename at 1. cbn [filter Filename].
    destruct (negb (isEmpty fname)); reflexivity.
Qed.

End PartFacts.

Example sampleModel_attachments :
  option_map attachments (SelectedItem (Model.list sampleModel)) = Some [pdfPart].
Proof. reflexivity. Qed.

Example armedModel_state :
  Model.state armedModel = stateViewing
  /\ Model.attachmentDownloading armedModel = true
  /\ option_map attachments (Model.currentMsg armedModel) = Some [pdfPart].
Proof. repeat split; reflexivity. Qed.

(** ** The controller *)

(** Case analysis on every test of a handler's result. *)
Ltac split_result H :=
  repeat match type of H with
         | context [if ?b then _ else _] => destruct b eqn:?
         | context [match ?x with _ => _ end] => destruct x eqn:?
         end.

Ltac handler_cases H :=
  split_result H; try discriminate H;
  try (unfold ret in H; injection H as <- <-).

Module ControllerFacts.

Ltac state_done :=
  first [ left; first [ reflexivity | assumption ]
        | right; cbn; discriminate ].

Ltac frame_done :=
  unfold frame;
  first [ left; split; [reflexivity | split; [reflexivity | state_done]]
        | right; left; repeat split; first [ reflexivity | assumption ]
        | right; right; repeat split; first [ reflexivity | assumption ] ].

Section WithLibraries.

Variable go : GoLib.
Variable ui : Bubbles.
Variable os : OS.

Lemma focusComposeField_fields (m : model) :
  Model.state (fst (focusComposeField m)) = Model.state m
  /\ Model.replyToMsg (fst (focusComposeField m)) = Model.replyToMsg m
  /\ Model.currentMsg (fst (focusComposeField m)) = Model.currentMsg m.
Proof.
  unfold focusComposeField.
  repeat match goal with
         | |- context [if ?b then _ else _] => destruct b
         end; repeat split; reflexivity.
Qed.

Lemma frame_focus (m x m0 : model) (c0 : Cmd) :
  focusComposeField x = (m0, c0) ->
  Model.state x = Model.state m ->
  Model.replyToMsg x = Model.replyToMsg m ->
  Model.currentMsg x = Model.currentMsg m ->
  frame m m0.
Proof.
  intros E Hs Hr Hc. destruct (focusComposeField_fields x) as (Fs & Fr & Fc).
  rewrite E in Fs, Fr, Fc. cbn [fst] in Fs, Fr, Fc.
  left. repeat split; [congruence | congruence | left; congruence].
Qed.

Lemma frame_updateComposeFields (msg : Msg) (m m' : model) (c : Cmd) :
  updateComposeFields ui msg m = Some (m', c) -> frame m m'.
Proof.
  intros H. unfold updateComposeFields in H. handler_cases H; frame_done.
Qed.

Lemma frame_handleAttachmentAdd (m m' : model) (c : Cmd) :
  handleAttachmentAdd os m = Some (m', c) -> frame m m'.
Proof.
  intros H. unfold handleAttachmentAdd in H. handler_cases H; try frame_done.
  eapply frame_focus; [eassumption | reflexivity ..].
Qed.

Lemma frame_updateComposing (msg : KeyMsg) (m m' : model) (c : Cmd) :
  updateComposing ui os msg m = Some (m', c) -> frame m m'.
Proof.
  intros H. unfold updateComposing in H.
  pose proof (frame_updateComposeFields (TeaKeyMsg msg) m m' c) as Hfwd.
  pose proof (frame_handleAttachmentAdd m m' c) as Hadd.
  set (fwd := updateComposeFields ui (TeaKeyMsg msg) m) in *.
  set (add := handleAttachmentAdd os m) in *.
  cbv zeta in H.
  split_result H;
    try (apply Hfwd; exact H); try (apply Hadd; exact H);
    try discriminate H;
    unfold ret in H; injection H as <- <-;
    first [ frame_done | eapply frame_focus; [eassumption | reflexivity ..] ].
Qed.

(** Every step is framed. *)
Lemma Update_frame (msg : Msg) (m m' : model) (c : Cmd) :
  Update go ui os msg m = Some (m', c) -> frame m m'.
Proof.
  intros H.
  destruct msg; cbn [Update] in H.
  - unfold handleWindowSize in H. handler_cases H; frame_done.
  - unfold handleKeyPress in H.
    destruct (negb (Model.showHelp m) && Matches k (ShowHelp keys));
      [injection H as <- <-; frame_done|].
    destruct (Model.showHelp m && Matches k (CloseHelp keys));
      [injection H as <- <-; frame_done|].
    destruct (Model.state m) eqn:Est.
    + unfold updateInbox in H. handler_cases H; frame_done.
    + destruct (Model.attachmentDownloading m).
      * unfold handleAttachmentDownload, Batch in H. handler_cases H; frame_done.
      * unfold updateViewing in H. handler_cases H; frame_done.
    + injection H as <- <-; frame_done.
    + apply frame_updateComposing in H. exact H.
    + unfold updateReplying in H. handler_cases H; frame_done.
    + unfold updateSearching in H. handler_cases H; frame_done.
    + unfold updateLabelManagement in H. handler_cases H; frame_done.
  - injection H as <- <-; frame_done.
  - injection H as <- <-; frame_done.
  - unfold updateComponents in H. handler_cases H; frame_done.
  - injection H as <- <-; frame_done.
  - injection H as <- <-; frame_done.
  - injection H as <- <-; frame_done.
  - unfold updateComponents in H. handler_cases H; frame_done.
  - unfold updateComponents in H. handler_cases H; frame_done.
Qed.

(** No message changes the opened message outside the inbox. *)
Lemma Update_currentMsg (msg : Msg) (m m' : model) (c : Cmd) :
  Model.state m <> stateInbox ->
  Update go ui os msg m = Some (m', c) ->
  Model.currentMsg m' = Model.currentMsg m.
Proof.
  intros Hs H. apply Update_frame in H.
  destruct H as [(Hc & _) | [(_ & _ & Hc & _) | (Hi & _)]];
    [exact Hc | exact Hc | contradiction].
Qed.

End WithLibraries.

End ControllerFacts.

Module PickerFacts.

(** A key that types a number is none of the keys bound to back or help. *)
Lemma number_key_unbound (msg : KeyMsg) (d : Z) :
  keyType msg = KeyRunes ->
  Strconv.Atoi (Runes msg) = Some d ->
  Matches msg (Back keys) = false
  /\ Matches msg (ShowHelp keys) = false
  /\ Matches msg (CloseHelp keys) = false.
Proof.
  intros Hk Ha. unfold Matches, keyString. rewrite Hk.
  assert (Hne : forall s, Strconv.Atoi s = None ->
                          String.eqb (EmptyString ++ Runes msg) s = false).
  { intros s Hs. cbn [append]. destruct (String.eqb_spec (Runes msg) s); [|reflexivity].
    subst s. congruence. }
  destruct (Alt msg); cbn [keys Back ShowHelp CloseHelp existsb].
  - repeat split; reflexivity.
  - rewrite !Hne by reflexivity. repeat split; reflexivity.
Qed.

End PickerFacts.

(** C6 (as amended).  findAttachments collects the parts that are not
    multipart and carry a file name, reached through multipart parts only,
    depth first and left to right.  While an attachment picker is armed, a
    key typing the number [d] of an attachment, counted from 1, starts the
    download of exactly that attachment of the opened message and disarms
    the picker; and no message handled outside the inbox changes the opened
    message, hence its attachment list. *)
Theorem findAttachments_index (go : GoLib) (ui : Bubbles) (os : OS) :
  (forall part : MessagePart,
      findAttachments part = filter hasFilename (leaves part))
  /\ (forall (m : model) (cur : emailItem) (msg : KeyMsg) (d : Z)
             (attachment : MessagePart),
         Model.state m = stateViewing ->
         Model.attachmentDownloading m = true ->
         Model.currentMsg m = Some cur ->
         keyType msg = KeyRunes ->
         Strconv.Atoi (Runes msg) = Some d ->
         1 <= d ->
         nth_error (attachments cur) (Z.to_nat (d - 1)) = Some attachment ->
         Update go ui os (TeaKeyMsg msg) m =
         Some (Upd.attachmentDownloading false m,
               CmdBatch [ CmdShowNotification
                            ("Downloading " ++ Filename attachment ++ "...");
                          CmdDownloadAttachment (id cur) attachment ]))
  /\ (forall (msg : Msg) (m m' : model) (c : Cmd),
         Model.state m <> stateInbox ->
         Update go ui os msg m = Some (m', c) ->
         Model.currentMsg m' = Model.currentMsg m).
Proof.
  split; [|split].
  - apply PartFacts.findAttachments_leaves.
  - intros m cur msg d attachment Hst Harm Hcur Hk Ha Hd Hnth.
    destruct (PickerFacts.number_key_unbound msg d Hk Ha) as (Hb & Hh & Hc).
    cbn [Update]. unfold handleKeyPress.
    rewrite Hh, Hc, !Bool.andb_false_r, Hst, Harm.
    unfold handleAttachmentDownload. rewrite Hb, Hk, Ha, Hcur, Hnth.
    assert (Hlen : (Z.to_nat (d - 1) < List.length (attachments cur))%nat)
      by (apply nth_error_Some; congruence).
    replace (0 <? d) with true by (symmetry; apply Z.ltb_lt; lia).
    replace (d <=? Z.of_nat (List.length (attachments cur))) with true
      by (symmetry; apply Z.leb_le; lia).
    reflexivity.
  - apply ControllerFacts.Update_currentMsg.
Qed.

Lemma findAttachments_index_witness :
  findAttachments samplePayload = [pdfPart]
  /\ Update plainGo inertBubbles sampleOS (TeaKeyMsg (runeKey "1")) armedModel =
     Some (Upd.attachmentDownloading false armedModel,
           CmdBatch [ CmdShowNotification "Downloading report.pdf...";
                      CmdDownloadAttachment "m1" pdfPart ])
  /\ Model.currentMsg (after [TeaKeyMsg (runeKey "r")] viewingModel)
     = Model.currentMsg viewingModel.
Proof.
  destruct (findAttachments_index plainGo inertBubbles sampleOS) as (H1 & H2 & H3).
  split; [|split].
  - rewrite H1. reflexivity.
  - apply (H2 armedModel
              (mkEmailItem "m1" "t1" "Report" "ann@example.com"
                           (take 77 longSnippet ++ "...")
                           "Mon, 02 Jan 2006 15:04:05 -0700" ["INBOX"; "UNREAD"]
                           true EmptyString EmptyString EmptyString EmptyString
                           [pdfPart])
              (runeKey "1") 1 pdfPart);
      try reflexivity; lia.
  - apply (H3 (TeaKeyMsg (runeKey "r")) viewingModel _ CmdNil).
    + discriminate.
    + reflexivity.
Defined.

(** C6, as stated, fails: a multipart part that carries a file name is
    visited and is not collected. *)
Lemma findAttachments_skips_named_multipart :
  findAttachments namedMultipart = [pdfPart]
  /\ filter hasFilename (visited namedMultipart) = [namedMultipart; pdfPart].
Proof. split; reflexivity. Qed.

(** C5 (the code leaves the claim: see the nested message).  On a
    multipart/alternative holding a text/plain and a text/html part the
    body is the decoded plain text; on the sample message, whose
    multipart/mixed payload holds that same alternative as its first part,
    the body is empty although a text/plain descendant decodes to a
    non-empty text: the scan looks at the types of the direct children
    only and never enters a multipart child. *)
Theorem extractPlainText_nested (go : GoLib) :
  extractPlainText go alternativePart = "hello"
  /\ visited samplePayload = [samplePayload; alternativePart; plainPart; htmlPart; pdfPart]
  /\ extractPlainText go plainPart = "hello"
  /\ extractPlainText go samplePayload = EmptyString.
Proof. repeat split; reflexivity. Qed.

Example extractPlainText_html_only :
  extractPlainText plainGo (mkPart "multipart/alternative" EmptyString [] None [htmlPart])
  = "hello".
Proof. reflexivity. Qed.

Example stripHTML_sample :
  stripHTML plainGo (String "009" "<p>a &amp;  b</p>" ++ nl ++ "<br/> c ") = "a & b c".
Proof. reflexivity. Qed.

(** ** Lines *)

Module LineFacts.

Lemma Split_nonempty (sep : ascii) (s : string) : Split sep s <> [].
Proof.
  destruct s as [|c t]; cbn [Split]; [discriminate|].
  destruct (Ascii.eqb c sep); [discriminate|].
  destruct (Split sep t); discriminate.
Qed.

Lemma Split_no_sep (sep : ascii) (s : string) :
  contains sep s = false -> Split sep s = [s].
Proof.
  induction s as [|c t IH]; cbn [contains Split]; intros H; [reflexivity|].
  apply Bool.orb_false_iff in H. destruct H as [Hc Ht].
  rewrite Hc, (IH Ht). reflexivity.
Qed.

Lemma Split_app (sep : ascii) (a b : string) :
  contains sep a = false ->
  Split sep (a ++ String sep b) = a :: Split sep b.
Proof.
  induction a as [|c t IH]; cbn [contains append Split]; intros H.
  - rewrite Ascii.eqb_refl. reflexivity.
  - apply Bool.orb_false_iff in H. destruct H as [Hc Ht].
    rewrite Hc, (IH Ht). reflexivity.
Qed.

Lemma Split_lines (sep : ascii) (s : string) :
  Forall (fun l => contains sep l = false) (Split sep s).
Proof.
  induction s as [|c t IH]; cbn [Split].
  - constructor; [reflexivity | constructor].
  - destruct (Ascii.eqb c sep) eqn:Hc.
    + constructor; [reflexivity | exact IH].
    + destruct (Split sep t) as [|l ls]; inversion IH; subst.
      * constructor; [cbn; rewrite Hc; reflexivity | constructor].
      * constructor; [cbn [contains]; rewrite Hc | ]; assumption.
Qed.

Lemma Split_Join (sep : ascii) (ls : list string) :
  ls <> [] ->
  Forall (fun l => contains sep l = false) ls ->
  Split sep (Join ls (String sep EmptyString)) = ls.
Proof.
  induction ls as [|l ls IH]; intros Hne Hall; [congruence|].
  inversion Hall as [|? ? Hl Hls]; subst.
  destruct ls as [|l' ls'].
  - cbn [Join]. apply Split_no_sep, Hl.
  - change (Join (l :: l' :: ls') (String sep EmptyString))
      with (l ++ String sep (Join (l' :: ls') (String sep EmptyString))).
    rewrite Split_app by exact Hl. rewrite IH; [reflexivity | discriminate | exact Hls].
Qed.

(** The lines of the quoted text are the lines of the text, each behind
    the quote mark. *)
Lemma indentText_lines (text : string) :
  Split LF (indentText text) = map (append "> ") (Split LF text).
Proof.
  unfold indentText, nl. apply Split_Join.
  - pose proof (Split_nonempty LF text). destruct (Split LF text); [congruence | discriminate].
  - apply Forall_map. eapply Forall_impl; [|apply Split_lines].
    intros l Hl. cbn. exact Hl.
Qed.

End LineFacts.

(** ** Replying *)

Module ReplyFacts.

Section WithLibraries.

Variable go : GoLib.
Variable ui : Bubbles.



Lemma run_reachable (os : OS) (msgs : list Msg) :
  forall m m', reachable go ui m -> run go ui os msgs m = Some m' -> reachable go ui m'.
Proof.
  induction msgs as [|msg msgs IH]; intros m m' Hr Hrun; cbn [run] in Hrun.
  - congruence.
  - destruct (Update go ui os msg m) as [[m1 c]|] eqn:E; [|discriminate].
    eapply IH; [|exact Hrun]. eapply reach_step; eassumption.
Qed.


End WithLibraries.

(** The models of the sample session are reachable. *)
Lemma after_reachable (msgs : list Msg) (m : model) :
  reachable plainGo inertBubbles m -> reachable plainGo inertBubbles (after msgs m).
Proof.
  intros Hr. unfold after.
  destruct (run plainGo inertBubbles sampleOS msgs m) as [m'|] eqn:E.
  - eapply run_reachable; eassumption.
  - exact Hr.
Qed.

End ReplyFacts.

Example createEmailItem_sample :
  createEmailItem plainGo (Some sampleService) "m1" false = Some sampleItem.
Proof. reflexivity. Qed.

Example reply_send_sample :
  option_map snd
    (Update plainGo inertBubbles sampleOS (TeaKeyMsg (specialKey KeyCtrlS)) replyingModel) =
  Some (CmdSendEmail "ann@example.com" EmptyString EmptyString "Re: Report"
                     (nl ++ nl ++ "--- Original Message ---" ++ nl
                      ++ "From: ann@example.com" ++ nl
                      ++ "Date: Mon, 02 Jan 2006 15:04:05 -0700" ++ nl
                      ++ nl ++ "> ")
                     []).
Proof. reflexivity. Qed.

(** ** Keys *)

Module KeyFacts.

Lemma Matches_string (msg : KeyMsg) (s : string) (b : Binding) :
  keyString msg = s -> Matches msg b = existsb (String.eqb s) b.
Proof. intros <-. reflexivity. Qed.

Lemma Matches_single (msg : KeyMsg) (s : string) :
  Matches msg [s] = true -> keyString msg = s.
Proof.
  unfold Matches. cbn [existsb]. rewrite Bool.orb_false_r. apply String.eqb_eq.
Qed.

End KeyFacts.

(** ** Labels *)

(** C3 (as amended).  In the inbox, a key bound to labels issues the label
    fetch and leaves the model as it is, in the Inbox state; the fetch, when
    the service answers, completes with the labels; and that completion
    moves the session to ManagingLabels with the labels stored and listed. *)
Theorem labels_key (go : GoLib) (ui : Bubbles) (os : OS) :
  (forall (m : model) (msg : KeyMsg),
      Model.state m = stateInbox ->
      Matches msg (Labels keys) = true ->
      Update go ui os (TeaKeyMsg msg) m = Some (m, CmdLoadLabels))
  /\ (forall (srv : Service) (labels : list Label),
         labelsList srv = Ok labels -> loadLabels srv = labelsLoadedMsg labels)
  /\ (forall (m : model) (labels : list Label),
         exists m' : model,
           Update go ui os (labelsLoadedMsg labels) m = Some (m', CmdNil)
           /\ Model.state m' = stateManagingLabels
           /\ Model.labels m' = labels
           /\ listItems (Model.labelsList m') = map mkLabelItem labels).
Proof.
  split; [|split].
  - intros m msg Hst Hl.
    apply KeyFacts.Matches_single in Hl.
    cbn [Update]. unfold handleKeyPress, updateInbox.
    rewrite !(KeyFacts.Matches_string msg "l") by exact Hl.
    cbn [keys ShowHelp CloseHelp Compose Search Labels existsb String.eqb Ascii.eqb
         Bool.eqb orb andb].
    rewrite !Bool.andb_false_r, Hst. reflexivity.
  - intros srv labels H. unfold loadLabels. rewrite H. reflexivity.
  - intros m labels. eexists. split; [reflexivity|]. repeat split.
Qed.

Lemma labels_key_witness :
  Update plainGo inertBubbles sampleOS (TeaKeyMsg (runeKey "l")) sampleModel
  = Some (sampleModel, CmdLoadLabels)
  /\ loadLabels sampleService = labelsLoadedMsg sampleLabels.
Proof.
  destruct (labels_key plainGo inertBubbles sampleOS) as (H1 & H2 & _).
  split.
  - apply H1; reflexivity.
  - apply H2; reflexivity.
Defined.

(** C3, as stated, fails: the labels key leaves the session in the Inbox
    state, not in Loading. *)
Lemma labels_key_stays_in_inbox :
  Model.state sampleModel = stateInbox
  /\ option_map (fun r => (Model.state (fst r), snd r))
       (Update plainGo inertBubbles sampleOS (TeaKeyMsg (runeKey "l")) sampleModel)
     = Some (stateInbox, CmdLoadLabels).
Proof. split; reflexivity. Qed.

(** ** Errors *)

(** C2 (the code leaves the claim).  Every command that meets a service
    error completes with emailLoadErrorMsg; Update has no case for that
    message and hands it to the component of the current state: nothing is
    notified.  In the inbox the model and the command are untouched; in the
    Loading state the session stays in Loading, where every key is ignored
    but the help keys, so the action cannot be tried again. *)
Theorem error_message_unhandled (go : GoLib) (ui : Bubbles) (os : OS)
        (m : model) (e : error) :
  loadLabels failingService = emailLoadErrorMsg "backendError"
  /\ performSearch failingService "q" = emailLoadErrorMsg "backendError"
  /\ loadEmailsByLabel failingService "INBOX" = emailLoadErrorMsg "backendError"
  /\ deleteEmail failingService "m1" = emailLoadErrorMsg "backendError"
  /\ toggleReadStatus failingService "m1" true = emailLoadErrorMsg "backendError"
  /\ loadEmail go failingService "m1"
     = Some (emailLoadErrorMsg "failed to fetch message: backendError")
  /\ fst (sendEmail go os failingService "a@b.c" EmptyString EmptyString "s" "b" [])
     = emailLoadErrorMsg
         (match ioFault os CreateTemp, ioFault os WriteHeaders, ioFault os WriteBody,
                ioFault os WriteFinal, ioFault os CloseWriter, ioFault os SeekStart,
                ioFault os ReadAll with
          | Some x, _, _, _, _, _, _ => "failed to create temp file: " ++ x
          | None, Some x, _, _, _, _, _ => "failed to write headers: " ++ x
          | None, None, Some x, _, _, _, _ => "failed to write body: " ++ x
          | None, None, None, Some x, _, _, _ => "failed to write final boundary: " ++ x
          | None, None, None, None, Some x, _, _ => "failed to close writer: " ++ x
          | None, None, None, None, None, Some x, _ => "failed to seek temp file: " ++ x
          | None, None, None, None, None, None, Some x => "failed to read temp file: " ++ x
          | None, None, None, None, None, None, None => "backendError"
          end)
  /\ Update go ui os (emailLoadErrorMsg e) m = updateComponents ui (emailLoadErrorMsg e) m
  /\ Update go ui os (emailLoadErrorMsg e) (Upd.state stateInbox m)
     = Some (Upd.state stateInbox m, CmdNil)
  /\ Update go ui os (emailLoadErrorMsg e) (Upd.state stateLoading m)
     = Some (Upd.loading (fst (spinnerUpdate ui (emailLoadErrorMsg e) (Model.loading m)))
                         (Upd.state stateLoading m),
             Batch [snd (spinnerUpdate ui (emailLoadErrorMsg e) (Model.loading m))])
  /\ (forall k : KeyMsg,
         Matches k (ShowHelp keys) = false ->
         Update go ui os (TeaKeyMsg k) (Upd.state stateLoading m)
         = Some (Upd.state stateLoading m, CmdNil)).
Proof.
  repeat match goal with |- _ /\ _ => split end; try reflexivity.
  - unfold sendEmail, assemble, step. cbn [addAttachments bind].
    destruct (ioFault os CreateTemp); [reflexivity|].
    destruct (ioFault os WriteHeaders); [reflexivity|].
    destruct (ioFault os WriteBody); [reflexivity|].
    destruct (ioFault os WriteFinal); [reflexivity|].
    destruct (ioFault os CloseWriter); [reflexivity|].
    destruct (ioFault os SeekStart); [reflexivity|].
    destruct (ioFault os ReadAll); reflexivity.
  - cbn [Update]. unfold updateComponents. cbn [Model.state Upd.state Model.loading].
    destruct (spinnerUpdate ui (emailLoadErrorMsg e) (Model.loading m)); reflexivity.
  - intros k Hk. cbn [Update]. unfold handleKeyPress.
    change (CloseHelp keys) with (ShowHelp keys). rewrite Hk, !Bool.andb_false_r.
    reflexivity.
Qed.

(** ** Items of a search result *)

Module SearchFacts.

Section WithGo.

Variable go : GoLib.






End WithGo.



End SearchFacts.


(** One step of the sample session. *)
Lemma after_step (msg : Msg) (m : model) :
  Update plainGo inertBubbles sampleOS msg m <> None ->
  exists c : Cmd,
    Update plainGo inertBubbles sampleOS msg m = Some (after [msg] m, c).
Proof.
  intros Hne. unfold after. cbn [run].
  destruct (Update plainGo inertBubbles sampleOS msg m) as [[m' c]|]; [|congruence].
  exists c. reflexivity.
Qed.



(** ** sanitizeFilename and the download path *)

Module SanitizeFacts.

Lemma byteZ_Zbyte (z : Z) : byteZ (Zbyte z) = Z.land z 255.
Proof.
  unfold byteZ, Zbyte.
  assert (H : 0 <= Z.land z 255 < 256).
  { change 255 with (Z.ones 8). rewrite Z.land_ones by lia.
    change (2 ^ 8) with 256. apply Z.mod_pos_bound. lia. }
  rewrite N_ascii_embedding by lia. lia.
Qed.

(** A byte whose bit 7 is set is not the separator. *)
Lemma high_byte_not_sep (z : Z) :
  Z.testbit z 7 = true -> Ascii.eqb (Zbyte z) "/" = false.
Proof.
  intros Hbit. apply Ascii.eqb_neq. intros Heq.
  assert (H : Z.land z 255 = 47) by (rewrite <- byteZ_Zbyte, Heq; reflexivity).
  assert (Hb : Z.testbit (Z.land z 255) 7 = true)
    by (rewrite Z.land_spec, Hbit; reflexivity).
  rewrite H in Hb. discriminate Hb.
Qed.

Lemma low_byte_not_sep (z : Z) :
  0 <= z < 128 -> z <> 47 -> Ascii.eqb (Zbyte z) "/" = false.
Proof.
  intros Hz Hne. apply Ascii.eqb_neq. intros Heq.
  assert (H : Z.land z 255 = 47) by (rewrite <- byteZ_Zbyte, Heq; reflexivity).
  change 255 with (Z.ones 8) in H. rewrite Z.land_ones, Z.mod_small in H; lia.
Qed.

Lemma lor_bit7 (c y : Z) : Z.testbit c 7 = true -> Z.testbit (Z.lor c y) 7 = true.
Proof. intros H. rewrite Z.lor_spec, H. reflexivity. Qed.

(** The encoding of a rune other than the separator holds no separator. *)
Lemma EncodeRune_no_sep (r : Z) :
  r <> 47 -> contains "/" (Unicode.EncodeRune r) = false.
Proof.
  intros Hne. unfold Unicode.EncodeRune.
  assert (Herr : contains "/" (string_of_list_ascii (map Zbyte
             [Z.lor 224 (Z.shiftr Unicode.RuneError 12);
              Z.lor 128 (Z.land (Z.shiftr Unicode.RuneError 6) 63);
              Z.lor 128 (Z.land Unicode.RuneError 63)])) = false) by reflexivity.
  destruct (r <? 0) eqn:E0; [exact Herr|].
  destruct (r <? 128) eqn:E1.
  { cbn [map string_of_list_ascii contains]. rewrite Ascii.eqb_sym.
    rewrite Ascii.eqb_sym, low_byte_not_sep; [reflexivity | lia | exact Hne]. }
  destruct (r <? 2048);
    [| destruct (Unicode.inRange 55296 57343 r); [exact Herr|];
       destruct (r <? 65536); [| destruct (r <=? 1114111); [|exact Herr]]];
    cbn [map string_of_list_ascii contains];
    rewrite !high_byte_not_sep by (apply lor_bit7; reflexivity);
    reflexivity.
Qed.

Lemma contains_app (c : ascii) (s t : string) :
  contains c (s ++ t) = contains c s || contains c t.
Proof. induction s; cbn; [reflexivity | rewrite IHs; apply Bool.orb_assoc]. Qed.

Lemma contains_concat (c : ascii) (ls : list string) :
  Forall (fun l => contains c l = false) ls ->
  contains c (String.concat EmptyString ls) = false.
Proof.
  induction 1 as [|l ls Hl _ IH]; [reflexivity|].
  destruct ls as [|l' ls']; [exact Hl|].
  change (String.concat EmptyString (l :: l' :: ls'))
    with (l ++ EmptyString ++ String.concat EmptyString (l' :: ls')).
  cbn [append]. rewrite contains_app, Hl, IH. reflexivity.
Qed.

Section WithGo.

Variable go : GoLib.

Lemma sanitizeRune_kept (r : Z) :
  sanitizeRune go r = if kept go r then r else 95.
Proof. reflexivity. Qed.

Lemma kept_ascii (r : Z) : 0 <= r < 128 -> kept go r = keptAscii r.
Proof.
  intros Hr. rewrite <- (Z2Nat.id r) by lia.
  assert (Hn : (Z.to_nat r < 128)%nat) by lia.
  revert Hn. generalize (Z.to_nat r). clear r Hr. intros n Hn.
  do 128 (destruct n as [|n]; [reflexivity|]). lia.
Qed.

Lemma sanitizeRune_not_sep (r : Z) : sanitizeRune go r <> 47.
Proof.
  rewrite sanitizeRune_kept. destruct (kept go r) eqn:E; [|discriminate].
  intros ->. rewrite kept_ascii in E by lia. discriminate E.
Qed.

Lemma sanitizeFilename_no_sep (name : string) :
  contains "/" (sanitizeFilename go name) = false.
Proof.
  unfold sanitizeFilename, Unicode.Map. apply contains_concat.
  apply Forall_map. apply Forall_forall. intros r _.
  apply EncodeRune_no_sep, sanitizeRune_not_sep.
Qed.

End WithGo.

Lemma isEmpty_true' (s : string) : s <> EmptyString -> isEmpty s = false.
Proof. destruct s; [congruence | reflexivity]. Qed.

(** Joining a directory name and a name free of separators. *)
Lemma JoinPath_child (s : string) :
  contains "/" s = false ->
  s <> EmptyString -> s <> "." -> s <> ".." ->
  Filepath.JoinPath [downloadsDir; s] = downloadsDir ++ "/" ++ s.
Proof.
  intros Hsep He Hd Hdd.
  change (Filepath.JoinPath [downloadsDir; s])
    with (Filepath.Clean ("downloads" ++ String "/" s)).
  unfold Filepath.Clean. cbn [append].
  change (String "d" (String "o" (String "w" (String "n" (String "l" (String "o"
            (String "a" (String "d" (String "s" (String "/" s))))))))))
    with ("downloads" ++ String Filepath.sep s).
  rewrite LineFacts.Split_app by reflexivity.
  rewrite (LineFacts.Split_no_sep Filepath.sep s Hsep).
  cbn [Ascii.eqb Bool.eqb Filepath.sep andb].
  unfold Filepath.cleanElems. cbn [isEmpty String.eqb Ascii.eqb Bool.eqb orb andb].
  apply isEmpty_true' in He. rewrite He.
  apply String.eqb_neq in Hd, Hdd. rewrite Hd, Hdd.
  reflexivity.
Qed.

Lemma JoinPath_self (s : string) :
  s = EmptyString \/ s = "." ->
  Filepath.JoinPath [downloadsDir; s] = downloadsDir.
Proof. intros [-> | ->]; reflexivity. Qed.

End SanitizeFacts.

(** C4 (as amended).  sanitizeFilename maps to [_] every rune of the name
    that is neither Unicode white space, nor a letter, nor a number, nor
    one of [-], [_] and [.], and keeps the others; within ASCII the runes
    kept are the letters, the digits, the space, the control characters
    tab, LF, VT, FF and CR, and the three marks.  No path separator
    survives, and the sanitized name joined under the downloads directory
    is the entry of that name in the directory, or the directory itself
    when the sanitized name is empty or a single dot; nothing is said of
    the name made of two dots. *)
Theorem sanitizeFilename_path (go : GoLib) :
  (forall name : string,
      sanitizeFilename go name
      = String.concat EmptyString
          (map (fun r => Unicode.EncodeRune (if kept go r then r else 95))
               (Unicode.runes name)))
  /\ (forall r : Z, 0 <= r < 128 -> kept go r = keptAscii r)
  /\ (forall name : string, contains "/" (sanitizeFilename go name) = false)
  /\ (forall attachment : MessagePart,
         let s := sanitizeFilename go (Filename attachment) in
         (s <> EmptyString -> s <> "." -> s <> ".." ->
          downloadFilename go attachment = downloadsDir ++ "/" ++ s)
         /\ (s = EmptyString \/ s = "." -> downloadFilename go attachment = downloadsDir)).
Proof.
  split; [|split; [|split]].
  - reflexivity.
  - apply SanitizeFacts.kept_ascii.
  - apply SanitizeFacts.sanitizeFilename_no_sep.
  - intros attachment s. unfold downloadFilename. fold s. split.
    + apply SanitizeFacts.JoinPath_child, SanitizeFacts.sanitizeFilename_no_sep.
    + apply SanitizeFacts.JoinPath_self.
Qed.

Lemma sanitizeFilename_path_witness :
  sanitizeFilename plainGo "../../etc/passwd" = ".._.._etc_passwd"
  /\ kept plainGo 47 = false
  /\ downloadFilename plainGo (mkPart "text/plain" "../../etc/passwd" [] None [])
     = "downloads/.._.._etc_passwd".
Proof.
  destruct (sanitizeFilename_path plainGo) as (H1 & H2 & _ & H4).
  split; [|split].
  - rewrite H1. reflexivity.
  - rewrite H2 by lia. reflexivity.
  - destruct (H4 (mkPart "text/plain" "../../etc/passwd" [] None [])) as [H _].
    rewrite H; [reflexivity | discriminate | discriminate | discriminate].
Defined.

(** C4, as stated, fails: a tab, which is neither a letter, a digit, the
    space nor one of the three marks, survives; and the name of two dots
    survives whole, so that the path joined under the downloads directory
    is the directory above it. *)
Lemma sanitizeFilename_escapes :
  sanitizeFilename plainGo ("a" ++ tab ++ "b") = "a" ++ tab ++ "b"
  /\ sanitizeFilename plainGo ".." = ".."
  /\ downloadFilename plainGo (mkPart "application/pdf" ".." [] None []) = ".".
Proof. repeat split; reflexivity. Qed.

(** ** sendEmail and the size of attachments *)

Module SendFacts.

Section WithWorld.

Variable go : GoLib.
Variable os : OS.

Lemma addAttachment_oversize (filePath : string) :
  oversize os filePath ->
  addAttachment go os filePath
  = Err ("attachment too large: " ++ Filepath.Base filePath ++ " (max 25MB)").
Proof.
  intros (size & Hsize & Hbig). unfold fileSize in Hsize. unfold addAttachment.
  destruct (osOpen os filePath) as [file|e]; [|discriminate].
  destruct (Stat file) as [sz|e]; [|discriminate].
  injection Hsize as ->.
  replace (size >? maxAttachmentSize) with true by (symmetry; apply Z.gtb_lt; lia).
  reflexivity.
Qed.

Lemma addAttachment_within (filePath : string) (size : Z) :
  noFault os ->
  fileSize os filePath = Some size -> size <= maxAttachmentSize ->
  exists part : OutPart,
    addAttachment go os filePath = Ok part /\ partFile part = filePath.
Proof.
  intros Hio Hsize Hle. unfold fileSize in Hsize. unfold addAttachment, step.
  destruct (osOpen os filePath) as [file|e]; [|discriminate].
  destruct (Stat file) as [sz|e]; [|discriminate].
  injection Hsize as ->.
  replace (size >? maxAttachmentSize) with false
    by (symmetry; rewrite Z.gtb_ltb; apply Z.ltb_ge; lia).
  rewrite !Hio. cbn [bind]. eexists. split; reflexivity.
Qed.

Lemma addAttachment_file (filePath : string) (part : OutPart) :
  addAttachment go os filePath = Ok part -> partFile part = filePath.
Proof.
  unfold addAttachment, step.
  destruct (osOpen os filePath) as [file|e]; [|discriminate].
  destruct (Stat file) as [sz|e]; [|discriminate].
  destruct (sz >? maxAttachmentSize); [discriminate|].
  destruct (ioFault os (CreatePart filePath)); [discriminate|].
  destruct (ioFault os (CopyFile filePath)); [discriminate|].
  destruct (ioFault os (CloseEncoder filePath)); [discriminate|].
  cbn [bind]. intros H. injection H as <-. reflexivity.
Qed.

(** The loop stops at an oversize file, if not before. *)
Lemma addAttachments_oversize (attachments : list string) (filePath : string) :
  In filePath attachments -> oversize os filePath ->
  exists e : error, addAttachments go os attachments = Err e.
Proof.
  intros Hin Hbig. induction attachments as [|p rest IH]; [contradiction|].
  cbn [addAttachments]. destruct Hin as [-> | Hin].
  - rewrite addAttachment_oversize by exact Hbig. eexists. reflexivity.
  - destruct (addAttachment go os p) as [part|e]; cbn [bind].
    + destruct (IH Hin) as [e ->]. eexists. reflexivity.
    + eexists. reflexivity.
Qed.

Lemma addAttachments_first_oversize (pre post : list string) (filePath : string)
      (parts : list OutPart) :
  addAttachments go os pre = Ok parts -> oversize os filePath ->
  addAttachments go os (pre ++ filePath :: post)
  = Err ("attachment too large: " ++ Filepath.Base filePath ++ " (max 25MB)").
Proof.
  revert parts. induction pre as [|p pre IH]; intros parts Hpre Hbig.
  - cbn [List.app addAttachments]. rewrite addAttachment_oversize by exact Hbig.
    reflexivity.
  - cbn [List.app addAttachments] in Hpre |- *.
    destruct (addAttachment go os p) as [part|e]; cbn [bind] in Hpre |- *;
      [|discriminate].
    destruct (addAttachments go os pre) as [ps|e] eqn:E; cbn [bind] in Hpre;
      [|discriminate].
    rewrite (IH ps eq_refl Hbig). reflexivity.
Qed.

Lemma addAttachments_files (attachments : list string) (parts : list OutPart) :
  addAttachments go os attachments = Ok parts -> map partFile parts = attachments.
Proof.
  revert parts. induction attachments as [|p rest IH]; intros parts H;
    cbn [addAttachments] in H.
  - injection H as <-. reflexivity.
  - destruct (addAttachment go os p) as [part|e] eqn:Ep; cbn [bind] in H; [|discriminate].
    destruct (addAttachments go os rest) as [ps|e]; cbn [bind] in H; [|discriminate].
    injection H as <-. cbn [map]. rewrite (IH ps eq_refl), (addAttachment_file p part Ep).
    reflexivity.
Qed.

Lemma addAttachments_within (attachments : list string) :
  noFault os ->
  Forall (fun p => exists size, fileSize os p = Some size /\ size <= maxAttachmentSize)
         attachments ->
  exists parts : list OutPart, addAttachments go os attachments = Ok parts.
Proof.
  intros Hio Hall. induction Hall as [|p rest (size & Hs & Hle) _ IH].
  - eexists. reflexivity.
  - cbn [addAttachments].
    destruct (addAttachment_within p size Hio Hs Hle) as (part & -> & _).
    destruct IH as [parts ->]. cbn [bind]. eexists. reflexivity.
Qed.

(** What reaches the send is the whole message. *)
Lemma assemble_whole (to cc bcc subject body : string) (attachments : list string)
      (content : OutMessage) :
  assemble go os to cc bcc subject body attachments = Ok content ->
  map partFile (outParts content) = attachments
  /\ outHeaders content = buildEmailHeaders to cc bcc subject (Boundary os).
Proof.
  unfold assemble, step.
  destruct (ioFault os CreateTemp); [discriminate|].
  destruct (ioFault os WriteHeaders); [discriminate|].
  destruct (ioFault os WriteBody); [discriminate|]. cbn [bind].
  destruct (addAttachments go os attachments) as [parts|e] eqn:E; [|discriminate].
  cbn [bind].
  destruct (ioFault os WriteFinal); [discriminate|].
  destruct (ioFault os CloseWriter); [discriminate|].
  destruct (ioFault os SeekStart); [discriminate|].
  destruct (ioFault os ReadAll); [discriminate|]. cbn [bind].
  intros H. injection H as <-. cbn [outParts outHeaders].
  split; [apply addAttachments_files, E | reflexivity].
Qed.

Lemma assemble_error (to cc bcc subject body : string) (attachments : list string)
      (e : error) :
  addAttachments go os attachments = Err e ->
  exists e' : error, assemble go os to cc bcc subject body attachments = Err e'.
Proof.
  intros E. unfold assemble, step.
  destruct (ioFault os CreateTemp); [eexists; reflexivity|].
  destruct (ioFault os WriteHeaders); [eexists; reflexivity|].
  destruct (ioFault os WriteBody); [eexists; reflexivity|]. cbn [bind].
  rewrite E. eexists. reflexivity.
Qed.

Lemma assemble_ok (to cc bcc subject body : string) (attachments : list string)
      (parts : list OutPart) :
  noFault os ->
  addAttachments go os attachments = Ok parts ->
  exists content : OutMessage,
    assemble go os to cc bcc subject body attachments = Ok content.
Proof.
  intros Hio E. unfold assemble, step. rewrite !Hio. cbn [bind]. rewrite E.
  cbn [bind]. eexists. reflexivity.
Qed.

End WithWorld.

End SendFacts.

(** C1 (as amended).  The bound is on each attachment file alone, on its
    size in bytes before encoding.  A draft with an attachment file larger
    than 25 MiB is never sent: sendEmail returns a failure and issues no
    send call; when the header, the text and the attachments before the
    first such file are written without failure, the failure names that
    file.  A send call, when one is issued, carries the whole message, with
    every attachment of the draft in order.  A draft whose files are each
    at most 25 MiB is not rejected for size: when no step fails on the
    files, exactly one send call is issued, whatever the total size. *)
Theorem sendEmail_size (go : GoLib) (os : OS) (srv : Service)
        (to cc bcc subject body : string) :
  (forall (attachments : list string) (filePath : string),
      In filePath attachments -> oversize os filePath ->
      exists e : error,
        sendEmail go os srv to cc bcc subject body attachments
        = (emailLoadErrorMsg e, []))
  /\ (forall (pre post : list string) (filePath : string) (parts : list OutPart),
         ioFault os CreateTemp = None -> ioFault os WriteHeaders = None ->
         ioFault os WriteBody = None ->
         addAttachments go os pre = Ok parts ->
         oversize os filePath ->
         sendEmail go os srv to cc bcc subject body (pre ++ filePath :: post)
         = (emailLoadErrorMsg
              ("attachment too large: " ++ Filepath.Base filePath ++ " (max 25MB)"),
            []))
  /\ (forall attachments : list string,
         snd (sendEmail go os srv to cc bcc subject body attachments) = []
         \/ exists content : OutMessage,
             snd (sendEmail go os srv to cc bcc subject body attachments) = [content]
             /\ map partFile (outParts content) = attachments)
  /\ (forall attachments : list string,
         noFault os ->
         Forall (fun p => exists size,
                     fileSize os p = Some size /\ size <= maxAttachmentSize)
                attachments ->
         exists content : OutMessage,
           map partFile (outParts content) = attachments
           /\ sendEmail go os srv to cc bcc subject body attachments
              = (match messagesSend srv content with
                 | Ok _ => emailSentMsg
                 | Err e => emailLoadErrorMsg e
                 end, [content])).
Proof.
  split; [|split; [|split]].
  - intros attachments filePath Hin Hbig.
    destruct (SendFacts.addAttachments_oversize go os attachments filePath Hin Hbig)
      as [e He].
    destruct (SendFacts.assemble_error go os to cc bcc subject body attachments e He)
      as [e' He'].
    unfold sendEmail. rewrite He'. eexists. reflexivity.
  - intros pre post filePath parts H1 H2 H3 Hpre Hbig.
    unfold sendEmail, assemble, step. rewrite H1, H2, H3. cbn [bind].
    rewrite (SendFacts.addAttachments_first_oversize go os pre post filePath parts Hpre Hbig).
    reflexivity.
  - intros attachments. unfold sendEmail.
    destruct (assemble go os to cc bcc subject body attachments) as [content|e] eqn:E.
    + right. exists content.
      destruct (SendFacts.assemble_whole go os _ _ _ _ _ _ _ E) as [Hfiles _].
      destruct (messagesSend srv content); split; try reflexivity; exact Hfiles.
    + left. reflexivity.
  - intros attachments Hio Hall.
    destruct (SendFacts.addAttachments_within go os attachments Hio Hall) as [parts Hp].
    destruct (SendFacts.assemble_ok go os to cc bcc subject body attachments parts Hio Hp)
      as [content Hc].
    exists content. split.
    + apply (SendFacts.assemble_whole go os _ _ _ _ _ _ _ Hc).
    + unfold sendEmail. rewrite Hc. destruct (messagesSend srv content); reflexivity.
Qed.

Lemma sendEmail_size_witness :
  (exists e : error,
      sendEmail plainGo sampleOS sampleService "ann@example.com" EmptyString EmptyString
                "Re: Report" "hello" ["notes.txt"; "big.iso"]
      = (emailLoadErrorMsg e, []))
  /\ sendEmail plainGo sampleOS sampleService "ann@example.com" EmptyString EmptyString
               "Re: Report" "hello" (["notes.txt"] ++ "big.iso" :: ["exact.bin"])
     = (emailLoadErrorMsg "attachment too large: big.iso (max 25MB)", [])
  /\ (exists content : OutMessage,
         map partFile (outParts content) = ["notes.txt"; "exact.bin"]
         /\ sendEmail plainGo sampleOS sampleService "ann@example.com" EmptyString
                      EmptyString "Re: Report" "hello" ["notes.txt"; "exact.bin"]
            = (match messagesSend sampleService content with
               | Ok _ => emailSentMsg
               | Err e => emailLoadErrorMsg e
               end, [content])).
Proof.
  destruct (sendEmail_size plainGo sampleOS sampleService "ann@example.com" EmptyString
              EmptyString "Re: Report" "hello") as (H1 & H2 & _ & H4).
  assert (Hbig : oversize sampleOS "big.iso").
  { exists (25 * 1024 * 1024 + 1). split; [reflexivity | reflexivity]. }
  split; [|split].
  - apply (H1 ["notes.txt"; "big.iso"] "big.iso"); [right; left; reflexivity | exact Hbig].
  - apply (H2 ["notes.txt"] ["exact.bin"] "big.iso"
              [mkOutPart [ ("Content-Type", "application/octet-stream");
                           ("Content-Disposition",
                            "attachment; filename=" ++ dquote ++ "notes.txt" ++ dquote);
                           ("Content-Transfer-Encoding", "base64") ] "notes.txt"]);
      try reflexivity; exact Hbig.
  - apply (H4 ["notes.txt"; "exact.bin"]).
    + intros s. reflexivity.
    + repeat constructor.
      * exists 12. split; [reflexivity | discriminate].
      * exists (25 * 1024 * 1024). split; [reflexivity | discriminate].
Defined.

(** C1, as stated, fails: a draft with one attachment of exactly 25 MiB
    takes more than the bound once encoded, and is sent. *)
Lemma sendEmail_over_total_bound :
  totalEncodedSize sampleOS ["exact.bin"] = 34952536
  /\ maxAttachmentSize = 26214400
  /\ fst (sendEmail plainGo sampleOS sampleService "ann@example.com" EmptyString
                    EmptyString "Report" "hello" ["exact.bin"])
     = emailSentMsg
  /\ map (fun content => map partFile (outParts content))
         (snd (sendEmail plainGo sampleOS sampleService "ann@example.com" EmptyString
                         EmptyString "Report" "hello" ["exact.bin"]))
     = [["exact.bin"]].
Proof. repeat split; reflexivity. Qed.

(** * Further properties of the code *)

(** ** The help overlay *)

(** X1.  In every state, a key bound to help toggles the help overlay and
    changes nothing else, and issues no command; pressed twice, it leaves
    the model as it was. *)
Theorem help_key_toggles (go : GoLib) (ui : Bubbles) (os : OS) (m : model) (k : KeyMsg) :
  Matches k (ShowHelp keys) = true ->
  Update go ui os (TeaKeyMsg k) m
  = Some (Upd.showHelp (negb (Model.showHelp m)) m, CmdNil)
  /\ run go ui os [TeaKeyMsg k; TeaKeyMsg k] m = Some m.
Proof.
  intros Hk.
  assert (Hone : forall x : model,
             Update go ui os (TeaKeyMsg k) x
             = Some (Upd.showHelp (negb (Model.showHelp x)) x, CmdNil)).
  { intros x. cbn [Update]. unfold handleKeyPress.
    change (CloseHelp keys) with (ShowHelp keys). rewrite Hk.
    destruct (Model.showHelp x); reflexivity. }
  split; [apply Hone|].
  cbn [run]. rewrite !Hone. destruct m as [? ? ? ? ? ? ? ? ? b]. destruct b; reflexivity.
Qed.

Lemma help_key_toggles_witness :
  Update plainGo inertBubbles sampleOS (TeaKeyMsg (runeKey "?")) replyingModel
  = Some (Upd.showHelp (negb (Model.showHelp replyingModel)) replyingModel, CmdNil)
  /\ run plainGo inertBubbles sampleOS [TeaKeyMsg (runeKey "?"); TeaKeyMsg (runeKey "?")]
         replyingModel
     = Some replyingModel.
Proof.
  apply (help_key_toggles plainGo inertBubbles sampleOS replyingModel (runeKey "?")).
  reflexivity.
Defined.

(** ** Where a step can fail *)

Module NilFacts.

Section WithLibraries.

Variable go : GoLib.
Variable ui : Bubbles.
Variable os : OS.

Lemma updateComposeFields_some (msg : Msg) (m : model) :
  updateComposeFields ui msg m <> None.
Proof.
  unfold updateComposeFields, ret.
  repeat match goal with
         | |- context [if ?b then _ else _] => destruct b
         | |- context [match ?x with _ => _ end] => destruct x
         end; discriminate.
Qed.

Lemma handleAttachmentAdd_some (m : model) : handleAttachmentAdd os m <> None.
Proof.
  unfold handleAttachmentAdd, ret.
  repeat match goal with
         | |- context [if ?b then _ else _] => destruct b
         | |- context [match ?x with _ => _ end] => destruct x
         end; discriminate.
Qed.

Lemma updateComposing_some (msg : KeyMsg) (m : model) :
  updateComposing ui os msg m <> None.
Proof.
  unfold updateComposing.
  pose proof (updateComposeFields_some (TeaKeyMsg msg) m) as Hfwd.
  pose proof (handleAttachmentAdd_some m) as Hadd.
  set (fwd := updateComposeFields ui (TeaKeyMsg msg) m) in *.
  set (add := handleAttachmentAdd os m) in *.
  cbv zeta. unfold ret.
  repeat match goal with
         | |- context [if ?b then _ else _] => destruct b
         | |- context [match ?x with _ => _ end] => destruct x
         end; first [assumption | discriminate].
Qed.

(** A number of the picker has its attachment. *)
Lemma picked_attachment (atts : list MessagePart) (digit : Z) :
  (0 <? digit) = true -> (digit <=? Z.of_nat (List.length atts)) = true ->
  nth_error atts (Z.to_nat (digit - 1)) <> None.
Proof.
  intros H0 H1. apply Z.ltb_lt in H0. apply Z.leb_le in H1.
  apply nth_error_Some. lia.
Qed.

End WithLibraries.

End NilFacts.

(** X2.  A step fails (the program dereferences a nil pointer) only on a
    key, and only in the viewer with no opened message or in the reply
    composer with no opened message or no message replied to: every other
    message, and every key in every other state, is handled. *)
Theorem Update_fails_only_on_nil (go : GoLib) (ui : Bubbles) (os : OS)
        (msg : Msg) (m : model) :
  Update go ui os msg m = None ->
  (exists k : KeyMsg, msg = TeaKeyMsg k)
  /\ ((Model.state m = stateViewing /\ Model.currentMsg m = None)
      \/ (Model.state m = stateReplying
          /\ (Model.replyToMsg m = None \/ Model.currentMsg m = None))).
Proof.
  intros H. destruct msg; cbn [Update] in H;
    try (exfalso;
         first [ discriminate H
               | unfold updateComponents in H; split_result H; discriminate H ]).
  split; [eexists; reflexivity|].
  unfold handleKeyPress in H.
  destruct (negb (Model.showHelp m) && Matches k (ShowHelp keys)); [discriminate H|].
  destruct (Model.showHelp m && Matches k (CloseHelp keys)); [discriminate H|].
  destruct (Model.state m) eqn:Est.
  - exfalso. unfold updateInbox in H. split_result H; discriminate H.
  - left. split; [reflexivity|].
    destruct (Model.attachmentDownloading m).
    + unfold handleAttachmentDownload in H.
      destruct (Model.currentMsg m) as [cur|]; [exfalso|reflexivity].
      split_result H; try discriminate H.
      eapply NilFacts.picked_attachment; eassumption.
    + unfold updateViewing in H.
      destruct (Model.currentMsg m) as [cur|]; [exfalso|reflexivity].
      split_result H; discriminate H.
  - discriminate H.
  - exfalso. exact (NilFacts.updateComposing_some ui os k m H).
  - right. split; [reflexivity|].
    unfold updateReplying in H.
    destruct (Model.replyToMsg m) as [r|]; [|left; reflexivity].
    destruct (Model.currentMsg m) as [cur|]; [exfalso|right; reflexivity].
    split_result H; discriminate H.
  - exfalso. unfold updateSearching in H. split_result H; discriminate H.
  - exfalso. unfold updateLabelManagement in H. split_result H; discriminate H.
Qed.

Lemma Update_fails_only_on_nil_witness :
  (exists k : KeyMsg, TeaKeyMsg (runeKey "d") = TeaKeyMsg k)
  /\ ((Model.state (after [emailLoadedMsg "From: ann@example.com"] sampleModel)
       = stateViewing
       /\ Model.currentMsg (after [emailLoadedMsg "From: ann@example.com"] sampleModel)
          = None)
      \/ (Model.state (after [emailLoadedMsg "From: ann@example.com"] sampleModel)
          = stateReplying
          /\ (Model.replyToMsg (after [emailLoadedMsg "From: ann@example.com"] sampleModel)
              = None
              \/ Model.currentMsg (after [emailLoadedMsg "From: ann@example.com"] sampleModel)
                 = None))).
Proof.
  apply (Update_fails_only_on_nil plainGo inertBubbles sampleOS).
  reflexivity.
Defined.

(** ** The attachment picker *)

Module PickerKeys.

(** A key bound to back is not bound to help. *)
Lemma back_key_not_help (k : KeyMsg) :
  Matches k (Back keys) = true -> Matches k (ShowHelp keys) = false.
Proof.
  unfold Matches. cbn [keys Back ShowHelp existsb]. rewrite !Bool.orb_false_r.
  intros H. apply Bool.orb_true_iff in H.
  destruct H as [H | H]; apply String.eqb_eq in H; rewrite H; reflexivity.
Qed.

End PickerKeys.

(** X3.  While the attachment picker is armed on an opened message, a key
    bound to back disarms it and changes nothing else; every other key but
    the help key that does not type the number of an attachment is ignored:
    the model stays as it is, the picker stays armed and no command is
    issued. *)
Theorem picker_other_keys (go : GoLib) (ui : Bubbles) (os : OS) (m : model)
        (cur : emailItem) (k : KeyMsg) :
  Model.state m = stateViewing ->
  Model.attachmentDownloading m = true ->
  Model.currentMsg m = Some cur ->
  (Matches k (Back keys) = true ->
   Update go ui os (TeaKeyMsg k) m = Some (Upd.attachmentDownloading false m, CmdNil))
  /\ (Matches k (Back keys) = false ->
      Matches k (ShowHelp keys) = false ->
      picks k (List.length (attachments cur)) = false ->
      Update go ui os (TeaKeyMsg k) m = Some (m, CmdNil)).
Proof.
  intros Hst Harm Hcur. split.
  - intros Hb. pose proof (PickerKeys.back_key_not_help k Hb) as Hh.
    cbn [Update]. unfold handleKeyPress.
    change (CloseHelp keys) with (ShowHelp keys).
    rewrite Hh, !Bool.andb_false_r, Hst, Harm.
    unfold handleAttachmentDownload. rewrite Hb. reflexivity.
  - intros Hb Hh Hp. cbn [Update]. unfold handleKeyPress.
    change (CloseHelp keys) with (ShowHelp keys).
    rewrite Hh, !Bool.andb_false_r, Hst, Harm.
    unfold handleAttachmentDownload. rewrite Hb, Hcur. unfold picks in Hp.
    destruct (keyType k); try reflexivity.
    destruct (Strconv.Atoi (Runes k)) as [digit|]; [|reflexivity].
    destruct (0 <? digit); [|reflexivity].
    cbn [andb] in Hp. rewrite Hp. reflexivity.
Qed.

Lemma picker_other_keys_witness :
  Update plainGo inertBubbles sampleOS (TeaKeyMsg (specialKey KeyEsc)) armedModel
  = Some (Upd.attachmentDownloading false armedModel, CmdNil)
  /\ Update plainGo inertBubbles sampleOS (TeaKeyMsg (runeKey "2")) armedModel
     = Some (armedModel, CmdNil)
  /\ Update plainGo inertBubbles sampleOS (TeaKeyMsg (runeKey "q")) armedModel
     = Some (armedModel, CmdNil).
Proof.
  pose proof (picker_other_keys plainGo inertBubbles sampleOS armedModel sampleItem)
    as H.
  split; [|split].
  - destruct (H (specialKey KeyEsc) eq_refl eq_refl eq_refl) as [Hback _].
    apply Hback. reflexivity.
  - destruct (H (runeKey "2") eq_refl eq_refl eq_refl) as [_ Hother].
    apply Hother; reflexivity.
  - destruct (H (runeKey "q") eq_refl eq_refl eq_refl) as [_ Hother].
    apply Hother; reflexivity.
Defined.

(** ** The focus of the composer *)

Module FocusFacts.

Ltac focus_done :=
  unfold focusStep;
  first [ left; reflexivity
        | right; left; reflexivity
        | right; right; reflexivity ].

Section WithLibraries.

Variable go : GoLib.
Variable ui : Bubbles.
Variable os : OS.

Lemma focused_focusComposeField (m : model) :
  Model.focused (fst (focusComposeField m)) = Model.focused m.
Proof.
  unfold focusComposeField.
  repeat match goal with
         | |- context [if ?b then _ else _] => destruct b
         end; reflexivity.
Qed.

Lemma focusStep_focus (m x m0 : model) (c0 : Cmd) :
  focusComposeField x = (m0, c0) ->
  focusStep m x -> focusStep m m0.
Proof.
  intros E H. pose proof (focused_focusComposeField x) as F.
  rewrite E in F. cbn [fst] in F. unfold focusStep in *. rewrite F. exact H.
Qed.

Lemma focusStep_updateComposeFields (msg : Msg) (m m' : model) (c : Cmd) :
  updateComposeFields ui msg m = Some (m', c) -> focusStep m m'.
Proof.
  intros H. unfold updateComposeFields in H. handler_cases H; focus_done.
Qed.

Lemma focusStep_handleAttachmentAdd (m m' : model) (c : Cmd) :
  handleAttachmentAdd os m = Some (m', c) -> focusStep m m'.
Proof.
  intros H. unfold handleAttachmentAdd in H. handler_cases H; try focus_done.
  eapply focusStep_focus; [eassumption | focus_done].
Qed.

Lemma focusStep_updateComposing (msg : KeyMsg) (m m' : model) (c : Cmd) :
  updateComposing ui os msg m = Some (m', c) -> focusStep m m'.
Proof.
  intros H. unfold updateComposing in H.
  pose proof (focusStep_updateComposeFields (TeaKeyMsg msg) m m' c) as Hfwd.
  pose proof (focusStep_handleAttachmentAdd m m' c) as Hadd.
  set (fwd := updateComposeFields ui (TeaKeyMsg msg) m) in *.
  set (add := handleAttachmentAdd os m) in *.
  cbv zeta in H.
  split_result H;
    try (apply Hfwd; exact H); try (apply Hadd; exact H);
    try discriminate H;
    unfold ret in H; injection H as <- <-;
    first [ focus_done | eapply focusStep_focus; [eassumption | focus_done] ].
Qed.

(** Every step moves the focus by one field at most. *)
Lemma Update_focusStep (msg : Msg) (m m' : model) (c : Cmd) :
  Update go ui os msg m = Some (m', c) -> focusStep m m'.
Proof.
  intros H.
  destruct msg; cbn [Update] in H.
  - unfold handleWindowSize in H. handler_cases H; focus_done.
  - unfold handleKeyPress in H.
    destruct (negb (Model.showHelp m) && Matches k (ShowHelp keys));
      [injection H as <- <-; focus_done|].
    destruct (Model.showHelp m && Matches k (CloseHelp keys));
      [injection H as <- <-; focus_done|].
    destruct (Model.state m) eqn:Est.
    + unfold updateInbox in H. handler_cases H; focus_done.
    + destruct (Model.attachmentDownloading m).
      * unfold handleAttachmentDownload, Batch in H. handler_cases H; focus_done.
      * unfold updateViewing in H. handler_cases H; focus_done.
    + injection H as <- <-; focus_done.
    + apply focusStep_updateComposing in H. exact H.
    + unfold updateReplying in H. handler_cases H; focus_done.
    + unfold updateSearching in H. handler_cases H; focus_done.
    + unfold updateLabelManagement in H. handler_cases H; focus_done.
  - injection H as <- <-; focus_done.
  - injection H as <- <-; focus_done.
  - unfold updateComponents in H. handler_cases H; focus_done.
  - injection H as <- <-; focus_done.
  - injection H as <- <-; focus_done.
  - injection H as <- <-; focus_done.
  - unfold updateComponents in H. handler_cases H; focus_done.
  - unfold updateComponents in H. handler_cases H; focus_done.
Qed.

Lemma focusStep_range (m m' : model) :
  focusStep m m' -> 0 <= Model.focused m < 6 -> 0 <= Model.focused m' < 6.
Proof.
  unfold focusStep. intros [H | [H | H]] Hr; rewrite H.
  - exact Hr.
  - pose proof (Z.rem_bound_pos (Model.focused m + 1) 6). lia.
  - pose proof (Z.rem_bound_pos (Model.focused m - 1 + 6) 6). lia.
Qed.

(** The fields after focusComposeField, when [focused] numbers one. *)
Lemma fieldFocus_focusComposeField (m : model) :
  0 <= Model.focused m < 6 ->
  fieldFocus (fst (focusComposeField m)) = onlyFocus (Model.focused m)
  /\ snd (focusComposeField m) = blink.
Proof.
  intros Hr.
  assert (Hf : Model.focused m = 0 \/ Model.focused m = 1 \/ Model.focused m = 2
               \/ Model.focused m = 3 \/ Model.focused m = 4 \/ Model.focused m = 5)
    by lia.
  unfold focusComposeField.
  cbn [Model.focused Upd.composeFrom Upd.composeTo Upd.composeCc Upd.composeBcc
       Upd.composeSubj Upd.composeBody].
  unfold onlyFocus.
  destruct Hf as [H | [H | [H | [H | [H | H]]]]]; rewrite H; split; reflexivity.
Qed.

(** A key bound to the next or to the previous field is bound to nothing
    else the composer looks at. *)
Lemma tab_key_only (msg : KeyMsg) (s : string) :
  s = "tab" \/ s = "shift+tab" ->
  keyString msg = s ->
  Matches msg (ShowHelp keys) = false
  /\ Matches msg (CloseHelp keys) = false
  /\ Matches msg (Back keys) = false
  /\ Matches msg (Send keys) = false
  /\ Matches msg (AddAttachment keys) = false
  /\ Matches msg (RemoveAttachment keys) = false.
Proof.
  intros Hs Hk. unfold Matches. rewrite Hk.
  destruct Hs as [-> | ->]; repeat split; reflexivity.
Qed.

End WithLibraries.

Lemma reachable_focused (go : GoLib) (ui : Bubbles) (m : model) :
  reachable go ui m -> 0 <= Model.focused m < 6.
Proof.
  induction 1 as [emails srv labels | m m' os msg c _ IH Hstep].
  - cbn. lia.
  - eapply focusStep_range; [|exact IH].
    eapply Update_focusStep. exact Hstep.
Qed.

End FocusFacts.

(** X4.  In every model of a session, [focused] numbers one of the six
    fields of the composer: it lies between 0 and 5. *)
Theorem focused_in_range (go : GoLib) (ui : Bubbles) (m : model) :
  reachable go ui m -> 0 <= Model.focused m < 6.
Proof. apply FocusFacts.reachable_focused. Qed.

Lemma focused_in_range_witness :
  0 <= Model.focused
         (after [TeaKeyMsg (runeKey "c"); TeaKeyMsg (specialKey KeyShiftTab)] sampleModel)
    < 6.
Proof.
  apply (focused_in_range plainGo inertBubbles).
  apply ReplyFacts.after_reachable, reach_init.
Defined.

(** X5.  In the composer of a session, with no attachment path being
    typed, a key bound to the next field moves the focus to the next of the
    six fields, the first after the last, and a key bound to the previous
    field moves it back, the last before the first; after either, the field
    numbered [focused] has the focus and no other has, and the cursor is set
    blinking. *)
Theorem input_focus_cycles (go : GoLib) (ui : Bubbles) (os : OS) (m : model)
        (k : KeyMsg) :
  reachable go ui m ->
  Model.state m = stateComposing ->
  Model.addingAttachment m = false ->
  (Matches k (NextInput keys) = true ->
   exists m' : model,
     Update go ui os (TeaKeyMsg k) m = Some (m', blink)
     /\ Model.focused m' = (Model.focused m + 1) mod 6
     /\ fieldFocus m' = onlyFocus (Model.focused m'))
  /\ (Matches k (PrevInput keys) = true ->
      exists m' : model,
        Update go ui os (TeaKeyMsg k) m = Some (m', blink)
        /\ Model.focused m' = (Model.focused m - 1) mod 6
        /\ fieldFocus m' = onlyFocus (Model.focused m')).
Proof.
  intros Hreach Hst Hadd.
  pose proof (FocusFacts.reachable_focused go ui m Hreach) as Hr.
  split; intros Hk.
  - apply KeyFacts.Matches_single in Hk.
    destruct (FocusFacts.tab_key_only k "tab" (or_introl eq_refl) Hk)
      as (Hh & Hc & Hb & Hs & Ha & Hx).
    cbn [Update]. unfold handleKeyPress. rewrite Hh, Hc, !Bool.andb_false_r, Hst.
    unfold updateComposing. rewrite Hb, Hs, Ha, Hx, Hadd, Bool.andb_false_r.
    rewrite (KeyFacts.Matches_string k "tab" (NextInput keys) Hk).
    cbn [keys NextInput existsb String.eqb Ascii.eqb Bool.eqb orb andb negb].
    set (x := Upd.focused (Z.rem (Model.focused m + 1) 6) m).
    assert (Hx' : Model.focused x = (Model.focused m + 1) mod 6).
    { subst x. cbn [Model.focused Upd.focused]. apply Z.rem_mod_nonneg; lia. }
    assert (Hrx : 0 <= Model.focused x < 6).
    { rewrite Hx'. apply Z.mod_pos_bound. lia. }
    destruct (FocusFacts.fieldFocus_focusComposeField x Hrx) as [Hf Hcmd].
    pose proof (FocusFacts.focused_focusComposeField x) as Hfoc.
    destruct (focusComposeField x) as [m' cmd]. cbn [fst snd] in *. subst cmd.
    exists m'. split; [reflexivity|]. rewrite Hfoc. split; [exact Hx' | exact Hf].
  - apply KeyFacts.Matches_single in Hk.
    destruct (FocusFacts.tab_key_only k "shift+tab" (or_intror eq_refl) Hk)
      as (Hh & Hc & Hb & Hs & Ha & Hx).
    cbn [Update]. unfold handleKeyPress. rewrite Hh, Hc, !Bool.andb_false_r, Hst.
    unfold updateComposing. rewrite Hb, Hs, Ha, Hx, Hadd, Bool.andb_false_r.
    rewrite (KeyFacts.Matches_string k "shift+tab" (NextInput keys) Hk).
    rewrite (KeyFacts.Matches_string k "shift+tab" (PrevInput keys) Hk).
    cbn [keys NextInput PrevInput existsb String.eqb Ascii.eqb Bool.eqb orb andb negb].
    set (x := Upd.focused (Z.rem (Model.focused m - 1 + 6) 6) m).
    assert (Hx' : Model.focused x = (Model.focused m - 1) mod 6).
    { subst x. cbn [Model.focused Upd.focused]. rewrite Z.rem_mod_nonneg by lia.
      replace (Model.focused m - 1 + 6) with (Model.focused m - 1 + 1 * 6) by lia.
      apply Z.mod_add. lia. }
    assert (Hrx : 0 <= Model.focused x < 6).
    { rewrite Hx'. apply Z.mod_pos_bound. lia. }
    destruct (FocusFacts.fieldFocus_focusComposeField x Hrx) as [Hf Hcmd].
    pose proof (FocusFacts.focused_focusComposeField x) as Hfoc.
    destruct (focusComposeField x) as [m' cmd]. cbn [fst snd] in *. subst cmd.
    exists m'. split; [reflexivity|]. rewrite Hfoc. split; [exact Hx' | exact Hf].
Qed.

Lemma input_focus_cycles_witness :
  (exists m' : model,
      Update plainGo inertBubbles sampleOS (TeaKeyMsg (specialKey KeyTab))
             (after [TeaKeyMsg (runeKey "c")] sampleModel)
      = Some (m', blink)
      /\ Model.focused m'
         = (Model.focused (after [TeaKeyMsg (runeKey "c")] sampleModel) + 1) mod 6
      /\ fieldFocus m' = onlyFocus (Model.focused m'))
  /\ (exists m' : model,
         Update plainGo inertBubbles sampleOS (TeaKeyMsg (specialKey KeyShiftTab))
                (after [TeaKeyMsg (runeKey "c")] sampleModel)
         = Some (m', blink)
         /\ Model.focused m'
            = (Model.focused (after [TeaKeyMsg (runeKey "c")] sampleModel) - 1) mod 6
         /\ fieldFocus m' = onlyFocus (Model.focused m')).
Proof.
  assert (Hreach : reachable plainGo inertBubbles
                     (after [TeaKeyMsg (runeKey "c")] sampleModel)).
  { apply ReplyFacts.after_reachable, reach_init. }
  split.
  - destruct (input_focus_cycles plainGo inertBubbles sampleOS
                (after [TeaKeyMsg (runeKey "c")] sampleModel) (specialKey KeyTab)
                Hreach eq_refl eq_refl) as [Hnext _].
    apply Hnext. reflexivity.
  - destruct (input_focus_cycles plainGo inertBubbles sampleOS
                (after [TeaKeyMsg (runeKey "c")] sampleModel) (specialKey KeyShiftTab)
                Hreach eq_refl eq_refl) as [_ Hprev].
    apply Hprev. reflexivity.
Defined.

(** ** The attachments of a draft *)

Module DraftFacts.

Ltac draft_same := left; split; reflexivity.

Section WithLibraries.

Variable go : GoLib.
Variable ui : Bubbles.
Variable os : OS.

Lemma attachments_focusComposeField (m : model) :
  Model.composeAttachments (fst (focusComposeField m)) = Model.composeAttachments m
  /\ Model.replyAttachments (fst (focusComposeField m)) = Model.replyAttachments m.
Proof.
  unfold focusComposeField.
  repeat match goal with
         | |- context [if ?b then _ else _] => destruct b
         end; split; reflexivity.
Qed.

Lemma nonempty_length (l : list string) :
  (0 <? List.length l)%nat = true -> l <> [].
Proof. intros H E. rewrite E in H. discriminate H. Qed.

Lemma nonempty_path (path : string) : isEmpty path = false -> path <> EmptyString.
Proof. intros H E. rewrite E in H. discriminate H. Qed.

Lemma composeStep_same (k : KeyMsg) (m x : model) :
  Model.replyAttachments x = Model.replyAttachments m ->
  Model.composeAttachments x = Model.composeAttachments m ->
  composeStep os k m x.
Proof. intros Hr Hc. split; [exact Hr | left; exact Hc]. Qed.

(** focusComposeField, called last, leaves the lists as they are. *)
Lemma composeStep_focus (k : KeyMsg) (m x m0 : model) (c0 : Cmd) :
  focusComposeField x = (m0, c0) ->
  Model.replyAttachments x = Model.replyAttachments m ->
  Model.composeAttachments x = Model.composeAttachments m ->
  composeStep os k m m0.
Proof.
  intros E Hr Hc. destruct (attachments_focusComposeField x) as [Fc Fr].
  rewrite E in Fc, Fr. cbn [fst] in Fc, Fr.
  apply composeStep_same; congruence.
Qed.

Lemma composeStep_updateComposeFields (msg : Msg) (k : KeyMsg) (m m' : model) (c : Cmd) :
  updateComposeFields ui msg m = Some (m', c) -> composeStep os k m m'.
Proof.
  intros H. unfold updateComposeFields in H.
  handler_cases H; apply composeStep_same; reflexivity.
Qed.

Lemma addStep_handleAttachmentAdd (m m' : model) (c : Cmd) :
  handleAttachmentAdd os m = Some (m', c) -> addStep os m m'.
Proof.
  intros H. unfold handleAttachmentAdd in H. fold (typedPath m) in H.
  destruct (isEmpty (typedPath m)) eqn:Hempty.
  - injection H as <- <-. split; [reflexivity | left; reflexivity].
  - destruct (osStatOk os (typedPath m)) eqn:Hstat.
    + destruct (focusComposeField _) as [m0 c0] eqn:E in H.
      unfold ret in H. injection H as <- <-.
      destruct (attachments_focusComposeField
                  (Upd.attachmentInput
                     (tiReset (Model.attachmentInput
                                 (Upd.addingAttachment false
                                    (Upd.composeAttachments
                                       (Model.composeAttachments m ++ [typedPath m]) m))))
                     (Upd.addingAttachment false
                        (Upd.composeAttachments
                           (Model.composeAttachments m ++ [typedPath m]) m))))
        as [Fc Fr].
      rewrite E in Fc, Fr. cbn [fst] in Fc, Fr.
      split; [rewrite Fr; reflexivity|]. right. rewrite Fc.
      split; [reflexivity|]. split; [apply nonempty_path, Hempty | exact Hstat].
    + injection H as <- <-. split; [reflexivity | left; reflexivity].
Qed.

Lemma composeStep_updateComposing (k : KeyMsg) (m m' : model) (c : Cmd) :
  updateComposing ui os k m = Some (m', c) -> composeStep os k m m'.
Proof.
  intros H. unfold updateComposing in H.
  pose proof (composeStep_updateComposeFields (TeaKeyMsg k) k m m' c) as Hfwd.
  pose proof (addStep_handleAttachmentAdd m m' c) as Hadd.
  set (fwd := updateComposeFields ui (TeaKeyMsg k) m) in *.
  set (add := handleAttachmentAdd os m) in *.
  change (match keyType k with KeyEnter => true | _ => false end) with (isEnter k) in H.
  cbv zeta in H. unfold ret in H.
  destruct (Matches k (Back keys)).
  { destruct (Model.addingAttachment m).
    - destruct (focusComposeField _) as [m0 c0] eqn:E in H. injection H as <- <-.
      eapply composeStep_focus; [exact E | reflexivity | reflexivity].
    - injection H as <- <-. apply composeStep_same; reflexivity. }
  destruct (Matches k (Send keys)).
  { injection H as <- <-. apply composeStep_same; reflexivity. }
  destruct (Matches k (AddAttachment keys)).
  { destruct (negb (Model.addingAttachment m)); injection H as <- <-;
      apply composeStep_same; reflexivity. }
  destruct (Matches k (RemoveAttachment keys)) eqn:Hrem.
  { destruct (Model.addingAttachment m) eqn:Ha; cbn [negb andb] in H.
    - apply Hfwd, H.
    - destruct (0 <? List.length (Model.composeAttachments m))%nat eqn:Hlen.
      + injection H as <- <-. split; [reflexivity|]. right; right.
        split; [exact Hrem|]. split; [exact Ha|].
        split; [apply nonempty_length, Hlen | reflexivity].
      + apply Hfwd, H. }
  destruct (isEnter k && Model.addingAttachment m) eqn:Henter.
  { apply Bool.andb_true_iff in Henter. destruct Henter as [He Ha].
    destruct (Hadd H) as [Hr [Hc | Hp]].
    - split; [exact Hr | left; exact Hc].
    - split; [exact Hr|]. right; left. split; [exact He|]. split; [exact Ha | exact Hp]. }
  destruct (Matches k (NextInput keys)).
  { destruct (negb (Model.addingAttachment m)); [|apply Hfwd, H].
    destruct (focusComposeField _) as [m0 c0] eqn:E in H. injection H as <- <-.
    eapply composeStep_focus; [exact E | reflexivity | reflexivity]. }
  destruct (Matches k (PrevInput keys)).
  { destruct (negb (Model.addingAttachment m)); [|apply Hfwd, H].
    destruct (focusComposeField _) as [m0 c0] eqn:E in H. injection H as <- <-.
    eapply composeStep_focus; [exact E | reflexivity | reflexivity]. }
  apply Hfwd, H.
Qed.

Lemma draftStep_updateReplying (k : KeyMsg) (m m' : model) (c : Cmd) :
  Model.state m = stateReplying ->
  updateReplying ui os k m = Some (m', c) -> draftStep os (TeaKeyMsg k) m m'.
Proof.
  intros Hst H. unfold updateReplying in H.
  change (match keyType k with KeyEnter => true | _ => false end) with (isEnter k) in H.
  fold (typedPath m) in H. cbv zeta in H. unfold ret in H.
  destruct (Matches k (Back keys)); [injection H as <- <-; draft_same|].
  destruct (Matches k (Send keys)).
  { destruct (Model.replyToMsg m); [|discriminate H].
    destruct (Model.currentMsg m); [|discriminate H].
    injection H as <- <-; draft_same. }
  destruct (Matches k (AddAttachment keys)); [injection H as <- <-; draft_same|].
  destruct (Matches k (RemoveAttachment keys)) eqn:Hrem.
  { destruct (0 <? List.length (Model.replyAttachments m))%nat eqn:Hlen;
      injection H as <- <-; [|draft_same].
    right; right. exists k. split; [reflexivity|]. split; [exact Hst|].
    split; [reflexivity|]. right. split; [exact Hrem|].
    split; [apply nonempty_length, Hlen | reflexivity]. }
  destruct (isEnter k && Model.addingAttachment m) eqn:Henter.
  { apply Bool.andb_true_iff in Henter. destruct Henter as [He Ha].
    destruct (negb (isEmpty (typedPath m)) && osStatOk os (typedPath m)) eqn:Hok;
      injection H as <- <-; [|draft_same].
    apply Bool.andb_true_iff in Hok. destruct Hok as [Hne Hstat].
    apply Bool.negb_true_iff in Hne.
    right; right. exists k. split; [reflexivity|]. split; [exact Hst|].
    split; [reflexivity|]. left. split; [exact He|]. split; [exact Ha|].
    split; [reflexivity|]. split; [apply nonempty_path, Hne | exact Hstat]. }
  destruct (Model.addingAttachment m).
  - destruct (textinputUpdate ui (TeaKeyMsg k) (Model.attachmentInput m)).
    injection H as <- <-; draft_same.
  - destruct (textareaUpdate ui (TeaKeyMsg k) (Model.replyBody m)).
    injection H as <- <-; draft_same.
Qed.

End WithLibraries.

End DraftFacts.

(** X6.  The attachment lists of the two drafts are stacks, and only keys
    move them.  A step leaves both lists as they are, or it is a key in
    the composer that adds the typed path at the end of the list of the new
    message (the enter key, while a path is being typed) or takes its last
    path off (a key bound to remove-attachment, while none is being typed),
    or it is a key in the reply composer that does the same to the list of
    the reply.  A path that is added is not empty and names a file that
    exists when it is added.  No other message changes either list: not
    the completion of a command (a message sent, a search result, labels, a
    loaded text, a download, an error, a notification), not a change of
    the window; so a draft that was sent keeps its attachments. *)
Theorem draft_attachments_stack (go : GoLib) (ui : Bubbles) (os : OS) (msg : Msg)
        (m m' : model) (c : Cmd) :
  Update go ui os msg m = Some (m', c) ->
  draftStep os msg m m'
  /\ (isKey msg = false ->
      Model.composeAttachments m' = Model.composeAttachments m
      /\ Model.replyAttachments m' = Model.replyAttachments m).
Proof.
  intros H.
  assert (Hstep : draftStep os msg m m').
  { destruct msg; cbn [Update] in H.
    - unfold handleWindowSize in H. handler_cases H; DraftFacts.draft_same.
    - unfold handleKeyPress in H.
      destruct (negb (Model.showHelp m) && Matches k (ShowHelp keys));
        [injection H as <- <-; DraftFacts.draft_same|].
      destruct (Model.showHelp m && Matches k (CloseHelp keys));
        [injection H as <- <-; DraftFacts.draft_same|].
      destruct (Model.state m) eqn:Est.
      + unfold updateInbox in H. handler_cases H; DraftFacts.draft_same.
      + destruct (Model.attachmentDownloading m).
        * unfold handleAttachmentDownload, Batch in H.
          handler_cases H; DraftFacts.draft_same.
        * unfold updateViewing in H. handler_cases H; DraftFacts.draft_same.
      + injection H as <- <-; DraftFacts.draft_same.
      + apply DraftFacts.composeStep_updateComposing in H.
        destruct H as [Hr [Hc | Hc]].
        * left. split; assumption.
        * right; left. exists k. split; [reflexivity|]. split; [exact Est|].
          split; [exact Hr | exact Hc].
      + apply DraftFacts.draftStep_updateReplying in H; [exact H | exact Est].
      + unfold updateSearching in H. handler_cases H; DraftFacts.draft_same.
      + unfold updateLabelManagement in H. handler_cases H; DraftFacts.draft_same.
    - injection H as <- <-; DraftFacts.draft_same.
    - injection H as <- <-; DraftFacts.draft_same.
    - unfold updateComponents in H. handler_cases H; DraftFacts.draft_same.
    - injection H as <- <-; DraftFacts.draft_same.
    - injection H as <- <-; DraftFacts.draft_same.
    - injection H as <- <-; DraftFacts.draft_same.
    - unfold updateComponents in H. handler_cases H; DraftFacts.draft_same.
    - unfold updateComponents in H. handler_cases H; DraftFacts.draft_same. }
  split; [exact Hstep|].
  intros Hkey. destruct Hstep as [Hsame | [(k & -> & _) | (k & -> & _)]];
    [exact Hsame | discriminate Hkey | discriminate Hkey].
Qed.

Lemma draft_attachments_stack_witness :
  (draftStep sampleOS (TeaKeyMsg (specialKey KeyEnter)) pathTypedModel
             (after [TeaKeyMsg (specialKey KeyEnter)] pathTypedModel)
   /\ (isKey (TeaKeyMsg (specialKey KeyEnter)) = false ->
       Model.composeAttachments (after [TeaKeyMsg (specialKey KeyEnter)] pathTypedModel)
       = Model.composeAttachments pathTypedModel
       /\ Model.replyAttachments (after [TeaKeyMsg (specialKey KeyEnter)] pathTypedModel)
          = Model.replyAttachments pathTypedModel))
  /\ Model.composeAttachments
       (after [emailSentMsg] (after [TeaKeyMsg (specialKey KeyEnter)] pathTypedModel))
     = Model.composeAttachments (after [TeaKeyMsg (specialKey KeyEnter)] pathTypedModel)
  /\ Model.replyAttachments
       (after [emailSentMsg] (after [TeaKeyMsg (specialKey KeyEnter)] pathTypedModel))
     = Model.replyAttachments (after [TeaKeyMsg (specialKey KeyEnter)] pathTypedModel).
Proof.
  destruct (after_step (TeaKeyMsg (specialKey KeyEnter)) pathTypedModel) as [c1 H1];
    [discriminate|].
  destruct (after_step emailSentMsg
              (after [TeaKeyMsg (specialKey KeyEnter)] pathTypedModel)) as [c2 H2];
    [discriminate|].
  split.
  - exact (draft_attachments_stack plainGo inertBubbles sampleOS _ _ _ c1 H1).
  - destruct (draft_attachments_stack plainGo inertBubbles sampleOS _ _ _ c2 H2)
      as [_ Hsent].
    apply Hsent. reflexivity.
Defined.

Example draft_attachments_pushed :
  Model.composeAttachments pathTypedModel = []
  /\ typedPath pathTypedModel = "notes.txt"
  /\ Model.composeAttachments (after [TeaKeyMsg (specialKey KeyEnter)] pathTypedModel)
     = ["notes.txt"]
  /\ Model.composeAttachments
       (after [TeaKeyMsg (specialKey KeyEnter); emailSentMsg;
               TeaKeyMsg (runeKey "c")] pathTypedModel)
     = ["notes.txt"].
Proof. repeat split; reflexivity. Qed.

(** ** Lists of items *)

Module ListFacts.

Section WithGo.

Variable go : GoLib.

(** The loop that builds a list of items appends the items of the messages
    whose fetch succeeds. *)
Lemma items_loop (srv : option Service) (minimal : bool) (messages : list Message) :
  forall acc : list emailItem,
    fold_left (fun items message =>
                 match createEmailItem go srv (Id message) minimal with
                 | Some item => (items ++ [item])%list
                 | None => items
                 end) messages acc
    = (acc ++ itemsOf go srv minimal messages)%list.
Proof.
  unfold itemsOf.
  induction messages as [|msg rest IH]; intros acc; cbn [fold_left flat_map].
  - rewrite List.app_nil_r. reflexivity.
  - rewrite IH. destruct (createEmailItem go srv (Id msg) minimal) as [item|].
    + rewrite <- List.app_assoc. reflexivity.
    + reflexivity.
Qed.

End WithGo.

(** A key of type enter is bound neither to back nor to help. *)
Lemma enter_key (k : KeyMsg) :
  keyType k = KeyEnter ->
  Matches k (Back keys) = false
  /\ Matches k (ShowHelp keys) = false
  /\ Matches k (CloseHelp keys) = false.
Proof.
  intros Hk. unfold Matches, keyString. rewrite Hk.
  destruct (Alt k); repeat split; reflexivity.
Qed.

End ListFacts.

(** X7.  The list of the inbox is rebuilt from start-up and from every
    search result alike: it holds, in the order of the messages, one item
    for each message whose fetch succeeds, and the messages whose fetch
    fails or returns nothing are left out without notice.  At start-up the
    items are fetched in full format, after a search in minimal format;
    the cursor of the list and the rest of the model are left as they
    are. *)
Theorem inbox_items (go : GoLib) (ui : Bubbles) (os : OS) (srv : option Service)
        (labels : list Label) (messages : list Message) (m : model) :
  listItems (Model.list (initialModel go messages srv labels))
  = itemsOf go srv false messages
  /\ Update go ui os (searchResultMsg messages) m
     = Some (Upd.state stateInbox
               (Upd.list (SetItems (Model.list m)
                                   (itemsOf go (Model.srv m) true messages)) m),
             CmdNil)
  /\ (List.length (itemsOf go srv false messages) <= List.length messages)%nat.
Proof.
  split; [|split].
  - unfold initialModel. cbn [Model.list listItems].
    rewrite ListFacts.items_loop. reflexivity.
  - cbn [Update]. unfold handleSearchResult. rewrite ListFacts.items_loop.
    reflexivity.
  - unfold itemsOf. induction messages as [|msg rest IH]; cbn [flat_map List.length]; [lia|].
    rewrite List.length_app.
    destruct (createEmailItem go srv (Id msg) false); cbn [List.length]; lia.
Qed.

(** ** Searching and labels *)

(** X8.  In the search form, a key of type enter starts the search for the
    text of the form, whatever it is: the text is stored as the query, the
    session waits in Loading and the search for that text is issued with
    the spinner.  When the service answers the search (asked for at most 30
    messages), its completion brings the session to the inbox with the list
    rebuilt from the answer. *)
Theorem search_flow (go : GoLib) (ui : Bubbles) (os : OS) (m : model) (k : KeyMsg)
        (srv : Service) (messages : list Message) :
  Model.state m = stateSearching ->
  keyType k = KeyEnter ->
  Model.srv m = Some srv ->
  messagesList srv (tiValue (Model.searchInput m)) 30 = Ok messages ->
  exists m1 m2 : model,
    Update go ui os (TeaKeyMsg k) m
    = Some (m1, Batch [spinnerTick; CmdPerformSearch (tiValue (Model.searchInput m))])
    /\ Model.state m1 = stateLoading
    /\ Model.searchQuery m1 = tiValue (Model.searchInput m)
    /\ performSearch srv (Model.searchQuery m1) = searchResultMsg messages
    /\ Update go ui os (searchResultMsg messages) m1 = Some (m2, CmdNil)
    /\ Model.state m2 = stateInbox
    /\ listItems (Model.list m2) = itemsOf go (Some srv) true messages.
Proof.
  intros Hst Hk Hsrv Hlist.
  destruct (ListFacts.enter_key k Hk) as (Hb & Hh & Hc).
  eexists. eexists. split.
  - cbn [Update]. unfold handleKeyPress. rewrite Hh, Hc, !Bool.andb_false_r, Hst.
    unfold updateSearching. rewrite Hb, Hk. reflexivity.
  - split; [reflexivity|]. split; [reflexivity|]. split.
    + cbn [Model.searchQuery Upd.searchQuery Upd.state Model.searchInput].
      unfold performSearch.
      rewrite Hlist. reflexivity.
    + split.
      * cbn [Update]. unfold handleSearchResult. rewrite ListFacts.items_loop.
        reflexivity.
      * split; [reflexivity|].
        cbn [Model.list Upd.list Upd.state SetItems listItems Model.srv Upd.searchQuery].
        rewrite Hsrv. reflexivity.
Qed.

Lemma search_flow_witness :
  exists m1 m2 : model,
    Update plainGo inertBubbles sampleOS (TeaKeyMsg (specialKey KeyEnter))
           (after [TeaKeyMsg (runeKey "/")] sampleModel)
    = Some (m1, Batch [spinnerTick;
                       CmdPerformSearch
                         (tiValue (Model.searchInput
                                     (after [TeaKeyMsg (runeKey "/")] sampleModel)))])
    /\ Model.state m1 = stateLoading
    /\ Model.searchQuery m1
       = tiValue (Model.searchInput (after [TeaKeyMsg (runeKey "/")] sampleModel))
    /\ performSearch sampleService (Model.searchQuery m1)
       = searchResultMsg [sampleMessage false]
    /\ Update plainGo inertBubbles sampleOS (searchResultMsg [sampleMessage false]) m1
       = Some (m2, CmdNil)
    /\ Model.state m2 = stateInbox
    /\ listItems (Model.list m2)
       = itemsOf plainGo (Some sampleService) true [sampleMessage false].
Proof.
  exact (search_flow plainGo inertBubbles sampleOS
           (after [TeaKeyMsg (runeKey "/")] sampleModel) (specialKey KeyEnter)
           sampleService [sampleMessage false] eq_refl eq_refl eq_refl eq_refl).
Defined.

(** X9.  When the labels arrive they are listed in their order; a key
    bound to select then starts the fetch of the messages of the label
    under the cursor, by its id, and the session waits in Loading with
    the spinner; a key bound to back returns to the inbox instead.  Neither
    key changes the list of the inbox. *)
Theorem label_selection (go : GoLib) (ui : Bubbles) (os : OS) (m : model)
        (labels : list Label) (l : Label) (k : KeyMsg) :
  nth_error labels (listIndex (Model.labelsList m)) = Some l ->
  exists m1 : model,
    Update go ui os (labelsLoadedMsg labels) m = Some (m1, CmdNil)
    /\ Model.list m1 = Model.list m
    /\ (Matches k (Select keys) = true ->
        Update go ui os (TeaKeyMsg k) m1
        = Some (Upd.state stateLoading m1,
                Batch [spinnerTick; CmdLoadEmailsByLabel (labelId l)]))
    /\ (Matches k (Back keys) = true ->
        Update go ui os (TeaKeyMsg k) m1 = Some (Upd.state stateInbox m1, CmdNil)).
Proof.
  intros Hl. eexists. split; [reflexivity|]. split; [reflexivity|]. split.
  - intros Hk. apply KeyFacts.Matches_single in Hk.
    cbn [Update]. unfold handleKeyPress, updateLabelManagement.
    rewrite !(KeyFacts.Matches_string k "enter") by exact Hk.
    cbn [keys ShowHelp CloseHelp Back Select existsb String.eqb Ascii.eqb Bool.eqb
         orb andb].
    rewrite !Bool.andb_false_r.
    cbn [Model.state Upd.state Upd.labelsList Upd.labels Model.labelsList].
    unfold SelectedItem. cbn [SetItems listItems listIndex].
    rewrite nth_error_map, Hl. reflexivity.
  - intros Hk. pose proof (PickerKeys.back_key_not_help k Hk) as Hh.
    cbn [Update]. unfold handleKeyPress, updateLabelManagement.
    change (CloseHelp keys) with (ShowHelp keys).
    rewrite Hh, !Bool.andb_false_r.
    cbn [Model.state Upd.state Upd.labelsList Upd.labels].
    rewrite Hk. reflexivity.
Qed.

Lemma label_selection_witness :
  exists m1 : model,
    Update plainGo inertBubbles sampleOS (labelsLoadedMsg sampleLabels) sampleModel
    = Some (m1, CmdNil)
    /\ Model.list m1 = Model.list sampleModel
    /\ Update plainGo inertBubbles sampleOS (TeaKeyMsg (specialKey KeyEnter)) m1
       = Some (Upd.state stateLoading m1,
               Batch [spinnerTick; CmdLoadEmailsByLabel "INBOX"]).
Proof.
  destruct (label_selection plainGo inertBubbles sampleOS sampleModel sampleLabels
              (mkLabel "INBOX" "INBOX") (specialKey KeyEnter) eq_refl)
    as (m1 & H1 & H2 & H3 & _).
  exists m1. split; [exact H1|]. split; [exact H2|]. apply H3. reflexivity.
Defined.

(** ** Items *)

Module FieldFacts.

Section WithGo.

Variable go : GoLib.

Lemma sameHeaders_refl (a : emailItem) : sameHeaders a a.
Proof. repeat split. Qed.

Lemma sameHeaders_trans (a b c : emailItem) :
  sameHeaders a b -> sameHeaders b c -> sameHeaders a c.
Proof.
  unfold sameHeaders. intros (H1 & H2 & H3 & H4 & H5 & H6) (G1 & G2 & G3 & G4 & G5 & G6).
  repeat split; congruence.
Qed.

Lemma sameMarks_trans (a b c : emailItem) :
  sameMarks a b -> sameMarks b c -> sameMarks a c.
Proof.
  unfold sameMarks. intros (H1 & H2 & H3 & H4) (G1 & G2 & G3 & G4).
  repeat split; congruence.
Qed.

Lemma sameMarks_setHeader (item : emailItem) (h : MessagePartHeader) :
  sameMarks (setHeader go item h) item.
Proof.
  unfold setHeader.
  repeat match goal with
         | |- context [if ?b then _ else _] => destruct b
         end; repeat split.
Qed.

Lemma sameMarks_headers (hs : list MessagePartHeader) (item : emailItem) :
  sameMarks (fold_left (setHeader go) hs item) item.
Proof.
  revert item. induction hs as [|h hs IH]; intros item; cbn [fold_left].
  - repeat split.
  - eapply sameMarks_trans; [apply IH | apply sameMarks_setHeader].
Qed.

Lemma sameHeaders_labels (ls : list string) (item : emailItem) :
  sameHeaders (fold_left addLabel ls item) item.
Proof.
  revert item. induction ls as [|l ls IH]; intros item; cbn [fold_left].
  - apply sameHeaders_refl.
  - eapply sameHeaders_trans; [apply IH | repeat split].
Qed.

(** The labels are appended in order; the item is unread as soon as one
    of them is UNREAD. *)
Lemma marks_labels (ls : list string) (item : emailItem) :
  id (fold_left addLabel ls item) = id item
  /\ threadId (fold_left addLabel ls item) = threadId item
  /\ labels (fold_left addLabel ls item) = (labels item ++ ls)%list
  /\ isUnread (fold_left addLabel ls item)
     = (isUnread item || existsb (fun l => String.eqb l "UNREAD") ls)%bool.
Proof.
  revert item. induction ls as [|l ls IH]; intros item; cbn [fold_left existsb].
  - rewrite List.app_nil_r, Bool.orb_false_r. repeat split.
  - destruct (IH (addLabel item l)) as (H1 & H2 & H3 & H4).
    rewrite H1, H2, H3, H4. cbn [addLabel id threadId labels isUnread].
    rewrite <- List.app_assoc. repeat split.
    destruct (String.eqb l "UNREAD"), (isUnread item); reflexivity.
Qed.

Lemma lastHeader_snoc (name : string) (hs : list MessagePartHeader)
      (h : MessagePartHeader) :
  lastHeader name (hs ++ [h])
  = if String.eqb (Name h) name then Some (Value h) else lastHeader name hs.
Proof.
  unfold lastHeader. rewrite List.rev_app_distr. cbn [List.rev List.app find].
  destruct (String.eqb (Name h) name); reflexivity.
Qed.

Ltac header_case n :=
  destruct (String.eqb_spec n "Subject") as [-> | _];
  [ | destruct (String.eqb_spec n "From") as [-> | _];
      [ | destruct (String.eqb_spec n "Date") as [-> | _];
          [ | destruct (String.eqb_spec n "To") as [-> | _];
              [ | destruct (String.eqb_spec n "Cc") as [-> | _];
                  [ | destruct (String.eqb_spec n "Bcc") as [-> | _] ] ] ] ] ].

(** Each field read from the headers holds the value of the last header
    of its name. *)
Lemma headers_fold (hs : list MessagePartHeader) (item : emailItem) :
  subject (fold_left (setHeader go) hs item)
  = orElse (lastHeader "Subject" hs) (subject item)
  /\ from (fold_left (setHeader go) hs item)
     = orElse (lastHeader "From" hs) (from item)
  /\ date (fold_left (setHeader go) hs item)
     = orElse (option_map (formatDate go) (lastHeader "Date" hs)) (date item)
  /\ recipient (fold_left (setHeader go) hs item)
     = orElse (lastHeader "To" hs) (recipient item)
  /\ cc (fold_left (setHeader go) hs item)
     = orElse (lastHeader "Cc" hs) (cc item)
  /\ bcc (fold_left (setHeader go) hs item)
     = orElse (lastHeader "Bcc" hs) (bcc item).
Proof.
  induction hs as [|h hs IH] using List.rev_ind.
  - repeat split.
  - rewrite List.fold_left_app. cbn [fold_left]. rewrite !lastHeader_snoc.
    destruct IH as (H1 & H2 & H3 & H4 & H5 & H6).
    set (r := fold_left (setHeader go) hs item) in *.
    unfold setHeader. destruct h as [n v]. cbn [Name Value].
    header_case n;
      cbn [String.eqb Ascii.eqb Bool.eqb andb subject from date recipient cc bcc
           orElse option_map];
      repeat split; assumption.
Qed.

Lemma body_labels (ls : list string) (item : emailItem) :
  body (fold_left addLabel ls item) = body item
  /\ attachments (fold_left addLabel ls item) = attachments item.
Proof.
  revert item. induction ls as [|l ls IH]; intros item; cbn [fold_left].
  - split; reflexivity.
  - destruct (IH (addLabel item l)) as [H1 H2]. rewrite H1, H2. split; reflexivity.
Qed.

(** The truncation of the snippet touches no other field. *)
Lemma truncate_fields (a : emailItem) :
  let r := if (80 <? String.length (snippet a))%nat
           then setSnippet a (take 77 (snippet a) ++ "...")
           else a in
  sameHeaders r a /\ sameMarks r a
  /\ body r = body a /\ attachments r = attachments a.
Proof.
  cbv zeta. destruct (80 <? String.length (snippet a))%nat; repeat split.
Qed.

(** The item of a message that the service returns. *)
Lemma createEmailItem_ok (srv : Service) (msgID : string) (minimal : bool)
      (msg : Message) :
  messagesGet srv msgID (if minimal then "minimal" else "full") = GetOk msg ->
  exists item : emailItem,
    createEmailItem go (Some srv) msgID minimal = Some item
    /\ id item = Id msg /\ threadId item = ThreadId msg
    /\ labels item = LabelIds msg
    /\ isUnread item = existsb (fun l => String.eqb l "UNREAD") (LabelIds msg)
    /\ (forall p : MessagePart,
           Payload msg = Some p ->
           sameHeaders item (fold_left (setHeader go) (Headers p)
                               (mkEmailItem (Id msg) (ThreadId msg) EmptyString
                                  EmptyString (Snippet msg) EmptyString [] false
                                  EmptyString EmptyString EmptyString EmptyString []))
           /\ (minimal = false ->
               body item = extractPlainText go p
               /\ attachments item = findAttachments p)).
Proof.
  intros Hget. unfold createEmailItem. rewrite Hget.
  set (item0 := mkEmailItem (Id msg) (ThreadId msg) EmptyString EmptyString
                  (Snippet msg) EmptyString [] false EmptyString EmptyString
                  EmptyString EmptyString []).
  set (withPayload := match Payload msg with
                      | Some payload => _
                      | None => item0
                      end).
  set (labelled := fold_left addLabel (LabelIds msg) withPayload).
  eexists. split; [reflexivity|].
  destruct (truncate_fields labelled) as (Th & (T1 & T2 & T3 & T4) & Tb & Ta).
  cbv zeta in Th, T1, T2, T3, T4, Tb, Ta.
  destruct (marks_labels (LabelIds msg) withPayload) as (L1 & L2 & L3 & L4).
  fold labelled in L1, L2, L3, L4.
  assert (Hw : sameMarks withPayload item0).
  { subst withPayload. destruct (Payload msg) as [p|]; [|repeat split].
    destruct (negb minimal).
    - eapply sameMarks_trans; [|apply sameMarks_headers]. repeat split.
    - apply sameMarks_headers. }
  destruct Hw as (W1 & W2 & W3 & W4).
  split; [rewrite T1, L1, W1; reflexivity|].
  split; [rewrite T2, L2, W2; reflexivity|].
  split; [rewrite T3, L3, W3; reflexivity|].
  split; [rewrite T4, L4, W4; reflexivity|].
  intros p Hp.
  destruct (body_labels (LabelIds msg) withPayload) as [B1 B2].
  fold labelled in B1, B2.
  pose proof (sameHeaders_labels (LabelIds msg) withPayload) as SL.
  fold labelled in SL.
  subst withPayload. rewrite Hp in *. split.
  - eapply sameHeaders_trans; [exact Th|]. eapply sameHeaders_trans; [exact SL|].
    destruct (negb minimal); repeat split.
  - intros ->. cbn [negb] in *. rewrite Tb, Ta, B1, B2. split; reflexivity.
Qed.

End WithGo.

End FieldFacts.

(** X10.  createEmailItem returns nothing exactly when there is no
    service, or the fetch of the message fails or returns no message.  For
    a message that is returned, the item carries its id, its thread id and
    its labels in their order, and it is marked unread exactly when one of
    the labels is UNREAD, in this spelling. *)
Theorem createEmailItem_marks (go : GoLib) (srv : option Service) (msgID : string)
        (minimal : bool) :
  (createEmailItem go srv msgID minimal = None <->
   match srv with
   | None => True
   | Some s =>
       match messagesGet s msgID (if minimal then "minimal" else "full") with
       | GetOk _ => False
       | _ => True
       end
   end)
  /\ (forall (s : Service) (msg : Message),
         srv = Some s ->
         messagesGet s msgID (if minimal then "minimal" else "full") = GetOk msg ->
         exists item : emailItem,
           createEmailItem go srv msgID minimal = Some item
           /\ id item = Id msg /\ threadId item = ThreadId msg
           /\ labels item = LabelIds msg
           /\ (isUnread item = true <-> In "UNREAD" (LabelIds msg))).
Proof.
  split.
  - destruct srv as [s|]; [|split; [intros _; exact I | reflexivity]].
    destruct (messagesGet s msgID (if minimal then "minimal" else "full"))
      as [e| |msg] eqn:Hget.
    + unfold createEmailItem. rewrite Hget. split; [intros _; exact I | reflexivity].
    + unfold createEmailItem. rewrite Hget. split; [intros _; exact I | reflexivity].
    + destruct (FieldFacts.createEmailItem_ok go s msgID minimal msg Hget)
        as (item & Hitem & _).
      rewrite Hitem. split; [discriminate | contradiction].
  - intros s msg -> Hget.
    destruct (FieldFacts.createEmailItem_ok go s msgID minimal msg Hget)
      as (item & Hitem & H1 & H2 & H3 & H4 & _).
    exists item. repeat split; try assumption.
    + rewrite H4. intros H. apply existsb_exists in H. destruct H as (l & Hin & Hl).
      apply String.eqb_eq in Hl. subst l. exact Hin.
    + rewrite H4. intros H. apply existsb_exists. exists "UNREAD".
      split; [exact H | reflexivity].
Qed.

Example createEmailItem_marks_sample :
  createEmailItem plainGo (Some failingService) "m1" true = None
  /\ createEmailItem plainGo None "m1" true = None
  /\ option_map isUnread (createEmailItem plainGo (Some sampleService) "m1" true)
     = Some true
  /\ option_map labels (createEmailItem plainGo (Some sampleService) "m1" true)
     = Some ["INBOX"; "UNREAD"].
Proof. repeat split; reflexivity. Qed.

(** X11.  For a message that is returned with a payload, the subject, the
    sender, the recipient and the copy fields of the item hold the value of
    the last header named Subject, From, To, Cc and Bcc (in this spelling),
    and are empty when there is none; the date holds the formatted value of
    the last Date header.  In full format the body is the text extracted
    from the payload and the attachments are those found in it. *)
Theorem createEmailItem_headers (go : GoLib) (srv : Service) (msgID : string)
        (minimal : bool) (msg : Message) (p : MessagePart) :
  messagesGet srv msgID (if minimal then "minimal" else "full") = GetOk msg ->
  Payload msg = Some p ->
  exists item : emailItem,
    createEmailItem go (Some srv) msgID minimal = Some item
    /\ subject item = orElse (lastHeader "Subject" (Headers p)) EmptyString
    /\ from item = orElse (lastHeader "From" (Headers p)) EmptyString
    /\ recipient item = orElse (lastHeader "To" (Headers p)) EmptyString
    /\ cc item = orElse (lastHeader "Cc" (Headers p)) EmptyString
    /\ bcc item = orElse (lastHeader "Bcc" (Headers p)) EmptyString
    /\ date item
       = orElse (option_map (formatDate go) (lastHeader "Date" (Headers p))) EmptyString
    /\ (minimal = false ->
        body item = extractPlainText go p /\ attachments item = findAttachments p).
Proof.
  intros Hget Hp.
  destruct (FieldFacts.createEmailItem_ok go srv msgID minimal msg Hget)
    as (item & Hitem & _ & _ & _ & _ & Hpayload).
  destruct (Hpayload p Hp) as [(S1 & S2 & S3 & S4 & S5 & S6) Hfull].
  destruct (FieldFacts.headers_fold go (Headers p)
              (mkEmailItem (Id msg) (ThreadId msg) EmptyString EmptyString
                 (Snippet msg) EmptyString [] false EmptyString EmptyString
                 EmptyString EmptyString []))
    as (F1 & F2 & F3 & F4 & F5 & F6).
  exists item. split; [exact Hitem|].
  rewrite S1, S2, S3, S4, S5, S6, F1, F2, F3, F4, F5, F6.
  repeat split; try reflexivity; apply Hfull; assumption.
Qed.

Lemma createEmailItem_headers_witness :
  exists item : emailItem,
    createEmailItem plainGo (Some sampleService) "m1" false = Some item
    /\ subject item = orElse (lastHeader "Subject" (Headers samplePayload)) EmptyString
    /\ from item = orElse (lastHeader "From" (Headers samplePayload)) EmptyString
    /\ recipient item = orElse (lastHeader "To" (Headers samplePayload)) EmptyString
    /\ cc item = orElse (lastHeader "Cc" (Headers samplePayload)) EmptyString
    /\ bcc item = orElse (lastHeader "Bcc" (Headers samplePayload)) EmptyString
    /\ date item
       = orElse (option_map (formatDate plainGo) (lastHeader "Date" (Headers samplePayload)))
                EmptyString
    /\ (false = false ->
        body item = extractPlainText plainGo samplePayload
        /\ attachments item = findAttachments samplePayload).
Proof.
  exact (createEmailItem_headers plainGo sampleService "m1" false (sampleMessage true)
           samplePayload eq_refl eq_refl).
Defined.

(** ** The text of a message *)

Module TextFacts.

Lemma multipart_not_text (s t : string) :
  t = "text/plain" \/ t = "text/html" ->
  HasPrefix s "multipart/" = true -> String.eqb s t = false.
Proof.
  intros Ht H. destruct (String.eqb_spec s t) as [E|]; [|reflexivity].
  subst s. destruct Ht as [-> | ->]; discriminate H.
Qed.

Section WithScan.

Variable extract : MessagePart -> string.
Variable mime : string.

(** The scan stops at the first part of the type with a text. *)
Lemma scanParts_first (pre post : list MessagePart) (p : MessagePart) :
  MimeType p = mime ->
  isEmpty (extract p) = false ->
  (forall q, In q pre -> MimeType q = mime -> extract q = EmptyString) ->
  scanParts extract mime (pre ++ p :: post) = Some (extract p).
Proof.
  intros Hm Hp. induction pre as [|q pre IH]; intros Hpre; cbn [List.app scanParts].
  - rewrite Hm, String.eqb_refl, Hp. reflexivity.
  - destruct (String.eqb_spec (MimeType q) mime) as [E|_].
    + rewrite (Hpre q (or_introl eq_refl) E). cbn [isEmpty negb].
      apply IH. intros r Hr. apply Hpre. right. exact Hr.
    + apply IH. intros r Hr. apply Hpre. right. exact Hr.
Qed.

Lemma scanParts_none (ps : list MessagePart) :
  (forall q, In q ps -> MimeType q = mime -> extract q = EmptyString) ->
  scanParts extract mime ps = None.
Proof.
  induction ps as [|q ps IH]; intros H; cbn [scanParts]; [reflexivity|].
  destruct (String.eqb_spec (MimeType q) mime) as [E|_].
  - rewrite (H q (or_introl eq_refl) E). cbn [isEmpty negb].
    apply IH. intros r Hr. apply H. right. exact Hr.
  - apply IH. intros r Hr. apply H. right. exact Hr.
Qed.

End WithScan.

Section WithGo.

Variable go : GoLib.

(** extractPlainText on a multipart with parts. *)
Lemma extractPlainText_multipart (payload : MessagePart) :
  HasPrefix (MimeType payload) "multipart/" = true ->
  Parts payload <> [] ->
  extractPlainText go payload
  = match scanParts (extractPlainText go) "text/plain" (Parts payload) with
    | Some text => text
    | None =>
        match scanParts (extractPlainText go) "text/html" (Parts payload) with
        | Some text => text
        | None => EmptyString
        end
    end.
Proof.
  intros Hm Hps. destruct payload as [mt fn hs b ps]. cbn [MimeType Parts] in *.
  cbn [extractPlainText MimeType Parts Body].
  rewrite (multipart_not_text mt "text/plain" (or_introl eq_refl) Hm).
  rewrite (multipart_not_text mt "text/html" (or_intror eq_refl) Hm).
  rewrite Hm. destruct ps as [|p ps]; [congruence|].
  cbn [List.length Nat.ltb Nat.leb andb].
  destruct (scanParts _ "text/plain" (p :: ps)); [reflexivity|].
  destruct (scanParts _ "text/html" (p :: ps)); reflexivity.
Qed.

Lemma extractPlainText_empty_multipart (payload : MessagePart) :
  HasPrefix (MimeType payload) "multipart/" = true ->
  Parts payload = [] ->
  extractPlainText go payload = EmptyString.
Proof.
  intros Hm Hps. destruct payload as [mt fn hs b ps]. cbn [MimeType Parts] in *.
  subst ps. cbn [extractPlainText MimeType Parts Body].
  rewrite (multipart_not_text mt "text/plain" (or_introl eq_refl) Hm).
  rewrite (multipart_not_text mt "text/html" (or_intror eq_refl) Hm).
  rewrite Hm. reflexivity.
Qed.

End WithGo.

End TextFacts.

(** X12.  The text of a multipart is the text of its first direct part of
    type text/plain that has one, wherever its HTML parts stand; when no
    direct part of type text/plain has a text, it is the text of the first
    direct part of type text/html that has one. *)
Theorem extractPlainText_prefers_plain (go : GoLib) (payload p : MessagePart)
        (pre post : list MessagePart) :
  HasPrefix (MimeType payload) "multipart/" = true ->
  Parts payload = (pre ++ p :: post)%list ->
  isEmpty (extractPlainText go p) = false ->
  (forall q, In q pre -> MimeType q = MimeType p -> extractPlainText go q = EmptyString) ->
  MimeType p = "text/plain"
  \/ (MimeType p = "text/html"
      /\ forall q, In q (Parts payload) -> MimeType q = "text/plain" ->
                   extractPlainText go q = EmptyString) ->
  extractPlainText go payload = extractPlainText go p.
Proof.
  intros Hm Hps Hp Hpre Hkind.
  rewrite TextFacts.extractPlainText_multipart; [|exact Hm|].
  - rewrite Hps in *. destruct Hkind as [Hplain | [Hhtml Hnone]].
    + rewrite (TextFacts.scanParts_first (extractPlainText go) "text/plain" pre post p
                 Hplain Hp).
      * reflexivity.
      * intros q Hq Hmq. apply Hpre; [exact Hq | congruence].
    + rewrite (TextFacts.scanParts_none (extractPlainText go) "text/plain" _ Hnone).
      rewrite (TextFacts.scanParts_first (extractPlainText go) "text/html" pre post p
                 Hhtml Hp).
      * reflexivity.
      * intros q Hq Hmq. apply Hpre; [exact Hq | congruence].
  - rewrite Hps. destruct pre; discriminate.
Qed.

Lemma extractPlainText_prefers_plain_witness :
  extractPlainText plainGo htmlFirstPart = extractPlainText plainGo plainPart.
Proof.
  apply (extractPlainText_prefers_plain plainGo htmlFirstPart plainPart [htmlPart] []).
  - reflexivity.
  - reflexivity.
  - reflexivity.
  - intros q [<- | []] Hq. discriminate Hq.
  - left. reflexivity.
Defined.

Example extractPlainText_html_first :
  extractPlainText plainGo htmlFirstPart = "hello"
  /\ extractPlainText plainGo htmlPart = "hello"
  /\ decodeBody "PGI-aGVsbG88L2I-" = "<b>hello</b>".
Proof. repeat split; reflexivity. Qed.

(** X13.  The scan never enters a part: a multipart none of whose direct
    parts of type text/plain or text/html has a text yields the empty
    text, whatever lies below its parts. *)
Theorem extractPlainText_direct_only (go : GoLib) (payload : MessagePart) :
  HasPrefix (MimeType payload) "multipart/" = true ->
  (forall q, In q (Parts payload) ->
             MimeType q = "text/plain" \/ MimeType q = "text/html" ->
             extractPlainText go q = EmptyString) ->
  extractPlainText go payload = EmptyString.
Proof.
  intros Hm Hnone. destruct (Parts payload) as [|p ps] eqn:Hps.
  - apply TextFacts.extractPlainText_empty_multipart; assumption.
  - rewrite TextFacts.extractPlainText_multipart; [|exact Hm|rewrite Hps; discriminate].
    rewrite Hps.
    rewrite (TextFacts.scanParts_none (extractPlainText go) "text/plain").
    + rewrite (TextFacts.scanParts_none (extractPlainText go) "text/html");
        [reflexivity|].
      intros q Hq Hmq. apply Hnone; [exact Hq | right; exact Hmq].
    + intros q Hq Hmq. apply Hnone; [exact Hq | left; exact Hmq].
Qed.

Lemma extractPlainText_direct_only_witness :
  extractPlainText plainGo
    (mkPart "multipart/mixed" EmptyString [] None [htmlFirstPart; pdfPart])
  = EmptyString.
Proof.
  apply (extractPlainText_direct_only plainGo).
  - reflexivity.
  - intros q [<- | [<- | []]] [Hq | Hq]; discriminate Hq.
Defined.

(** ** Dates *)

Module DateFacts.

(** The loop of formatDate over a list of layouts. *)
Lemma try_layouts (go : GoLib) (d : string) (fs : list string) :
  (forall (pre post : list string) (f : string) (t : instant go),
      fs = (pre ++ f :: post)%list ->
      (forall g, In g pre -> timeParse go g d = None) ->
      timeParse go f d = Some t ->
      (fix try (fs : list string) : string :=
         match fs with
         | [] => d
         | format :: rest =>
             match timeParse go format d with
             | Some t => timeFormat go t "Jan 02, 2006 15:04"
             | None => try rest
             end
         end) fs = timeFormat go t "Jan 02, 2006 15:04")
  /\ ((forall f, In f fs -> timeParse go f d = None) ->
      (fix try (fs : list string) : string :=
         match fs with
         | [] => d
         | format :: rest =>
             match timeParse go format d with
             | Some t => timeFormat go t "Jan 02, 2006 15:04"
             | None => try rest
             end
         end) fs = d).
Proof.
  induction fs as [|g fs [IH1 IH2]]; split.
  - intros pre post f t E. destruct pre; discriminate E.
  - reflexivity.
  - intros pre post f t E Hpre Hf. destruct pre as [|g' pre].
    + cbn [List.app] in E. injection E as -> ->. rewrite Hf. reflexivity.
    + cbn [List.app] in E. injection E as -> ->.
      rewrite (Hpre g' (or_introl eq_refl)).
      apply (IH1 pre post f t eq_refl); [|exact Hf].
      intros h Hh. apply Hpre. right. exact Hh.
  - intros H. rewrite (H g (or_introl eq_refl)). apply IH2.
    intros f Hf. apply H. right. exact Hf.
Qed.

End DateFacts.

(** X14.  formatDate tries the six layouts in their order and formats the
    date by the first that parses it, whatever the later ones would do; a
    date that no layout parses is returned as it is. *)
Theorem formatDate_first_layout (go : GoLib) (d : string) :
  (forall (pre post : list string) (f : string) (t : instant go),
      formats = (pre ++ f :: post)%list ->
      (forall g, In g pre -> timeParse go g d = None) ->
      timeParse go f d = Some t ->
      formatDate go d = timeFormat go t "Jan 02, 2006 15:04")
  /\ ((forall f, In f formats -> timeParse go f d = None) -> formatDate go d = d).
Proof. exact (DateFacts.try_layouts go d formats). Qed.

Example formatDate_sample :
  formatDate clockGo "Mon, 02 Jan 2006 15:04:05 -0700" = "Jan 02, 2006 15:04"
  /\ formatDate clockGo "yesterday" = "yesterday"
  /\ formatDate plainGo "Mon, 02 Jan 2006 15:04:05 -0700"
     = "Mon, 02 Jan 2006 15:04:05 -0700".
Proof. repeat split; reflexivity. Qed.

(** ** Quoting *)

Module QuoteFacts.

Lemma Join_cons (c : ascii) (l : string) (ls : list string) (sep : string) :
  Join (String c l :: ls) sep = String c (Join (l :: ls) sep).
Proof. destruct ls; reflexivity. Qed.

Lemma Join_Split (sep : ascii) (s : string) :
  Join (Split sep s) (String sep EmptyString) = s.
Proof.
  induction s as [|c t IH]; cbn [Split]; [reflexivity|].
  destruct (Ascii.eqb_spec c sep) as [-> | _].
  - pose proof (LineFacts.Split_nonempty sep t) as Hne.
    destruct (Split sep t) as [|l ls]; [congruence|].
    change (Join (EmptyString :: l :: ls) (String sep EmptyString))
      with (String sep (Join (l :: ls) (String sep EmptyString))).
    rewrite IH. reflexivity.
  - pose proof (LineFacts.Split_nonempty sep t) as Hne.
    destruct (Split sep t) as [|l ls]; [congruence|].
    rewrite Join_cons, IH. reflexivity.
Qed.

End QuoteFacts.

(** X15.  Quoting loses nothing: the quoted text has as many lines as the
    text, each begins with the quote mark, and taking the first two bytes
    off every line of the quoted text gives the text back. *)
Theorem indentText_unquote (text : string) :
  unquote (indentText text) = text
  /\ List.length (Split LF (indentText text)) = List.length (Split LF text)
  /\ Forall (fun line => HasPrefix line "> " = true) (Split LF (indentText text)).
Proof.
  unfold unquote. rewrite LineFacts.indentText_lines. split; [|split].
  - rewrite List.map_map.
    rewrite (List.map_ext _ (fun l => l)) by reflexivity.
    rewrite List.map_id. apply QuoteFacts.Join_Split.
  - apply List.length_map.
  - apply Forall_map. apply Forall_forall. intros l _. destruct l; reflexivity.
Qed.

(** ** Sending a draft whose file cannot be read *)

Module ReadFacts.

Section WithWorld.

Variable go : GoLib.
Variable os : OS.

Lemma addAttachment_unreadable (filePath : string) :
  fileSize os filePath = None ->
  exists e : error, addAttachment go os filePath = Err e.
Proof.
  unfold fileSize, addAttachment.
  destruct (osOpen os filePath) as [file|e]; [|eexists; reflexivity].
  destruct (Stat file) as [sz|e]; [discriminate | eexists; reflexivity].
Qed.

Lemma addAttachments_unreadable (attachments : list string) (filePath : string) :
  In filePath attachments -> fileSize os filePath = None ->
  exists e : error, addAttachments go os attachments = Err e.
Proof.
  intros Hin Hbad. induction attachments as [|p rest IH]; [contradiction|].
  cbn [addAttachments]. destruct Hin as [-> | Hin].
  - destruct (addAttachment_unreadable filePath Hbad) as [e ->]. eexists. reflexivity.
  - destruct (addAttachment go os p) as [part|e]; cbn [bind].
    + destruct (IH Hin) as [e ->]. eexists. reflexivity.
    + eexists. reflexivity.
Qed.

End WithWorld.

End ReadFacts.

(** X16.  A draft one of whose attachment files cannot be opened, or
    cannot be sized, is never sent: sendEmail completes with a failure and
    issues no send call, wherever the file stands in the list.  When the
    steps before it succeed and it is the first such file, the failure is
    that of the open, behind [failed to open attachment: ]. *)
Theorem sendEmail_unreadable (go : GoLib) (os : OS) (srv : Service)
        (to cc bcc subject body : string) (attachments : list string)
        (filePath : string) :
  In filePath attachments ->
  fileSize os filePath = None ->
  (exists e : error,
      sendEmail go os srv to cc bcc subject body attachments
      = (emailLoadErrorMsg e, []))
  /\ (forall (post : list string) (e : error),
         attachments = filePath :: post ->
         ioFault os CreateTemp = None -> ioFault os WriteHeaders = None ->
         ioFault os WriteBody = None ->
         osOpen os filePath = Err e ->
         sendEmail go os srv to cc bcc subject body attachments
         = (emailLoadErrorMsg ("failed to open attachment: " ++ e), [])).
Proof.
  intros Hin Hbad. split.
  - destruct (ReadFacts.addAttachments_unreadable go os attachments filePath Hin Hbad)
      as [e He].
    destruct (SendFacts.assemble_error go os to cc bcc subject body attachments e He)
      as [e' He'].
    unfold sendEmail. rewrite He'. eexists. reflexivity.
  - intros post e -> H1 H2 H3 Hopen.
    unfold sendEmail, assemble, step. rewrite H1, H2, H3. cbn [bind addAttachments].
    unfold addAttachment. rewrite Hopen. reflexivity.
Qed.

Lemma sendEmail_unreadable_witness :
  (exists e : error,
      sendEmail plainGo sampleOS sampleService "ann@example.com" EmptyString EmptyString
                "Report" "hello" ["gone.txt"; "notes.txt"]
      = (emailLoadErrorMsg e, []))
  /\ sendEmail plainGo sampleOS sampleService "ann@example.com" EmptyString EmptyString
               "Report" "hello" ["gone.txt"; "notes.txt"]
     = (emailLoadErrorMsg
          ("failed to open attachment: "
           ++ "open gone.txt: no such file or directory"), []).
Proof.
  destruct (sendEmail_unreadable plainGo sampleOS sampleService "ann@example.com"
              EmptyString EmptyString "Report" "hello" ["gone.txt"; "notes.txt"]
              "gone.txt" (or_introl eq_refl) eq_refl) as [H1 H2].
  split; [exact H1|].
  apply (H2 ["notes.txt"]); reflexivity.
Defined.

(** ** Start-up *)

(** X17.  Start-up fails when the service cannot be built or the inbox
    cannot be listed, with the cause behind a fixed prefix; a failure of
    the label fetch is not fatal: the program then starts with no labels.
    The program starts in the Inbox state, on the service, with the items
    of the (at most 10) listed messages fetched in full format, no opened
    message, empty drafts and the first compose field numbered. *)
Theorem run_startup (go : GoLib) (ui : Bubbles) (auth : result Service) :
  (forall e : error,
      auth = Err e -> Main.run go auth = Err ("failed to initialize Gmail service: " ++ e))
  /\ (forall (srv : Service) (e : error),
         auth = Ok srv ->
         messagesList srv inboxQuery 10 = Err e ->
         Main.run go auth = Err ("failed to fetch inbox messages: " ++ e))
  /\ (forall (srv : Service) (messages : list Message),
         auth = Ok srv ->
         messagesList srv inboxQuery 10 = Ok messages ->
         exists m : model,
           Main.run go auth = Ok m
           /\ reachable go ui m
           /\ Model.state m = stateInbox
           /\ Model.srv m = Some srv
           /\ listItems (Model.list m) = itemsOf go (Some srv) false messages
           /\ Model.labels m
              = match labelsList srv with
                | Ok labels => labels
                | Err _ => []
                end
           /\ Model.currentMsg m = None
           /\ Model.composeAttachments m = [] /\ Model.replyAttachments m = []
           /\ Model.focused m = 0).
Proof.
  split; [|split].
  - intros e ->. reflexivity.
  - intros srv e -> H. unfold Main.run, Main.fetchInboxMessages.
    change defaultMaxResults with 10. rewrite H. reflexivity.
  - intros srv messages -> H. unfold Main.run, Main.fetchInboxMessages, Main.fetchLabels.
    change defaultMaxResults with 10. rewrite H.
    assert (E : (if (List.length messages =? 0)%nat then Ok [] else Ok messages)
                = Ok messages).
    { destruct messages; reflexivity. }
    rewrite E. eexists. split; [reflexivity|]. split; [apply reach_init|].
    split; [reflexivity|]. split; [reflexivity|]. split.
    + unfold initialModel. cbn [Model.list listItems].
      rewrite ListFacts.items_loop. reflexivity.
    + split; [|repeat split]. cbn [initialModel Model.labels].
      destruct (labelsList srv); reflexivity.
Qed.

Example run_startup_sample :
  match Main.run plainGo (Ok sampleService) with
  | Ok m => listItems (Model.list m) = [sampleItem] /\ Model.labels m = sampleLabels
  | Err _ => False
  end
  /\ match Main.run plainGo
             (Ok (mkService (messagesGet sampleService) (messagesList sampleService)
                            (messagesListByLabel sampleService) (Err "backendError")
                            (messagesSend sampleService) (messagesTrash sampleService)
                            (messagesModify sampleService)
                            (attachmentsGet sampleService))) with
     | Ok m => listItems (Model.list m) = [sampleItem] /\ Model.labels m = []
     | Err _ => False
     end
  /\ Main.run plainGo (Ok failingService)
     = Err "failed to fetch inbox messages: backendError".
Proof. repeat split; reflexivity. Qed.

(** ** Downloads *)

Module DownloadFacts.

Import Base64.

Lemma raw_alphabet :
  forall i, 0 <= i < 64 -> decodeMap RawURLEncoding (encodeChar RawURLEncoding i) = i.
Proof. apply Base64Facts.decodeMap_encodeChar. right. reflexivity. Qed.

(** The decoder without padding rejects what the encoder with padding
    writes for a number of bytes that is no multiple of three. *)
Lemma raw_rejects_padded (bs : list ascii) :
  (List.length bs mod 3 <> 0)%nat ->
  decodeFrom RawURLEncoding (encodeBytes URLEncoding bs) [] = None.
Proof.
  induction bs as [|a|a b|a b c l IH] using list_ind3; intros Hlen.
  - exfalso. apply Hlen. reflexivity.
  - cbn [encodeBytes].
    change (encodeChar URLEncoding) with (encodeChar RawURLEncoding).
    rewrite !(Base64Facts.decode_char RawURLEncoding raw_alphabet)
      by apply Base64Facts.sextet_range.
    reflexivity.
  - cbn [encodeBytes].
    change (encodeChar URLEncoding) with (encodeChar RawURLEncoding).
    rewrite !(Base64Facts.decode_char RawURLEncoding raw_alphabet)
      by apply Base64Facts.sextet_range.
    reflexivity.
  - cbn [encodeBytes].
    change (encodeChar URLEncoding) with (encodeChar RawURLEncoding).
    rewrite !(Base64Facts.decode_char RawURLEncoding raw_alphabet)
      by apply Base64Facts.sextet_range.
    cbn [List.app List.length Nat.eqb]. rewrite IH; [reflexivity|].
    intros E. apply Hlen. cbn [List.length].
    replace (S (S (S (List.length l)))) with (List.length l + 1 * 3)%nat by lia.
    rewrite Nat.Div0.mod_add. exact E.
Qed.

Lemma length_list_ascii (s : string) :
  List.length (list_ascii_of_string s) = String.length s.
Proof. induction s; simpl; congruence. Qed.

End DownloadFacts.

(** X18.  downloadAttachment writes at most one file, and only to the
    path built from the downloads directory and the sanitized name of the
    attachment; what it writes is the decoding, without padding, of what
    the service answered.  It writes nothing when the service fails, when
    the answer does not decode or when the directory cannot be made.  It
    completes with the download message, bearing that path, exactly when
    the write succeeded, and with a notification otherwise. *)
Theorem downloadAttachment_writes (go : GoLib) (disk : Disk) (srv : Service)
        (msgID : string) (attachment : MessagePart) (msg : Msg)
        (writes : list (string * string)) :
  downloadAttachment go disk srv msgID attachment = Some (msg, writes) ->
  ((writes = [] /\ exists text : string, msg = notificationMsg text)
   \/ exists (b : MessagePartBody) (attData data : string),
        Body attachment = Some b
        /\ attachmentsGet srv msgID (AttachmentId b) = Ok attData
        /\ Base64.DecodeString Base64.RawURLEncoding attData = Some data
        /\ MkdirAll disk downloadsDir = None
        /\ writes = [(downloadFilename go attachment, data)]
        /\ match WriteFile disk (downloadFilename go attachment) data with
           | None => msg = attachmentDownloadedMsg (downloadFilename go attachment)
           | Some e => msg = notificationMsg ("Save failed: " ++ e)
           end).
Proof.
  unfold downloadAttachment. intros H.
  destruct (Body attachment) as [b|]; [|discriminate H].
  destruct (attachmentsGet srv msgID (AttachmentId b)) as [attData|e] eqn:Hget.
  - destruct (Base64.DecodeString Base64.RawURLEncoding attData) as [data|] eqn:Hdec.
    + destruct (MkdirAll disk downloadsDir) as [e|] eqn:Hdir.
      * injection H as <- <-. left. split; [reflexivity | eexists; reflexivity].
      * right. exists b, attData, data.
        change (Filepath.JoinPath [downloadsDir; sanitizeFilename go (Filename attachment)])
          with (downloadFilename go attachment) in H.
        destruct (WriteFile disk (downloadFilename go attachment) data) as [e|];
          injection H as <- <-; repeat split; assumption.
    + injection H as <- <-. left. split; [reflexivity | eexists; reflexivity].
  - injection H as <- <-. left. split; [reflexivity | eexists; reflexivity].
Qed.

Lemma downloadAttachment_writes_witness :
  (([("downloads/report.pdf", EmptyString)] = []
    /\ exists text : string,
         attachmentDownloadedMsg "downloads/report.pdf" = notificationMsg text)
   \/ exists (b : MessagePartBody) (attData data : string),
        Body pdfPart = Some b
        /\ attachmentsGet sampleService "m1" (AttachmentId b) = Ok attData
        /\ Base64.DecodeString Base64.RawURLEncoding attData = Some data
        /\ MkdirAll sampleDisk downloadsDir = None
        /\ [("downloads/report.pdf", EmptyString)]
           = [(downloadFilename plainGo pdfPart, data)]
        /\ match WriteFile sampleDisk (downloadFilename plainGo pdfPart) data with
           | None =>
               attachmentDownloadedMsg "downloads/report.pdf"
               = attachmentDownloadedMsg (downloadFilename plainGo pdfPart)
           | Some e =>
               attachmentDownloadedMsg "downloads/report.pdf"
               = notificationMsg ("Save failed: " ++ e)
           end).
Proof.
  apply (downloadAttachment_writes plainGo sampleDisk sampleService "m1" pdfPart).
  reflexivity.
Defined.

(** X19.  downloadAttachment decodes the answer of the service without
    padding.  An answer in unpadded base64url is written out as the bytes
    it encodes; an answer in padded base64url of a number of bytes that is
    no multiple of three is rejected, nothing is written and the failure
    to decode is notified, although decodeBody accepts the same text. *)
Theorem downloadAttachment_padding (go : GoLib) (disk : Disk) (srv : Service)
        (msgID : string) (attachment : MessagePart) (b : MessagePartBody)
        (bytes : string) :
  Body attachment = Some b ->
  (attachmentsGet srv msgID (AttachmentId b)
   = Ok (Base64.EncodeToString Base64.RawURLEncoding bytes) ->
   MkdirAll disk downloadsDir = None ->
   WriteFile disk (downloadFilename go attachment) bytes = None ->
   downloadAttachment go disk srv msgID attachment
   = Some (attachmentDownloadedMsg (downloadFilename go attachment),
           [(downloadFilename go attachment, bytes)]))
  /\ (attachmentsGet srv msgID (AttachmentId b)
      = Ok (Base64.EncodeToString Base64.URLEncoding bytes) ->
      (String.length bytes mod 3 <> 0)%nat ->
      downloadAttachment go disk srv msgID attachment
      = Some (notificationMsg
                ("Failed to decode: "
                 ++ corruptInput disk (Base64.EncodeToString Base64.URLEncoding bytes)),
              [])
      /\ decodeBody (Base64.EncodeToString Base64.URLEncoding bytes) = bytes).
Proof.
  intros Hb. split.
  - intros Hget Hdir Hwrite. unfold downloadAttachment.
    rewrite Hb, Hget, Base64Facts.roundtrip_rawurl, Hdir.
    change (Filepath.JoinPath [downloadsDir; sanitizeFilename go (Filename attachment)])
      with (downloadFilename go attachment).
    rewrite Hwrite. reflexivity.
  - intros Hget Hlen. split.
    + unfold downloadAttachment. rewrite Hb, Hget.
      unfold Base64.DecodeString, Base64.EncodeToString.
      rewrite DownloadFacts.raw_rejects_padded
        by (rewrite DownloadFacts.length_list_ascii; exact Hlen).
      reflexivity.
    + apply DecodeBodyFacts.decodeBody_url.
Qed.

Lemma downloadAttachment_padding_witness :
  downloadAttachment plainGo sampleDisk sampleService "m1" pdfPart
  = Some (attachmentDownloadedMsg (downloadFilename plainGo pdfPart),
          [(downloadFilename plainGo pdfPart, EmptyString)])
  /\ downloadAttachment plainGo sampleDisk paddingService "m1" pdfPart
     = Some (notificationMsg
               ("Failed to decode: "
                ++ corruptInput sampleDisk
                     (Base64.EncodeToString Base64.URLEncoding "hi")),
             [])
  /\ decodeBody (Base64.EncodeToString Base64.URLEncoding "hi") = "hi".
Proof.
  split.
  - destruct (downloadAttachment_padding plainGo sampleDisk sampleService "m1" pdfPart
                (mkBody "att-1" EmptyString 1024) EmptyString eq_refl) as [H _].
    apply H; reflexivity.
  - destruct (downloadAttachment_padding plainGo sampleDisk paddingService "m1" pdfPart
                (mkBody "att-1" EmptyString 1024) "hi" eq_refl) as [_ H].
    apply H; [reflexivity | discriminate].
Defined.

(** ** sanitizeFilename on ASCII names *)

Module AsciiFacts.

Lemma DecodeRune_ascii (c : ascii) (t : string) :
  byteZ c < 128 -> Unicode.DecodeRune (String c t) = (byteZ c, 1%nat).
Proof.
  intros H. unfold Unicode.DecodeRune. cbn [take list_ascii_of_string map].
  replace (byteZ c <? 128) with true by (symmetry; apply Z.ltb_lt; exact H).
  reflexivity.
Qed.

Lemma runes_ascii (s : string) :
  asciiOnly s = true -> Unicode.runes s = map byteZ (list_ascii_of_string s).
Proof.
  unfold Unicode.runes.
  induction s as [|c t IH]; intros H; [reflexivity|].
  cbn [asciiOnly] in H. apply Bool.andb_true_iff in H. destruct H as [Hc Ht].
  apply Z.ltb_lt in Hc.
  cbn [Unicode.runesFrom list_ascii_of_string map].
  rewrite (DecodeRune_ascii c t Hc). cbn [Nat.sub]. rewrite (IH Ht). reflexivity.
Qed.

Lemma EncodeRune_ascii (r : Z) :
  0 <= r < 128 -> Unicode.EncodeRune r = String (Zbyte r) EmptyString.
Proof.
  intros H. unfold Unicode.EncodeRune.
  replace (r <? 0) with false by (symmetry; apply Z.ltb_ge; lia).
  replace (r <? 128) with true by (symmetry; apply Z.ltb_lt; lia).
  reflexivity.
Qed.

Lemma concat_cons (x : string) (l : list string) :
  String.concat EmptyString (x :: l) = x ++ String.concat EmptyString l.
Proof.
  destruct l as [|y l]; [cbn; rewrite app_empty_r; reflexivity | reflexivity].
Qed.

Lemma sanitizeByte_twice (c : ascii) : sanitizeByte (sanitizeByte c) = sanitizeByte c.
Proof.
  unfold sanitizeByte. destruct (keptAscii (byteZ c)) eqn:E; [rewrite E|]; reflexivity.
Qed.

Lemma sanitizeByte_ascii (c : ascii) :
  byteZ c < 128 -> byteZ (sanitizeByte c) < 128.
Proof.
  intros H. unfold sanitizeByte. destruct (keptAscii (byteZ c)); [exact H|].
  reflexivity.
Qed.

Lemma mapBytes_twice (s : string) :
  mapBytes sanitizeByte (mapBytes sanitizeByte s) = mapBytes sanitizeByte s.
Proof.
  induction s as [|c t IH]; cbn [mapBytes]; [reflexivity|].
  rewrite sanitizeByte_twice, IH. reflexivity.
Qed.

Lemma mapBytes_ascii (s : string) :
  asciiOnly s = true -> asciiOnly (mapBytes sanitizeByte s) = true.
Proof.
  induction s as [|c t IH]; cbn [mapBytes asciiOnly]; intros H; [reflexivity|].
  apply Bool.andb_true_iff in H. destruct H as [Hc Ht].
  apply Z.ltb_lt in Hc. apply Bool.andb_true_iff. split; [|apply IH, Ht].
  apply Z.ltb_lt, sanitizeByte_ascii, Hc.
Qed.

Lemma length_mapBytes (f : ascii -> ascii) (s : string) :
  String.length (mapBytes f s) = String.length s.
Proof. induction s; simpl; congruence. Qed.

Section WithGo.

Variable go : GoLib.

Lemma sanitize_one (c : ascii) :
  byteZ c < 128 ->
  Unicode.EncodeRune (sanitizeRune go (byteZ c)) = String (sanitizeByte c) EmptyString.
Proof.
  intros H. pose proof (Base64Facts.byteZ_range c) as Hr.
  change (sanitizeRune go (byteZ c))
    with (if kept go (byteZ c) then byteZ c else 95).
  rewrite (SanitizeFacts.kept_ascii go (byteZ c)) by lia.
  unfold sanitizeByte. destruct (keptAscii (byteZ c)).
  - rewrite EncodeRune_ascii by lia. rewrite Base64Facts.Zbyte_byteZ. reflexivity.
  - reflexivity.
Qed.

(** On an ASCII name, sanitizeFilename works byte by byte. *)
Lemma sanitizeFilename_bytes (name : string) :
  asciiOnly name = true -> sanitizeFilename go name = mapBytes sanitizeByte name.
Proof.
  intros H. unfold sanitizeFilename, Unicode.Map. rewrite (runes_ascii name H).
  induction name as [|c t IH]; [reflexivity|].
  cbn [asciiOnly] in H. apply Bool.andb_true_iff in H. destruct H as [Hc Ht].
  apply Z.ltb_lt in Hc.
  cbn [list_ascii_of_string map mapBytes]. rewrite concat_cons, (sanitize_one c Hc).
  rewrite (IH Ht). reflexivity.
Qed.

End WithGo.

End AsciiFacts.

(** X20.  On a name of ASCII bytes only, sanitizeFilename works byte by
    byte, whatever the tables of the unicode package hold above Latin-1:
    letters, digits, the space, the five white-space controls and the
    marks [-], [_] and [.] are kept, every other byte becomes [_].  The
    result is as long as the name, is ASCII again, and sanitizing it again
    changes nothing. *)
Theorem sanitizeFilename_ascii (go : GoLib) (name : string) :
  asciiOnly name = true ->
  sanitizeFilename go name = mapBytes sanitizeByte name
  /\ String.length (sanitizeFilename go name) = String.length name
  /\ asciiOnly (sanitizeFilename go name) = true
  /\ sanitizeFilename go (sanitizeFilename go name) = sanitizeFilename go name.
Proof.
  intros H. pose proof (AsciiFacts.sanitizeFilename_bytes go name H) as E.
  split; [exact E|]. rewrite E. split; [apply AsciiFacts.length_mapBytes|].
  split; [apply AsciiFacts.mapBytes_ascii, H|].
  rewrite AsciiFacts.sanitizeFilename_bytes by apply AsciiFacts.mapBytes_ascii, H.
  apply AsciiFacts.mapBytes_twice.
Qed.

Lemma sanitizeFilename_ascii_witness :
  sanitizeFilename plainGo "a b/c:d?.pdf" = mapBytes sanitizeByte "a b/c:d?.pdf"
  /\ String.length (sanitizeFilename plainGo "a b/c:d?.pdf")
     = String.length "a b/c:d?.pdf"
  /\ asciiOnly (sanitizeFilename plainGo "a b/c:d?.pdf") = true
  /\ sanitizeFilename plainGo (sanitizeFilename plainGo "a b/c:d?.pdf")
     = sanitizeFilename plainGo "a b/c:d?.pdf".
Proof.
  apply (sanitizeFilename_ascii plainGo "a b/c:d?.pdf"). reflexivity.
Defined.

Example sanitizeFilename_ascii_sample :
  mapBytes sanitizeByte "a b/c:d?.pdf" = "a b_c_d_.pdf".
Proof. reflexivity. Qed.

(** ** Quitting *)

Module QuitFacts.

Lemma Batch_not_quit (cmds : list Cmd) : Batch cmds <> CmdQuit.
Proof. unfold Batch. destruct (filter _ cmds); discriminate. Qed.

Section WithLibraries.

Variable go : GoLib.
Variable ui : Bubbles.
Variable os : OS.
Hypothesis Hquiet : quiet ui.

Lemma focus_not_quit (x m0 : model) (c0 : Cmd) :
  focusComposeField x = (m0, c0) -> c0 <> CmdQuit.
Proof.
  unfold focusComposeField.
  repeat match goal with
         | |- context [if ?b then _ else _] => destruct b
         end; intros E; injection E as <- <-; discriminate.
Qed.

(** The command of a component is not the quit command. *)
Ltac component_quiet :=
  match goal with
  | E : ?u = (_, ?cmd), Hq : ?cmd = CmdQuit |- _ =>
      apply (f_equal snd) in E; cbn [snd] in E; rewrite Hq in E;
      destruct Hquiet as (Q1 & Q2 & Q3 & Q4 & Q5);
      first [ exact (Q1 _ _ _ E) | exact (Q2 _ _ E) | exact (Q3 _ _ E)
            | exact (Q4 _ _ E) | exact (Q5 _ _ E) ]
  end.

Ltac no_quit :=
  let Hq := fresh "Hq" in
  intros Hq; exfalso;
  first [ discriminate Hq
        | exact (Batch_not_quit _ Hq)
        | match goal with
          | E : focusComposeField _ = (_, ?cmd) |- _ => exact (focus_not_quit _ _ _ E Hq)
          end
        | component_quiet ].

Lemma updateComposeFields_quiet (msg : Msg) (m m' : model) (c : Cmd) :
  updateComposeFields ui msg m = Some (m', c) -> c <> CmdQuit.
Proof.
  intros H. unfold updateComposeFields in H. handler_cases H; no_quit.
Qed.

Lemma handleAttachmentAdd_quiet (m m' : model) (c : Cmd) :
  handleAttachmentAdd os m = Some (m', c) -> c <> CmdQuit.
Proof.
  intros H. unfold handleAttachmentAdd in H. handler_cases H; no_quit.
Qed.

Lemma updateComposing_quiet (msg : KeyMsg) (m m' : model) (c : Cmd) :
  updateComposing ui os msg m = Some (m', c) -> c <> CmdQuit.
Proof.
  intros H. unfold updateComposing in H.
  pose proof (updateComposeFields_quiet (TeaKeyMsg msg) m m' c) as Hfwd.
  pose proof (handleAttachmentAdd_quiet m m' c) as Hadd.
  set (fwd := updateComposeFields ui (TeaKeyMsg msg) m) in *.
  set (add := handleAttachmentAdd os m) in *.
  cbv zeta in H.
  split_result H;
    try (apply Hfwd; exact H); try (apply Hadd; exact H);
    try discriminate H;
    unfold ret in H; injection H as <- <-; no_quit.
Qed.

(** Where the quit command comes from. *)
Lemma Update_quit (msg : Msg) (m m' : model) (c : Cmd) :
  Update go ui os msg m = Some (m', c) ->
  c = CmdQuit ->
  m' = m
  /\ exists k : KeyMsg,
       msg = TeaKeyMsg k /\ Matches k (Quit keys) = true
       /\ (Model.state m = stateInbox
           \/ (Model.state m = stateViewing /\ Model.attachmentDownloading m = false)).
Proof.
  intros H.
  destruct msg; cbn [Update] in H.
  - unfold handleWindowSize in H. handler_cases H; no_quit.
  - unfold handleKeyPress in H.
    destruct (negb (Model.showHelp m) && Matches k (ShowHelp keys));
      [injection H as <- <-; no_quit|].
    destruct (Model.showHelp m && Matches k (CloseHelp keys));
      [injection H as <- <-; no_quit|].
    destruct (Model.state m) eqn:Est.
    + unfold updateInbox in H. handler_cases H; try no_quit.
      intros _. split; [reflexivity|]. exists k.
      split; [reflexivity|]. split; [assumption | left; reflexivity].
    + destruct (Model.attachmentDownloading m) eqn:Harm.
      * unfold handleAttachmentDownload in H. handler_cases H; no_quit.
      * unfold updateViewing in H. handler_cases H; try no_quit.
        intros _. split; [reflexivity|]. exists k.
        split; [reflexivity|]. split; [assumption | right; split; reflexivity].
    + injection H as <- <-; no_quit.
    + intros Hq. exfalso. exact (updateComposing_quiet k m m' c H Hq).
    + unfold updateReplying in H. handler_cases H; no_quit.
    + unfold updateSearching in H. handler_cases H; no_quit.
    + unfold updateLabelManagement in H. handler_cases H; no_quit.
  - injection H as <- <-; no_quit.
  - injection H as <- <-; no_quit.
  - unfold updateComponents in H. handler_cases H; no_quit.
  - injection H as <- <-; no_quit.
  - injection H as <- <-; no_quit.
  - injection H as <- <-; no_quit.
  - unfold updateComponents in H. handler_cases H; no_quit.
  - unfold updateComponents in H. handler_cases H; no_quit.
Qed.

End WithLibraries.

(** A key bound to quit is bound to nothing else. *)
Lemma quit_key_only (k : KeyMsg) :
  Matches k (Quit keys) = true ->
  Matches k (ShowHelp keys) = false /\ Matches k (CloseHelp keys) = false
  /\ Matches k (Compose keys) = false /\ Matches k (Search keys) = false
  /\ Matches k (Labels keys) = false /\ Matches k (Back keys) = false
  /\ Matches k (Reply keys) = false /\ Matches k (Delete keys) = false
  /\ Matches k (ToggleRead keys) = false.
Proof.
  unfold Matches. cbn [keys Quit existsb]. rewrite Bool.orb_false_r.
  intros H. apply Bool.orb_true_iff in H.
  destruct H as [H | H]; apply String.eqb_eq in H; rewrite H; repeat split; reflexivity.
Qed.

End QuitFacts.

(** X21.  The program asks to quit only on a key bound to quit (q,
    ctrl+c), and only in the inbox or in the viewer with the attachment
    picker not armed, as long as no component asks for it; the model is
    then left as it is.  Conversely such a key always quits there, the help
    overlay shown or not.  In the composers, the search form, the label
    list, the armed picker and the Loading state no key quits. *)
Theorem quit_only_from_lists (go : GoLib) (ui : Bubbles) (os : OS) :
  (forall (msg : Msg) (m m' : model),
      quiet ui ->
      Update go ui os msg m = Some (m', CmdQuit) ->
      m' = m
      /\ exists k : KeyMsg,
           msg = TeaKeyMsg k /\ Matches k (Quit keys) = true
           /\ (Model.state m = stateInbox
               \/ (Model.state m = stateViewing
                   /\ Model.attachmentDownloading m = false)))
  /\ (forall (k : KeyMsg) (m : model),
         Matches k (Quit keys) = true ->
         Model.state m = stateInbox
         \/ (Model.state m = stateViewing /\ Model.attachmentDownloading m = false) ->
         Update go ui os (TeaKeyMsg k) m = Some (m, CmdQuit)).
Proof.
  split.
  - intros msg m m' Hquiet H.
    exact (QuitFacts.Update_quit go ui os Hquiet msg m m' CmdQuit H eq_refl).
  - intros k m Hk Hst.
    destruct (QuitFacts.quit_key_only k Hk)
      as (Hh & Hc & Hcomp & Hsearch & Hlab & Hback & Hrep & Hdel & Htog).
    cbn [Update]. unfold handleKeyPress. rewrite Hh, Hc, !Bool.andb_false_r.
    destruct Hst as [Hst | [Hst Harm]]; rewrite Hst.
    + unfold updateInbox. rewrite Hcomp, Hsearch, Hlab, Hk. reflexivity.
    + rewrite Harm. unfold updateViewing.
      rewrite Hback, Hrep, Hdel, Htog, Hlab, Hk. reflexivity.
Qed.

Example quit_sample :
  quiet inertBubbles
  /\ option_map snd
       (Update plainGo inertBubbles sampleOS (TeaKeyMsg (runeKey "q")) sampleModel)
     = Some CmdQuit
  /\ option_map snd
       (Update plainGo inertBubbles sampleOS (TeaKeyMsg (specialKey KeyCtrlC))
               replyingModel)
     = Some CmdNil
  /\ option_map snd
       (Update plainGo inertBubbles sampleOS (TeaKeyMsg (runeKey "q")) armedModel)
     = Some CmdNil.
Proof.
  split; [repeat split; intros; discriminate|]. repeat split; reflexivity.
Qed.

(** ** Opening a message *)

(** X22.  The text loaded for the viewer is made of three header lines
    and the body: the values of the last From, Subject and Date headers of
    the payload (the date formatted), an empty line, and the text
    extracted from the payload, or a fixed placeholder when that text is
    empty.  A failure of the fetch completes with the load error, behind
    [failed to fetch message: ]. *)
Theorem loadEmail_content (go : GoLib) (srv : Service) (msgID : string) :
  (forall (msg : Message) (p : MessagePart),
      messagesGet srv msgID "full" = GetOk msg ->
      Payload msg = Some p ->
      loadEmail go srv msgID
      = Some (emailLoadedMsg
                ("From: " ++ orElse (lastHeader "From" (Headers p)) EmptyString ++ nl
                 ++ "Subject: " ++ orElse (lastHeader "Subject" (Headers p)) EmptyString
                 ++ nl
                 ++ "Date: "
                 ++ orElse (option_map (formatDate go) (lastHeader "Date" (Headers p)))
                           EmptyString
                 ++ nl ++ nl
                 ++ (if isEmpty (extractPlainText go p)
                     then "(no text content found)"
                     else extractPlainText go p))))
  /\ (forall e : error,
         messagesGet srv msgID "full" = GetError e ->
         loadEmail go srv msgID
         = Some (emailLoadErrorMsg ("failed to fetch message: " ++ e))).
Proof.
  split.
  - intros msg p Hget Hp. unfold loadEmail, fetchFullEmailBody. rewrite Hget, Hp.
    destruct (FieldFacts.headers_fold go (Headers p) emptyItem)
      as (F1 & F2 & F3 & _).
    rewrite F1, F2, F3. reflexivity.
  - intros e Hget. unfold loadEmail, fetchFullEmailBody. rewrite Hget. reflexivity.
Qed.

Example loadEmail_sample :
  loadEmail plainGo sampleService "m1"
  = Some (emailLoadedMsg
            ("From: ann@example.com" ++ nl ++ "Subject: Report" ++ nl
             ++ "Date: Mon, 02 Jan 2006 15:04:05 -0700" ++ nl ++ nl
             ++ "(no text content found)")).
Proof. reflexivity. Qed.

(** X23.  The size of the window is recorded in every state, and the
    state is kept; the viewer that a loaded text opens, from whatever
    state, shows exactly that text in a viewport as wide as the window
    last recorded and seven lines less high. *)
Theorem viewer_takes_window_size (go : GoLib) (ui : Bubbles) (os : OS) (m : model)
        (w h : Z) (content : string) :
  exists m1 m2 : model,
    Update go ui os (WindowSizeMsg w h) m = Some (m1, CmdNil)
    /\ Model.state m1 = Model.state m
    /\ Model.width m1 = w /\ Model.height m1 = h
    /\ Update go ui os (emailLoadedMsg content) m1 = Some (m2, CmdNil)
    /\ Model.state m2 = stateViewing
    /\ Model.fullEmail m2 = content
    /\ vpContent (Model.viewport m2) = content
    /\ vpWidth (Model.viewport m2) = w
    /\ vpHeight (Model.viewport m2) = h - 7
    /\ Model.currentMsg m2 = Model.currentMsg m.
Proof.
  assert (Hsize : exists m1 : model,
             handleWindowSize w h m = Some (m1, CmdNil)
             /\ Model.state m1 = Model.state m
             /\ Model.width m1 = w /\ Model.height m1 = h
             /\ Model.currentMsg m1 = Model.currentMsg m).
  { unfold handleWindowSize, ret.
    cbn [Model.state Upd.help Upd.height Upd.width].
    destruct (Model.state m) eqn:Est; eexists; (split; [reflexivity|]);
      repeat split; cbn; first [reflexivity | exact Est]. }
  destruct Hsize as (m1 & H1 & Hst & Hw & Hh & Hcur).
  exists m1. eexists. split; [exact H1|].
  split; [exact Hst|]. split; [exact Hw|]. split; [exact Hh|].
  split; [reflexivity|]. cbn. rewrite Hw, Hh. repeat split. exact Hcur.
Qed.

(** ** The white space of stripHTML *)

Module TrimFacts.

Import Html.

Lemma space_is_respace (c : ascii) :
  isReSpace c = false -> Ascii.eqb c " " = false.
Proof.
  intros H. destruct (Ascii.eqb_spec c " ") as [-> | _]; [discriminate H | reflexivity].
Qed.

(** collapseSpace leaves single spaces only, and none in front when a run
    is being skipped. *)
Lemma collapse_single (s : string) :
  forall inRun : bool,
    singleSpaced (collapseSpace inRun s) = true
    /\ (inRun = true -> headIs " " (collapseSpace inRun s) = false).
Proof.
  induction s as [|c t IH]; intros inRun; cbn [collapseSpace].
  - split; reflexivity.
  - destruct (isReSpace c) eqn:Hc.
    + destruct inRun.
      * apply IH.
      * destruct (IH true) as [H1 H2]. split; [|discriminate].
        cbn [singleSpaced]. rewrite H1, (H2 eq_refl). reflexivity.
    + destruct (IH false) as [H1 _]. pose proof (space_is_respace c Hc) as Hs.
      split.
      * cbn [singleSpaced]. rewrite Hc, Hs, H1. reflexivity.
      * intros _. cbn [headIs]. exact Hs.
Qed.

Lemma singleSpaced_tail (c : ascii) (t : string) :
  singleSpaced (String c t) = true -> singleSpaced t = true.
Proof.
  cbn [singleSpaced]. intros H. apply Bool.andb_true_iff in H. apply H.
Qed.

Lemma singleSpaced_drop (n : nat) :
  forall s : string, singleSpaced s = true -> singleSpaced (drop n s) = true.
Proof.
  induction n as [|n IH]; intros s H; destruct s as [|c t]; cbn [drop]; try exact H.
  apply IH. eapply singleSpaced_tail. exact H.
Qed.

Lemma dropSpaceRune_some (pats : list string) (s r : string) :
  dropSpaceRune pats s = Some r ->
  exists p : string,
    In p pats /\ String.prefix p s = true /\ r = drop (String.length p) s.
Proof.
  unfold dropSpaceRune. destruct (find _ pats) as [p|] eqn:E; [|discriminate].
  intros H. injection H as <-. apply List.find_some in E. destruct E as [Hin Hp].
  exists p. repeat split; assumption.
Qed.

Lemma singleSpaced_trimLeft (fuel : nat) (pats : list string) :
  forall s : string,
    singleSpaced s = true -> singleSpaced (trimLeft fuel pats s) = true.
Proof.
  induction fuel as [|k IH]; intros s H; cbn [trimLeft]; [exact H|].
  destruct (dropSpaceRune pats s) as [r|] eqn:E; [|exact H].
  destruct (dropSpaceRune_some pats s r E) as (p & _ & _ & ->).
  apply IH, singleSpaced_drop, H.
Qed.

Lemma singleSpaced_rev (s : string) :
  forall acc : string,
    singleSpaced s = true -> singleSpaced acc = true ->
    (headIs " " s && headIs " " acc)%bool = false ->
    singleSpaced (rev s acc) = true.
Proof.
  induction s as [|c t IH]; intros acc Hs Hacc Hb; cbn [rev]; [exact Hacc|].
  cbn [singleSpaced] in Hs.
  apply Bool.andb_true_iff in Hs. destruct Hs as [Hs Ht].
  apply Bool.andb_true_iff in Hs. destruct Hs as [Hok Hpair].
  cbn [headIs] in Hb. apply IH.
  - exact Ht.
  - cbn [singleSpaced]. rewrite Hok, Hb, Hacc. reflexivity.
  - cbn [headIs]. apply Bool.negb_true_iff in Hpair.
    rewrite Bool.andb_comm. exact Hpair.
Qed.

Lemma singleSpaced_TrimSpace (s : string) :
  singleSpaced s = true -> singleSpaced (TrimSpace s) = true.
Proof.
  intros H. unfold TrimSpace.
  apply singleSpaced_rev; [|reflexivity|apply Bool.andb_false_r].
  apply singleSpaced_trimLeft.
  apply singleSpaced_rev; [|reflexivity|apply Bool.andb_false_r].
  apply singleSpaced_trimLeft, H.
Qed.

(** *** The ends *)

Lemma length_drop (n : nat) :
  forall s : string, String.length (drop n s) = (String.length s - n)%nat.
Proof.
  induction n as [|n IH]; intros s; destruct s as [|c t]; cbn [drop String.length];
    try lia.
  rewrite IH. lia.
Qed.

Lemma prefix_empty (p : string) :
  p <> EmptyString -> String.prefix p EmptyString = false.
Proof. destruct p; [congruence | reflexivity]. Qed.

Lemma find_none_all {A} (f : A -> bool) (l : list A) :
  (forall x, In x l -> f x = false) -> find f l = None.
Proof.
  induction l as [|x l IH]; intros H; cbn [find]; [reflexivity|].
  rewrite (H x (or_introl eq_refl)). apply IH. intros y Hy. apply H. right. exact Hy.
Qed.

(** With fuel for every byte, trimLeft stops where no pattern is in
    front. *)
Lemma trimLeft_done (pats : list string) :
  (forall p, In p pats -> p <> EmptyString) ->
  forall (fuel : nat) (s : string),
    (String.length s <= fuel)%nat ->
    dropSpaceRune pats (trimLeft fuel pats s) = None.
Proof.
  intros Hpats. induction fuel as [|k IH]; intros s Hlen; cbn [trimLeft].
  - destruct s as [|c t]; [|cbn [String.length] in Hlen; lia].
    unfold dropSpaceRune. rewrite find_none_all; [reflexivity|].
    intros p Hp. apply prefix_empty, Hpats, Hp.
  - destruct (dropSpaceRune pats s) as [r|] eqn:E; [|exact E].
    destruct (dropSpaceRune_some pats s r E) as (p & Hin & Hpre & ->).
    apply IH. rewrite length_drop.
    pose proof (Hpats p Hin) as Hne.
    destruct p as [|a p']; [congruence|].
    destruct s as [|c t]; [discriminate Hpre|].
    cbn [String.length] in *. lia.
Qed.

Lemma not_found (pats : list string) (s p : string) :
  dropSpaceRune pats s = None -> In p pats -> String.prefix p s = false.
Proof.
  unfold dropSpaceRune. destruct (find _ pats) as [q|] eqn:E; [discriminate|].
  intros _ Hin. exact (List.find_none _ _ E p Hin).
Qed.

Lemma headIs_prefix (c : ascii) (s : string) :
  String.prefix (String c EmptyString) s = false -> headIs c s = false.
Proof.
  destruct s as [|d t]; [reflexivity|]. cbn [String.prefix headIs].
  destruct (ascii_dec c d) as [-> | Hne].
  - destruct t; discriminate.
  - intros _. destruct (Ascii.eqb_spec d c); [congruence | reflexivity].
Qed.

Lemma spaceRunes_nonempty (p : string) : In p spaceRunes -> p <> EmptyString.
Proof.
  assert (H : forallb (fun q => negb (isEmpty q)) spaceRunes = true) by reflexivity.
  intros Hin E. rewrite forallb_forall in H. specialize (H p Hin).
  rewrite E in H. discriminate H.
Qed.

Lemma back_nonempty (p : string) :
  In p (map (fun q => rev q EmptyString) spaceRunes) -> p <> EmptyString.
Proof.
  assert (H : forallb (fun q => negb (isEmpty q))
                      (map (fun q => rev q EmptyString) spaceRunes) = true)
    by reflexivity.
  intros Hin E. rewrite forallb_forall in H. specialize (H p Hin).
  rewrite E in H. discriminate H.
Qed.

Lemma rev_rev (s : string) :
  forall acc acc' : string, rev (rev s acc) acc' = rev acc (s ++ acc').
Proof.
  induction s as [|c t IH]; intros acc acc'; cbn [rev append]; [reflexivity|].
  rewrite IH. reflexivity.
Qed.

Lemma rev_involutive (s : string) : rev (rev s EmptyString) EmptyString = s.
Proof. rewrite rev_rev. cbn [rev]. apply app_empty_r. Qed.

(** The first byte of a reversed text that is not empty is its last,
    whatever it is reversed onto. *)
Lemma head_rev (c : ascii) (s : string) :
  s <> EmptyString ->
  forall x y : string, headIs c (rev s x) = headIs c (rev s y).
Proof.
  induction s as [|a t IH]; intros Hne x y; [congruence|]. cbn [rev].
  destruct t as [|b t']; [reflexivity|]. apply IH. discriminate.
Qed.

Lemma suffixOf_refl (s : string) : suffixOf s s.
Proof. intros acc. exists acc. reflexivity. Qed.

Lemma suffixOf_trans (s r u : string) : suffixOf s r -> suffixOf r u -> suffixOf s u.
Proof.
  intros H1 H2 acc. destruct (H1 acc) as [x Hx]. destruct (H2 x) as [y Hy].
  exists y. congruence.
Qed.

Lemma suffixOf_drop (n : nat) : forall s : string, suffixOf s (drop n s).
Proof.
  induction n as [|n IH]; intros s; destruct s as [|c t]; cbn [drop];
    try apply suffixOf_refl.
  intros acc. cbn [rev]. apply IH.
Qed.

Lemma suffixOf_trimLeft (fuel : nat) (pats : list string) :
  forall s : string, suffixOf s (trimLeft fuel pats s).
Proof.
  induction fuel as [|k IH]; intros s; cbn [trimLeft]; [apply suffixOf_refl|].
  destruct (dropSpaceRune pats s) as [r|] eqn:E; [|apply suffixOf_refl].
  destruct (dropSpaceRune_some pats s r E) as (p & _ & _ & ->).
  eapply suffixOf_trans; [apply suffixOf_drop | apply IH].
Qed.

(** TrimSpace leaves no space at either end. *)
Lemma TrimSpace_ends (s : string) :
  headIs " " (TrimSpace s) = false /\ lastIs " " (TrimSpace s) = false.
Proof.
  unfold TrimSpace, lastIs.
  set (l := trimLeft (String.length s) spaceRunes s).
  set (back := map (fun p => rev p EmptyString) spaceRunes).
  set (t := trimLeft (String.length l) back (rev l EmptyString)).
  assert (Hl : headIs " " l = false).
  { apply headIs_prefix.
    apply (not_found spaceRunes l " ").
    - apply trimLeft_done; [exact spaceRunes_nonempty | apply Nat.le_refl].
    - unfold spaceRunes. cbn. tauto. }
  assert (Hlen : forall x acc, String.length (rev x acc)
                               = (String.length x + String.length acc)%nat).
  { induction x as [|c x IH]; intros acc; cbn [rev String.length]; [reflexivity|].
    rewrite IH. cbn [String.length]. lia. }
  assert (Ht : headIs " " t = false).
  { apply headIs_prefix.
    apply (not_found back t " ").
    - apply trimLeft_done; [exact back_nonempty|].
      rewrite Hlen. cbn [String.length]. lia.
    - unfold back, spaceRunes. cbn. tauto. }
  split.
  - destruct t as [|c t'] eqn:Et; [reflexivity|].
    destruct (suffixOf_trimLeft (String.length l) back (rev l EmptyString) EmptyString)
      as [front Hfront].
    fold t in Hfront. rewrite rev_involutive in Hfront.
    rewrite <- Et. rewrite (head_rev " " t) with (y := front).
    + rewrite <- Hfront. exact Hl.
    + rewrite Et. discriminate.
  - rewrite rev_involutive. exact Ht.
Qed.

End TrimFacts.

(** X24.  The text stripHTML returns is normalised: it holds no tab, line
    feed, form feed or carriage return, it never has two spaces in a row,
    and it neither begins nor ends with a space, whatever the input and in
    whatever order the entities are replaced. *)
Theorem stripHTML_normal (go : GoLib) (input : string) :
  singleSpaced (stripHTML go input) = true
  /\ headIs " " (stripHTML go input) = false
  /\ lastIs " " (stripHTML go input) = false.
Proof.
  unfold stripHTML. split.
  - apply TrimFacts.singleSpaced_TrimSpace, TrimFacts.collapse_single.
  - apply TrimFacts.TrimSpace_ends.
Qed.

Example stripHTML_normal_sample :
  stripHTML plainGo (" <p>a &amp;  b</p>" ++ nl ++ "<br/> c&nbsp;") = "a & b c"
  /\ singleSpaced "a  b" = false
  /\ singleSpaced ("a" ++ nl ++ "b") = false.
Proof. repeat split; reflexivity. Qed.

(** ** Deleting and marking in the inbox *)

Module InboxFacts.

(** The keys bound to delete and to the read mark are bound to nothing
    the inbox looks at before. *)
Lemma action_key_only (k : KeyMsg) (s : string) :
  s = "d" \/ s = "m" ->
  keyString k = s ->
  Matches k (ShowHelp keys) = false /\ Matches k (CloseHelp keys) = false
  /\ Matches k (Compose keys) = false /\ Matches k (Search keys) = false
  /\ Matches k (Labels keys) = false /\ Matches k (Quit keys) = false
  /\ Matches k (Select keys) = false
  /\ Matches k (Delete keys) = String.eqb s "d"
  /\ Matches k (ToggleRead keys) = String.eqb s "m".
Proof.
  intros Hs Hk. unfold Matches. rewrite Hk.
  destruct Hs as [-> | ->]; repeat split; reflexivity.
Qed.

End InboxFacts.

(** X25.  In the inbox, a key bound to delete asks for the item under the
    cursor to be trashed, and a key bound to the read mark asks for its
    mark to be toggled from the mark the item was built with; neither
    changes the model.  Whatever the service answers, the completion of
    either command changes nothing either: the item stays in the list,
    with the mark it had, until the list is rebuilt. *)
Theorem inbox_actions_keep_list (go : GoLib) (ui : Bubbles) (os : OS) (m : model)
        (item : emailItem) (k : KeyMsg) (srv : Service) :
  Model.state m = stateInbox ->
  SelectedItem (Model.list m) = Some item ->
  (Matches k (Delete keys) = true ->
   Update go ui os (TeaKeyMsg k) m = Some (m, CmdDeleteEmail (id item)))
  /\ (Matches k (ToggleRead keys) = true ->
      Update go ui os (TeaKeyMsg k) m
      = Some (m, CmdToggleReadStatus (id item) (isUnread item)))
  /\ Update go ui os (deleteEmail srv (id item)) m = Some (m, CmdNil)
  /\ Update go ui os (toggleReadStatus srv (id item) (isUnread item)) m
     = Some (m, CmdNil).
Proof.
  intros Hst Hsel. split; [|split; [|split]].
  - intros Hk. apply KeyFacts.Matches_single in Hk.
    destruct (InboxFacts.action_key_only k "d" (or_introl eq_refl) Hk)
      as (H1 & H2 & H3 & H4 & H5 & H6 & H7 & H8 & _).
    cbn [Update]. unfold handleKeyPress. rewrite H1, H2, !Bool.andb_false_r, Hst.
    unfold updateInbox. rewrite H3, H4, H5, H6, H7, H8, Hsel. reflexivity.
  - intros Hk. apply KeyFacts.Matches_single in Hk.
    destruct (InboxFacts.action_key_only k "m" (or_intror eq_refl) Hk)
      as (H1 & H2 & H3 & H4 & H5 & H6 & H7 & H8 & H9).
    cbn [Update]. unfold handleKeyPress. rewrite H1, H2, !Bool.andb_false_r, Hst.
    unfold updateInbox. rewrite H3, H4, H5, H6, H7, H8, H9, Hsel. reflexivity.
  - unfold deleteEmail. destruct (messagesTrash srv (id item));
      cbn [Update]; unfold updateComponents; rewrite Hst; reflexivity.
  - unfold toggleReadStatus. destruct (isUnread item);
      destruct (messagesModify srv (id item) _ _);
      cbn [Update]; unfold updateComponents; rewrite Hst; reflexivity.
Qed.

Lemma inbox_actions_keep_list_witness :
  Update plainGo inertBubbles sampleOS (TeaKeyMsg (runeKey "d")) sampleModel
  = Some (sampleModel, CmdDeleteEmail (id sampleItem))
  /\ Update plainGo inertBubbles sampleOS (TeaKeyMsg (runeKey "m")) sampleModel
     = Some (sampleModel, CmdToggleReadStatus (id sampleItem) (isUnread sampleItem))
  /\ Update plainGo inertBubbles sampleOS (deleteEmail sampleService (id sampleItem))
            sampleModel
     = Some (sampleModel, CmdNil)
  /\ Update plainGo inertBubbles sampleOS
            (toggleReadStatus sampleService (id sampleItem) (isUnread sampleItem))
            sampleModel
     = Some (sampleModel, CmdNil).
Proof.
  destruct (inbox_actions_keep_list plainGo inertBubbles sampleOS sampleModel sampleItem
              (runeKey "d") sampleService eq_refl eq_refl) as (Hd & _ & Hdel & Htog).
  destruct (inbox_actions_keep_list plainGo inertBubbles sampleOS sampleModel sampleItem
              (runeKey "m") sampleService eq_refl eq_refl) as (_ & Hm & _ & _).
  split; [apply Hd; reflexivity|]. split; [apply Hm; reflexivity|].
  split; [exact Hdel | exact Htog].
Defined.

(** ** Going back *)

(** X26.  A key bound to back (esc, and the letter b) is taken by the
    program in every state but the inbox and Loading, and never reaches a
    text field.  From the composer it leads to the inbox and from the reply
    composer to the viewer with the draft left as it is; from the search
    form and the label list it leads to the inbox; from the viewer it
    leads to the inbox with the viewport at its top.  In the composer, while
    a path is being typed, it only abandons the path: the session stays in
    the composer and the attachments are as they were. *)
Theorem back_key_leaves (go : GoLib) (ui : Bubbles) (os : OS) (m : model) (k : KeyMsg) :
  Matches k (Back keys) = true ->
  (Model.state m = stateComposing -> Model.addingAttachment m = false ->
   Update go ui os (TeaKeyMsg k) m = Some (Upd.state stateInbox m, CmdNil))
  /\ (Model.state m = stateComposing -> Model.addingAttachment m = true ->
      exists (m' : model) (c : Cmd),
        Update go ui os (TeaKeyMsg k) m = Some (m', c)
        /\ Model.state m' = stateComposing
        /\ Model.addingAttachment m' = false
        /\ tiValue (Model.attachmentInput m') = EmptyString
        /\ Model.composeAttachments m' = Model.composeAttachments m)
  /\ (Model.state m = stateReplying ->
      Update go ui os (TeaKeyMsg k) m
      = Some (Upd.addingAttachment false (Upd.state stateViewing m), CmdNil))
  /\ (Model.state m = stateSearching ->
      Update go ui os (TeaKeyMsg k) m = Some (Upd.state stateInbox m, CmdNil))
  /\ (Model.state m = stateManagingLabels ->
      Update go ui os (TeaKeyMsg k) m = Some (Upd.state stateInbox m, CmdNil))
  /\ (Model.state m = stateViewing -> Model.attachmentDownloading m = false ->
      Update go ui os (TeaKeyMsg k) m
      = Some (Upd.viewport (GotoTop (Model.viewport m)) (Upd.state stateInbox m),
              CmdNil)).
Proof.
  intros Hk. pose proof (PickerKeys.back_key_not_help k Hk) as Hh.
  assert (Hkey : forall x : model,
             handleKeyPress ui os k x
             = match Model.state x with
               | stateViewing =>
                   if Model.attachmentDownloading x
                   then handleAttachmentDownload k x
                   else updateViewing ui k x
               | stateInbox => updateInbox ui k x
               | stateComposing => updateComposing ui os k x
               | stateReplying => updateReplying ui os k x
               | stateSearching => updateSearching ui k x
               | stateManagingLabels => updateLabelManagement ui k x
               | stateLoading => ret x CmdNil
               end).
  { intros x. unfold handleKeyPress. change (CloseHelp keys) with (ShowHelp keys).
    rewrite Hh, !Bool.andb_false_r. reflexivity. }
  cbn [Update]. rewrite Hkey.
  repeat match goal with |- _ /\ _ => split end.
  - intros Hst Hadd. rewrite Hst. unfold updateComposing. rewrite Hk, Hadd. reflexivity.
  - intros Hst Hadd. rewrite Hst. unfold updateComposing. rewrite Hk, Hadd.
    set (x := Upd.attachmentInput _ _).
    destruct (ControllerFacts.focusComposeField_fields x) as (Fs & _ & _).
    destruct (DraftFacts.attachments_focusComposeField x) as (Fc & _).
    assert (Fa : Model.addingAttachment (fst (focusComposeField x)) = false
                 /\ tiValue (Model.attachmentInput (fst (focusComposeField x)))
                    = EmptyString).
    { unfold focusComposeField.
      repeat match goal with
             | |- context [if ?b then _ else _] => destruct b
             end; split; reflexivity. }
    destruct (focusComposeField x) as [m' c]. cbn [fst] in *.
    exists m', c. split; [reflexivity|]. destruct Fa as [Fa1 Fa2].
    split; [rewrite Fs; exact Hst|]. split; [exact Fa1|]. split; [exact Fa2|].
    rewrite Fc. reflexivity.
  - intros Hst. rewrite Hst. unfold updateReplying. rewrite Hk. reflexivity.
  - intros Hst. rewrite Hst. unfold updateSearching. rewrite Hk. reflexivity.
  - intros Hst. rewrite Hst. unfold updateLabelManagement. rewrite Hk. reflexivity.
  - intros Hst Harm. rewrite Hst, Harm. unfold updateViewing. rewrite Hk. reflexivity.
Qed.

Lemma back_key_leaves_witness :
  Update plainGo inertBubbles sampleOS (TeaKeyMsg (runeKey "b"))
         (after [TeaKeyMsg (runeKey "c")] sampleModel)
  = Some (Upd.state stateInbox (after [TeaKeyMsg (runeKey "c")] sampleModel), CmdNil)
  /\ Update plainGo inertBubbles sampleOS (TeaKeyMsg (runeKey "b")) replyingModel
     = Some (Upd.addingAttachment false (Upd.state stateViewing replyingModel), CmdNil)
  /\ Update plainGo inertBubbles sampleOS (TeaKeyMsg (specialKey KeyEsc))
            (after [TeaKeyMsg (runeKey "/")] sampleModel)
     = Some (Upd.state stateInbox (after [TeaKeyMsg (runeKey "/")] sampleModel), CmdNil).
Proof.
  split; [|split].
  - destruct (back_key_leaves plainGo inertBubbles sampleOS
                (after [TeaKeyMsg (runeKey "c")] sampleModel) (runeKey "b") eq_refl)
      as (H & _).
    apply H; reflexivity.
  - destruct (back_key_leaves plainGo inertBubbles sampleOS replyingModel
                (runeKey "b") eq_refl) as (_ & _ & H & _).
    apply H; reflexivity.
  - destruct (back_key_leaves plainGo inertBubbles sampleOS
                (after [TeaKeyMsg (runeKey "/")] sampleModel) (specialKey KeyEsc) eq_refl)
      as (_ & _ & _ & H & _).
    apply H; reflexivity.
Defined.

(** * The reply and the body it quotes *)



Example reply_send_text :
  option_map snd
    (Update plainGo inertBubbles sampleOS (TeaKeyMsg (specialKey KeyCtrlS)) textReplyModel)
  = Some (CmdSendEmail "bob@example.com" EmptyString EmptyString "Re: Hi"
                       (nl ++ nl ++ "--- Original Message ---" ++ nl
                        ++ "From: bob@example.com" ++ nl
                        ++ "Date: Tue, 03 Jan 2006 10:00:00 -0700" ++ nl
                        ++ nl ++ "> hello" ++ nl ++ "> world")
                       []).
Proof. reflexivity. Qed.

